(** * C-SHELPh: the bathymetry pipeline orchestrator

    A shallow embedding of [cshelph/run_cshelph.py] (the function
    [run_cshelph]) and of the entry point [bin/run_bathy_extraction.py]
    (the function [main], after argument parsing).

    Arrays are lists, binary64 numbers are [spec_float] values at
    precision 53, Python exceptions are values of [exn], and a run is a
    pair of the events it produced (in order) and its outcome.  The
    functions of the module [cshelph.cshelph], which the orchestrator
    only calls, are the fields of the class [Cshelph].

    The numeric arguments of [run_cshelph] are binary64 values; where
    Python holds a small int instead (the defaults 10, -40 and 5 of the
    command line, the literal 20 of the fallback temperature) the model
    holds the binary64 of the same value, which is what numpy compares
    with. *)

From Stdlib Require Import ZArith List String Ascii Bool Lia PeanoNat.
From Stdlib Require Import DecimalString.
From Stdlib Require DecimalPos.
From Stdlib Require Import Floats.SpecFloat.
Import ListNotations.

Local Open Scope string_scope.
Local Open Scope list_scope.
Local Open Scope nat_scope.

(** ** Binary64 numbers *)

Definition float : Type := spec_float.

Module F64.

Definition prec : Z := 53.
Definition emax : Z := 1024.

Definition nan : float := S754_nan.

Definition of_Z (z : Z) : float := binary_normalize prec emax z 0 false.

(** The literal [-0.5] is [-(2^52) * 2^(-53)]. *)
Definition minus_half : float := S754_finite true 4503599627370496 (-53).
Definition half : float := S754_finite false 4503599627370496 (-53).

Definition add : float -> float -> float := SFadd prec emax.
Definition sub : float -> float -> float := SFsub prec emax.
Definition div : float -> float -> float := SFdiv prec emax.

Definition eqb : float -> float -> bool := SFeqb.
Definition ltb : float -> float -> bool := SFltb.
Definition leb : float -> float -> bool := SFleb.
(** [a > b] is [b < a], also on NaN (both false). *)
Definition gtb (a b : float) : bool := SFltb b a.

Definition is_nan (x : float) : bool :=
  match x with S754_nan => true | _ => false end.

End F64.

(** [len(a)] of an array. *)
Definition len {A : Type} (a : list A) : nat := List.length a.

(** ** Exceptions and outcomes *)

(** A raised Python exception: its class name and its message.  Every
    exception of the model is an instance of [Exception]: the ones the
    two files raise are, and an interrupt or an exit request during a
    run is not modelled. *)
Inductive exn : Type :=
| PyExc (cls : string) (msg : string).

Definition Exception (msg : string) : exn := PyExc "Exception" msg.
Definition ValueError (msg : string) : exn := PyExc "ValueError" msg.
Definition IndexError (msg : string) : exn := PyExc "IndexError" msg.

Definition exn_msg (e : exn) : string :=
  match e with PyExc _ msg => msg end.

Inductive result (A : Type) : Type :=
| Ok (a : A)
| Err (e : exn).

Arguments Ok {A} a.
Arguments Err {A} e.

Definition is_ok {A} (r : result A) : bool :=
  match r with Ok _ => true | Err _ => false end.

(** ** The length checks and the reconciliation (run_cshelph.py, 112-145) *)

Module Reconcile.

(** Lines 116-121. *)
Definition check_photon_lengths
    (lat_utm_len lon_utm_len photon_h_len conf_len : nat) : result unit :=
  if negb (lat_utm_len =? lon_utm_len)
     && negb (conf_len =? lon_utm_len)
     && negb (conf_len =? photon_h_len)
  then Err (Exception "lat_utm, lon_utm and conf_len must have same length")
  else Ok tt.

(** Lines 127-132. *)
Definition check_geometry_lengths
    (ph_ref_elev_len ph_ref_azimuth_len ph_sat_alt_len : nat) : result unit :=
  if negb (ph_ref_elev_len =? ph_ref_azimuth_len)
     && negb (ph_ref_azimuth_len =? ph_sat_alt_len)
  then Err (Exception
              "ph_ref_elev, ph_ref_azimuth and ph_sat_alt must have same length")
  else Ok tt.

(** The seven arrays the orchestrator holds at line 112. *)
Record arrays : Type := mk_arrays {
  lat_utm : list float;
  lon_utm : list float;
  photon_h : list float;
  conf : list Z;
  ph_ref_elev : list float;
  ph_ref_azimuth : list float;
  ph_sat_alt : list float
}.

(** The slice [a[0:k]] for [k >= 0]. *)
Definition slice0 {A} (k : nat) (a : list A) : list A := firstn k a.

(** Lines 134-145; the three branches are kept as written. *)
Definition truncate (a : arrays) : result arrays :=
  let lat_utm_len := len (lat_utm a) in
  let ph_ref_elev_len := len (ph_ref_elev a) in
  if negb (lat_utm_len =? ph_ref_elev_len) then
    if lat_utm_len <? ph_ref_elev_len then
      Ok (mk_arrays (lat_utm a) (lon_utm a) (photon_h a) (conf a)
            (slice0 lat_utm_len (ph_ref_elev a))
            (slice0 lat_utm_len (ph_ref_azimuth a))
            (slice0 lat_utm_len (ph_sat_alt a)))
    else if ph_ref_elev_len <? lat_utm_len then
      Ok (mk_arrays
            (slice0 ph_ref_elev_len (lat_utm a))
            (slice0 ph_ref_elev_len (lon_utm a))
            (slice0 ph_ref_elev_len (photon_h a))
            (slice0 ph_ref_elev_len (conf a))
            (ph_ref_elev a) (ph_ref_azimuth a) (ph_sat_alt a))
    else Err (Exception "Interpolated variables do not have same length")
  else Ok a.

(** Lines 112-145 in sequence. *)
Definition reconcile (a : arrays) : result arrays :=
  match check_photon_lengths (len (lat_utm a)) (len (lon_utm a))
          (len (photon_h a)) (len (conf a)) with
  | Err e => Err e
  | Ok _ =>
    match check_geometry_lengths (len (ph_ref_elev a))
            (len (ph_ref_azimuth a)) (len (ph_sat_alt a)) with
    | Err e => Err e
    | Ok _ => truncate a
    end
  end.

(** The first [k] rows of every array. *)
Definition leading_rows (k : nat) (a : arrays) : arrays :=
  mk_arrays (firstn k (lat_utm a)) (firstn k (lon_utm a))
    (firstn k (photon_h a)) (firstn k (conf a))
    (firstn k (ph_ref_elev a)) (firstn k (ph_ref_azimuth a))
    (firstn k (ph_sat_alt a)).

(** A photon table of length [m]: its four arrays all have length [m]. *)
Definition photon_table (m : nat) (a : arrays) : Prop :=
  len (lat_utm a) = m /\ len (lon_utm a) = m /\
  len (photon_h a) = m /\ len (conf a) = m.

(** A geometry table of length [n]. *)
Definition geometry_table (n : nat) (a : arrays) : Prop :=
  len (ph_ref_elev a) = n /\ len (ph_ref_azimuth a) = n /\
  len (ph_sat_alt a) = n.

End Reconcile.

(** ** Python built-ins the orchestrator uses *)

Module Py.

(** Values that are either an [int] or a [str]: the elements of
    [threshlist] and the threshold label passed to [produce_figures]. *)
Inductive val : Type :=
| Int (z : Z)
| Str (s : string).

(** The blanks that [int] skips around the literal of an ASCII [str]:
    codes 9-13 and 32 (the separators 28-31 are not skipped). *)
Definition is_space (c : ascii) : bool :=
  let n := nat_of_ascii c in
  ((9 <=? n) && (n <=? 13)) || (n =? 32).

Fixpoint lstrip (cs : list ascii) : list ascii :=
  match cs with
  | c :: t => if is_space c then lstrip t else cs
  | [] => []
  end.

Definition strip (cs : list ascii) : list ascii :=
  rev (lstrip (rev (lstrip cs))).

Definition digit_val (c : ascii) : option Z :=
  let n := nat_of_ascii c in
  if (48 <=? n) && (n <=? 57) then Some (Z.of_nat (n - 48)) else None.

(** Decimal digits, with single underscores allowed between digits.
    [after_digit] tells whether the previous character was a digit. *)
Fixpoint digits (acc : Z) (after_digit : bool) (cs : list ascii) : option Z :=
  match cs with
  | [] => if after_digit then Some acc else None
  | c :: t =>
    match digit_val c with
    | Some d => digits (10 * acc + d)%Z true t
    | None =>
      if Ascii.eqb c "_"%char && after_digit then digits acc false t else None
    end
  end.

Definition signed_digits (cs : list ascii) : option Z :=
  match cs with
  | c :: t =>
    if Ascii.eqb c "-"%char then option_map Z.opp (digits 0 false t)
    else if Ascii.eqb c "+"%char then digits 0 false t
    else digits 0 false cs
  | [] => None
  end.

(** [repr(s)] for a string without quotes, backslashes and control
    characters: [s] between single quotes.  The escapes of [repr] are
    left out. *)
Definition repr (s : string) : string := "'" ++ s ++ "'".

(** [int(s)] for a string, base 10, on ASCII input. *)
Definition int_of_str (s : string) : result Z :=
  match signed_digits (strip (list_ascii_of_string s)) with
  | Some z => Ok z
  | None =>
    Err (ValueError ("invalid literal for int() with base 10: " ++ repr s))
  end.

(** [str(n)] for an int. *)
Definition str_of_int (z : Z) : string :=
  DecimalString.NilEmpty.string_of_int (Z.to_int z).

(** [int(v)]. *)
Definition int (v : val) : result Z :=
  match v with
  | Int z => Ok z
  | Str s => int_of_str s
  end.

(** [str(v)]. *)
Definition str (v : val) : string :=
  match v with
  | Int z => str_of_int z
  | Str s => s
  end.

(** [s.split(sep)[-1]]: what follows the last separator, or all of
    [s] when there is none.  [cur] is the field read so far, reversed. *)
Fixpoint last_field (sep : ascii) (cur : list ascii) (cs : list ascii)
  : list ascii :=
  match cs with
  | [] => rev cur
  | c :: t =>
    if Ascii.eqb c sep then last_field sep [] t
    else last_field sep (c :: cur) t
  end.

Definition split_last (sep : ascii) (s : string) : string :=
  string_of_list_ascii (last_field sep [] (list_ascii_of_string s)).

(** [a[0]] on an array. *)
Definition index0 {A} (a : list A) : result A :=
  match a with
  | x :: _ => Ok x
  | [] => Err (IndexError "index 0 is out of bounds for axis 0 with size 0")
  end.

(** [a[mask]] with a boolean mask: numpy refuses a mask of another
    length. *)
Definition select {A} (mask : list bool) (a : list A) : list A :=
  map snd (filter fst (combine mask a)).

Definition mask_index {A} (a : list A) (mask : list bool) : result (list A) :=
  if len mask =? len a then Ok (select mask a)
  else Err (IndexError
              ("boolean index did not match indexed array along axis 0; "
               ++ "size of axis is " ++ str_of_int (Z.of_nat (len a))
               ++ " but size of corresponding boolean axis is "
               ++ str_of_int (Z.of_nat (len mask)))).

(** [astype(np.int64)] on an integer: the value modulo [2^64], signed. *)
Definition astype_int64 (z : Z) : Z :=
  ((z + 2 ^ 63) mod 2 ^ 64 - 2 ^ 63)%Z.

End Py.

(** ** numpy's [nanmedian] *)

Module Np.

Fixpoint insert (x : float) (l : list float) : list float :=
  match l with
  | [] => [x]
  | y :: t => if F64.leb x y then x :: l else y :: insert x t
  end.

Definition sort (l : list float) : list float := fold_right insert [] l.

(** [np.mean] of a short array: the entries are added one by one to
    [0.0] and the sum is divided by their number. *)
Definition mean (l : list float) : float :=
  F64.div (fold_left F64.add l (F64.of_Z 0)) (F64.of_Z (Z.of_nat (len l))).

(** The median of a sorted array without NaN: the mean of the middle
    element, or of the two middle elements; NaN for the empty array. *)
Definition median_sorted (l : list float) : float :=
  let n := len l in
  if n =? 0 then F64.nan
  else if Nat.even n then
    mean [nth (n / 2 - 1) l F64.nan; nth (n / 2) l F64.nan]
  else mean [nth (n / 2) l F64.nan].

(** [np.nanmedian(a)]: NaN entries are dropped first; when nothing is
    left the result is NaN (numpy warns, it does not raise). *)
Definition nanmedian (a : list float) : float :=
  median_sorted (sort (filter (fun x => negb (F64.is_nan x)) a)).

End Np.

(** ** Tables *)

(** What [read_atl03] returns (lines 69-80). *)
Module Atl03.
Record t : Type := mk {
  latitude : list float;
  longitude : list float;
  photon_h : list float;
  conf : list Z;
  ref_elev : list float;
  ref_azimuth : list float;
  ph_index_beg : list Z;
  segment_id : list Z;
  alt_sc : list float;
  seg_ph_count : list Z
}.
End Atl03.

(** pandas refuses to build a frame from arrays of different lengths. *)
Definition all_same_length (lens : list nat) : bool :=
  match lens with
  | [] => true
  | n :: rest => forallb (Nat.eqb n) rest
  end.

Definition frame_error : exn :=
  ValueError "All arrays must be of the same length".

(** [dataset_sea] (lines 150-169), column by column. *)
Module Sea.
Record t : Type := mk {
  latitude : list float;
  longitude : list float;
  photon_height : list float;
  confidence : list Z;
  ref_elevation : list float;
  ref_azminuth : list float;
  ref_sat_alt : list float
}.

Definition DataFrame (a : Reconcile.arrays) : result t :=
  if all_same_length
       [len (Reconcile.lat_utm a); len (Reconcile.lon_utm a);
        len (Reconcile.photon_h a); len (Reconcile.conf a);
        len (Reconcile.ph_ref_elev a); len (Reconcile.ph_ref_azimuth a);
        len (Reconcile.ph_sat_alt a)]
  then Ok (mk (Reconcile.lat_utm a) (Reconcile.lon_utm a)
             (Reconcile.photon_h a) (Reconcile.conf a)
             (Reconcile.ph_ref_elev a) (Reconcile.ph_ref_azimuth a)
             (Reconcile.ph_sat_alt a))
  else Err frame_error.

Definition rows (d : t) : nat := len (latitude d).

(** [d[mask]]: the rows where the mask holds. *)
Definition loc (mask : list bool) (d : t) : t :=
  mk (Py.select mask (latitude d)) (Py.select mask (longitude d))
     (Py.select mask (photon_height d)) (Py.select mask (confidence d))
     (Py.select mask (ref_elevation d)) (Py.select mask (ref_azminuth d))
     (Py.select mask (ref_sat_alt d)).

(** [d.head()]: the first five rows. *)
Definition head (d : t) : t :=
  mk (firstn 5 (latitude d)) (firstn 5 (longitude d))
     (firstn 5 (photon_height d)) (firstn 5 (confidence d))
     (firstn 5 (ref_elevation d)) (firstn 5 (ref_azminuth d))
     (firstn 5 (ref_sat_alt d)).
End Sea.

(** What [refraction_correction] returns (line 220). *)
Module Refraction.
Record t : Type := mk {
  ref_x : list float;
  ref_y : list float;
  ref_z : list float;
  ref_conf : list Z;
  raw_x : list float;
  raw_y : list float;
  raw_z : list float;
  ph_ref_azi : list float;
  ph_ref_elev : list float
}.
End Refraction.

(** [dataset_bath] (lines 239-260), columns in the declared order. *)
Module Bath.
Record t : Type := mk {
  latitude : list float;
  longitude : list float;
  photon_height : list float;
  cor_latitude : list float;
  cor_longitude : list float;
  cor_photon_height : list float;
  confidence : list Z;
  depth : list float
}.

Definition DataFrame (r : Refraction.t) (depth : list float) : result t :=
  if all_same_length
       [len (Refraction.raw_y r); len (Refraction.raw_x r);
        len (Refraction.ref_y r); len (Refraction.ref_x r);
        len (Refraction.ref_z r); len (Refraction.raw_z r);
        len (Refraction.ref_conf r); len depth]
  then Ok (mk (Refraction.raw_y r) (Refraction.raw_x r) (Refraction.raw_z r)
             (Refraction.ref_y r) (Refraction.ref_x r) (Refraction.ref_z r)
             (Refraction.ref_conf r) depth)
  else Err frame_error.
End Bath.

(** A frame handed to [bin_data]. *)
Inductive frame : Type :=
| SeaFrame (d : Sea.t)
| BathFrame (d : Bath.t).

(** Element-wise comparisons of a column with a scalar, and [&]. *)
Definition ne_scalar (col : list Z) (k : Z) : list bool :=
  map (fun c => negb (c =? k)%Z) col.

Definition gt_scalar (col : list float) (k : float) : list bool :=
  map (fun x => F64.gtb x k) col.

(** pandas compares a column with [None] as all-false for [<]. *)
Definition lt_scalar (col : list float) (k : option float) : list bool :=
  match k with
  | Some k => map (fun x => F64.ltb x k) col
  | None => map (fun _ => false) col
  end.

Definition mask_and (a b : list bool) : list bool :=
  map (fun p => fst p && snd p) (combine a b).

(** Lines 175-177. *)
Definition filter_confidence (d : Sea.t) : Sea.t :=
  Sea.loc (mask_and (ne_scalar (Sea.confidence d) 0)
                    (ne_scalar (Sea.confidence d) 1)) d.

(** Lines 179-182. *)
Definition filter_elevation (min_buffer max_buffer : float) (d : Sea.t) : Sea.t :=
  Sea.loc (mask_and (gt_scalar (Sea.photon_height d) min_buffer)
                    (lt_scalar (Sea.photon_height d) (Some max_buffer))) d.

(** Lines 185-189. *)
Definition filter_latitude (start_lat end_lat : option float) (d : Sea.t)
  : Sea.t :=
  match start_lat with
  | Some s =>
    Sea.loc (mask_and (gt_scalar (Sea.latitude d) s)
                      (lt_scalar (Sea.latitude d) end_lat)) d
  | None => d
  end.

(** Lines 198-201. *)
Definition prepare_surface_buffer (surface_buffer : float) : float :=
  if F64.eqb surface_buffer F64.minus_half then F64.minus_half
  else surface_buffer.

(** Line 236: [med_water_surface_h - ref_z], element by element. *)
Definition depth_of (med_water_surface_h : float) (ref_z : list float)
  : list float :=
  map (fun z => F64.sub med_water_surface_h z) ref_z.

(** ** The module [cshelph.cshelph]

    The orchestrator calls these functions and nothing else of the
    module; their code is not part of what is embedded here.  Each is
    taken as a function of its arguments that returns or raises and
    leaves the tables it is given as they are (every stage produces a
    new table, none is changed in place); the tables they build
    ([binned], [bath_height], [geo_df]) are opaque to the orchestrator.
    [produce_figures] also stands for the matplotlib and file output it
    performs. *)
Class Cshelph : Type := {
  binned : Type;
  bath_height : Type;
  geo_df : Type;
  read_atl03 : string -> string -> result Atl03.t;
  convert_wgs_to_utm : float -> float -> result string;
  orthometric_correction :
    list float -> list float -> list float -> string ->
    result (list float * list float * list float);
  ref_linear_interp : list Z -> list float -> result (list float);
  bin_data : frame -> float -> float -> result binned;
  get_sea_height : binned -> float -> result (list float);
  get_water_temp : string -> list float -> list float -> result float;
  refraction_correction :
    float -> float -> Z ->
    list float -> list float -> list float -> list float -> list float ->
    list Z -> list float -> result Refraction.t;
  get_bath_height :
    binned -> Z -> float -> float -> result (bath_height * geo_df);
  produce_figures :
    binned -> bath_height -> list float -> Z -> Z -> Py.val -> string ->
    geo_df -> list float -> list float -> string -> Z -> result unit
}.

(** ** Events and runs *)

Section Run.

Context {C : Cshelph}.

(** What a run does that can be observed: the lines it prints and the
    calls it makes, in order. *)
Inductive event : Type :=
| Stdout (line : string)
| StdoutHead (d : Sea.t)
| StdoutWaterTemp (water_temp : float)
| Traceback (e : exn)
| PltClose
| Call_read_atl03 (input_h5_file laser_num : string)
| Call_convert_wgs_to_utm (lat lon : float)
| Call_orthometric_correction (epsg_code : string)
| Call_ref_linear_interp (ph_num_per_seg : list Z) (ref : list float)
| Call_bin_data (dataset : frame) (lat_res h_res : float)
| Call_get_sea_height (binned_data : binned) (surface_buffer : float)
| Call_get_water_temp (input_h5_file : string)
| Call_refraction_correction (water_temp med_water_surface_h : float)
    (dataset : Sea.t)
| Call_get_bath_height (binned_data : binned) (thresh : Z)
    (med_water_surface_h h_res : float)
| Call_produce_figures (binned_data : binned) (thresh : Py.val).

Definition trace : Type := list event.

(** A run: the events so far and the outcome. *)
Definition M (A : Type) : Type := (trace * result A)%type.

Definition ret {A} (a : A) : M A := ([], Ok a).

Definition raise {A} (e : exn) : M A := ([], Err e).

Definition bind {A B} (m : M A) (k : A -> M B) : M B :=
  match m with
  | (t, Ok a) => let (t', r) := k a in (t ++ t', r)
  | (t, Err e) => (t, Err e)
  end.

Definition emit (ev : event) : M unit := ([ev], Ok tt).

(** An operation of the orchestrator itself, which leaves no event. *)
Definition lift {A} (r : result A) : M A := ([], r).

(** A call, recorded before its outcome. *)
Definition call {A} (ev : event) (r : result A) : M A := ([ev], r).

(** [try: m except Exception as e: handler e].  Every exception of the
    model is an instance of [Exception], so the handler takes whatever
    [m] raises; [KeyboardInterrupt], [SystemExit] and the other classes
    that derive from [BaseException] only, which such a handler lets
    through, are not values of [exn]. *)
Definition try_except {A} (m : M A) (handler : exn -> M A) : M A :=
  match m with
  | (t, Ok a) => (t, Ok a)
  | (t, Err e) => let (t', r) := handler e in (t ++ t', r)
  end.

Definition events {A} (m : M A) : trace := fst m.
Definition outcome {A} (m : M A) : result A := snd m.

End Run.

Declare Scope run_scope.
Delimit Scope run_scope with run.
Notation "x <- m ;; k" := (bind m (fun x => k))
  (at level 61, m at next level, right associativity) : run_scope.
Notation "' p <- m ;; k" := (bind m (fun p => k))
  (at level 61, p pattern, m at next level, right associativity) : run_scope.
Notation "m ;;; k" := (bind m (fun _ => k))
  (at level 61, right associativity) : run_scope.
Local Open Scope run_scope.

(** ** The orchestrator, [run_cshelph] *)

Section Orchestrator.

Context {C : Cshelph}.

(** What lines 68-107 leave in scope. *)
Record loaded : Type := mk_loaded {
  ld_latitude : list float;
  ld_longitude : list float;
  ld_epsg_num : Z;
  ld_arrays : Reconcile.arrays
}.

(** [cshelph.ref_linear_interp(ph_num_per_seg, ref[ph_index_beg > 0])]. *)
Definition interp_field (ph_num_per_seg : list Z) (mask : list bool)
    (ref : list float) : M (list float) :=
  ref_valid <- lift (Py.mask_index ref mask) ;;
  call (Call_ref_linear_interp ph_num_per_seg ref_valid)
       (ref_linear_interp ph_num_per_seg ref_valid).

(** Lines 68-107: reading, projection, per-photon geometry. *)
Definition load (input_h5_file laser_num : string) : M loaded :=
  d <- call (Call_read_atl03 input_h5_file laser_num)
            (read_atl03 input_h5_file laser_num) ;;
  lat0 <- lift (Py.index0 (Atl03.latitude d)) ;;
  lon0 <- lift (Py.index0 (Atl03.longitude d)) ;;
  epsg_code <- call (Call_convert_wgs_to_utm lat0 lon0)
                    (convert_wgs_to_utm lat0 lon0) ;;
  epsg_num <- lift (Py.int_of_str (Py.split_last ":" epsg_code)) ;;
  '(lat_utm, lon_utm, photon_h) <-
    call (Call_orthometric_correction epsg_code)
         (orthometric_correction (Atl03.latitude d) (Atl03.longitude d)
            (Atl03.photon_h d) epsg_code) ;;
  let valid := map (fun i => (0 <? i)%Z) (Atl03.ph_index_beg d) in
  counts <- lift (Py.mask_index (Atl03.seg_ph_count d) valid) ;;
  let ph_num_per_seg := map Py.astype_int64 counts in
  ph_ref_elev <- interp_field ph_num_per_seg valid (Atl03.ref_elev d) ;;
  ph_ref_azimuth <- interp_field ph_num_per_seg valid (Atl03.ref_azimuth d) ;;
  ph_sat_alt <- interp_field ph_num_per_seg valid (Atl03.alt_sc d) ;;
  ret (mk_loaded (Atl03.latitude d) (Atl03.longitude d) epsg_num
         (Reconcile.mk_arrays lat_utm lon_utm photon_h (Atl03.conf d)
            ph_ref_elev ph_ref_azimuth ph_sat_alt)).

(** Lines 150-189: the photon frame and its three filters. *)
Definition filtered_frame (a : Reconcile.arrays)
    (min_buffer max_buffer : float) (start_lat end_lat : option float)
  : M Sea.t :=
  dataset_sea <- lift (Sea.DataFrame a) ;;
  ret (filter_latitude start_lat end_lat
         (filter_elevation min_buffer max_buffer
            (filter_confidence dataset_sea))).

(** What lines 194-206 add. *)
Record surface : Type := mk_surface {
  sf_dataset_sea1 : Sea.t;
  sf_sea_height : list float;
  sf_med_water_surface_h : float
}.

(** Lines 194-206: binning and the sea-surface estimate. *)
Definition sea_surface (dataset_sea1 : Sea.t) (lat_res h_res : float)
    (surface_buffer : float) : M surface :=
  emit (StdoutHead (Sea.head dataset_sea1)) ;;;
  binned_data_sea <- call (Call_bin_data (SeaFrame dataset_sea1) lat_res h_res)
                          (bin_data (SeaFrame dataset_sea1) lat_res h_res) ;;
  let surface_buffer := prepare_surface_buffer surface_buffer in
  sea_height <- call (Call_get_sea_height binned_data_sea surface_buffer)
                     (get_sea_height binned_data_sea surface_buffer) ;;
  ret (mk_surface dataset_sea1 sea_height (Np.nanmedian sea_height)).

Definition sst_warning : string :=
  "NO SST PROVIDED OR RETRIEVED: 20 degrees C assigned".

(** Lines 209-216: the water temperature. *)
Definition sea_temperature (input_h5_file : string)
    (latitude longitude : list float) (water_temp : option float) : M float :=
  water_temp <-
    match water_temp with
    | None =>
      try_except
        (call (Call_get_water_temp input_h5_file)
              (get_water_temp input_h5_file latitude longitude))
        (fun e => emit (Stdout sst_warning) ;;; ret (F64.of_Z 20))
    | Some t => ret t
    end ;;
  emit (StdoutWaterTemp water_temp) ;;;
  ret water_temp.

(** What lines 219-263 add. *)
Record corrected : Type := mk_corrected {
  co_refraction : Refraction.t;
  co_dataset_bath : Bath.t;
  co_binned_data : binned
}.

(** Lines 219-263: refraction, depth, the bathymetry frame, binning. *)
Definition correct_and_bin (water_temp : float) (s : surface)
    (lat_res h_res : float) : M corrected :=
  emit (Stdout "refrac correction") ;;;
  let d := sf_dataset_sea1 s in
  let med := sf_med_water_surface_h s in
  r <- call (Call_refraction_correction water_temp med d)
            (refraction_correction water_temp med 532
               (Sea.ref_elevation d) (Sea.ref_azminuth d)
               (Sea.photon_height d) (Sea.longitude d) (Sea.latitude d)
               (Sea.confidence d) (Sea.ref_sat_alt d)) ;;
  let depth := depth_of med (Refraction.ref_z r) in
  dataset_bath <- lift (Bath.DataFrame r depth) ;;
  binned_data <- call (Call_bin_data (BathFrame dataset_bath) lat_res h_res)
                      (bin_data (BathFrame dataset_bath) lat_res h_res) ;;
  ret (mk_corrected r dataset_bath binned_data).

(** What every classification reads. *)
Record context : Type := mk_context {
  cx_input_h5_file : string;
  cx_laser_num : string;
  cx_epsg_num : Z;
  cx_h_res : float;
  cx_sea_height : list float;
  cx_med_water_surface_h : float;
  cx_binned_data : binned;
  cx_ref_y : list float;
  cx_ref_z : list float
}.

(** Lines 296-312 (and 272-288): the figure of one threshold. *)
Definition figures (cx : context) (bath : bath_height) (geo : geo_df)
    (label : Py.val) : M unit :=
  emit PltClose ;;;
  emit (Stdout "Creating figs and writing to GPKG") ;;;
  call (Call_produce_figures (cx_binned_data cx) label)
       (produce_figures (cx_binned_data cx) bath (cx_sea_height cx)
          10 (-20) label (cx_input_h5_file cx) geo
          (cx_ref_y cx) (cx_ref_z cx) (cx_laser_num cx) (cx_epsg_num cx)).

(** Lines 267-288: one threshold. *)
Definition classify_single (cx : context) (thresh : Z) : M unit :=
  '(bath, geo) <-
    call (Call_get_bath_height (cx_binned_data cx) thresh
            (cx_med_water_surface_h cx) (cx_h_res cx))
         (get_bath_height (cx_binned_data cx) thresh
            (cx_med_water_surface_h cx) (cx_h_res cx)) ;;
  figures cx bath geo (Py.Int thresh).

(** Lines 291-312: the body of the loop, for one element. *)
Definition sweep_step (cx : context) (thresh : Py.val) : M unit :=
  emit (Stdout ("using threshold: " ++ Py.str thresh)) ;;;
  t <- lift (Py.int thresh) ;;
  '(bath, geo) <-
    call (Call_get_bath_height (cx_binned_data cx) t
            (cx_med_water_surface_h cx) (cx_h_res cx))
         (get_bath_height (cx_binned_data cx) t
            (cx_med_water_surface_h cx) (cx_h_res cx)) ;;
  figures cx bath geo (Py.Str (Py.str thresh)).

(** Lines 290-312: the loop. *)
Fixpoint sweep (cx : context) (threshlist : list Py.val) : M unit :=
  match threshlist with
  | [] => ret tt
  | thresh :: rest => sweep_step cx thresh ;;; sweep cx rest
  end.

(** Lines 265-312: [thresh] when it is an int, else [threshlist] when
    it is a list, else nothing. *)
Definition classify (cx : context) (thresh : option Z)
    (threshlist : option (list Py.val)) : M unit :=
  emit (Stdout "Locating bathymetric photons...") ;;;
  match thresh with
  | Some t => classify_single cx t
  | None =>
    match threshlist with
    | Some l => sweep cx l
    | None => ret tt
    end
  end.

(** Lines 68-263: everything before the classification. *)
Definition prepare
    (input_h5_file laser_num : string) (lat_res h_res : float)
    (water_temp start_lat end_lat : option float)
    (min_buffer max_buffer surface_buffer : float) : M context :=
  ld <- load input_h5_file laser_num ;;
  a <- lift (Reconcile.reconcile (ld_arrays ld)) ;;
  dataset_sea1 <-
    filtered_frame a min_buffer max_buffer start_lat end_lat ;;
  s <- sea_surface dataset_sea1 lat_res h_res surface_buffer ;;
  water_temp <- sea_temperature input_h5_file (ld_latitude ld)
                  (ld_longitude ld) water_temp ;;
  co <- correct_and_bin water_temp s lat_res h_res ;;
  ret (mk_context input_h5_file laser_num (ld_epsg_num ld) h_res
         (sf_sea_height s) (sf_med_water_surface_h s) (co_binned_data co)
         (Refraction.ref_y (co_refraction co))
         (Refraction.ref_z (co_refraction co))).

(** Lines 68-312, the body of the [try]. *)
Definition run_body
    (input_h5_file laser_num : string)
    (thresh : option Z) (threshlist : option (list Py.val))
    (output : option string) (lat_res h_res : float)
    (water_temp start_lat end_lat : option float)
    (min_buffer max_buffer surface_buffer : float) : M unit :=
  cx <- prepare input_h5_file laser_num lat_res h_res water_temp
          start_lat end_lat min_buffer max_buffer surface_buffer ;;
  classify cx thresh threshlist.

(** [run_cshelph]: the body, and the handler of line 313 that raises
    what it caught. *)
Definition run_cshelph
    (input_h5_file laser_num : string)
    (thresh : option Z) (threshlist : option (list Py.val))
    (output : option string) (lat_res h_res : float)
    (water_temp start_lat end_lat : option float)
    (min_buffer max_buffer surface_buffer : float) : M unit :=
  try_except
    (run_body input_h5_file laser_num thresh threshlist output lat_res h_res
       water_temp start_lat end_lat min_buffer max_buffer surface_buffer)
    (fun e => raise e).

End Orchestrator.

(** ** The entry point, [main] of run_bathy_extraction.py *)

Module Cli.

(** The namespace [parser.parse_args()] returns.  [--threshlist] is
    parsed without a type, so its elements are strings. *)
Record args : Type := mk_args {
  input : string;
  laser : string;
  thresh : option Z;
  threshlist : option (list string);
  output : option string;
  lat_res : float;
  h_res : float;
  water_temp : option float;
  start_lat : option float;
  end_lat : option float;
  min_buffer : float;
  max_buffer : float;
  surface_buffer : float;
  debug : bool
}.

Definition missing_threshold : exn :=
  Exception
    "Must provide either a threshold percentage or a list of thresholds to test.".

Definition quote : string := String (ascii_of_nat 34) EmptyString.
Definition newline : string := String (ascii_of_nat 10) EmptyString.

(** The notice of lines 129-137. *)
Definition notice : string :=
  "THE SOFTWARE IS PROVIDED " ++ quote ++ "AS IS" ++ quote
    ++ ", WITHOUT WARRANTY OF ANY KIND," ++ newline
    ++ "EXPRESS OR IMPLIED, INCLUDING BUT NOT LIMITED TO THE WARRANTIES OF"
    ++ newline
    ++ "MERCHANTABILITY,FITNESS FOR A PARTICULAR PURPOSE AND NONINFRINGEMENT."
    ++ newline
    ++ "IN NO EVENT SHALL THE AUTHORS OR COPYRIGHT HOLDERS BE LIABLE FOR ANY"
    ++ newline
    ++ "CLAIM, DAMAGES OR OTHER LIABILITY, WHETHER IN AN ACTION OF CONTRACT,"
    ++ newline
    ++ "TORT OR OTHERWISE, ARISING FROM, OUT OF OR IN CONNECTION WITH THE"
    ++ newline
    ++ "SOFTWARE OR THE USE OR OTHER DEALINGS IN THE SOFTWARE." ++ newline.

Definition is_none {A} (o : option A) : bool :=
  match o with None => true | Some _ => false end.

(** The same command line with other values for [--thresh] and
    [--threshlist]. *)
Definition with_thresholds (a : args) (t : option Z)
    (l : option (list string)) : args :=
  mk_args (input a) (laser a) t l (output a) (lat_res a) (h_res a)
    (water_temp a) (start_lat a) (end_lat a) (min_buffer a) (max_buffer a)
    (surface_buffer a) (debug a).

Section Main.

Context {C : Cshelph}.

(** Lines 139-158: the call and its handler. *)
Definition guarded_run (a : args) : M unit :=
  try_except
    (run_cshelph (input a) (laser a) (thresh a)
       (option_map (map Py.Str) (threshlist a)) (output a)
       (lat_res a) (h_res a) (water_temp a) (start_lat a) (end_lat a)
       (min_buffer a) (max_buffer a) (surface_buffer a))
    (fun e =>
       emit (Stdout ("Error: " ++ exn_msg e)) ;;;
       if debug a then emit (Traceback e) else ret tt).

(** Lines 121-158, from the parsed arguments on. *)
Definition main (a : args) : M unit :=
  if is_none (thresh a) && is_none (threshlist a)
  then raise missing_threshold
  else emit (Stdout notice) ;;; guarded_run a.

(** The command line is rejected: [main] raises before anything is
    printed or run. *)
Definition rejected (a : args) : Prop :=
  main a = ([], Err missing_threshold).

(** The command line is accepted: the orchestrator is started, which
    shows as its first call. *)
Definition accepted (a : args) : Prop :=
  In (Call_read_atl03 (input a) (laser a)) (events (main a)).

End Main.

End Cli.

(** ** Reading a trace *)

Section Observers.

Context {C : Cshelph}.

Definition is_refraction (ev : event) : bool :=
  match ev with Call_refraction_correction _ _ _ => true | _ => false end.

Definition is_bath_binning (ev : event) : bool :=
  match ev with Call_bin_data (BathFrame _) _ _ => true | _ => false end.

Definition is_classification (ev : event) : bool :=
  match ev with Call_get_bath_height _ _ _ _ => true | _ => false end.

Definition count (p : event -> bool) (t : trace) : nat :=
  len (filter p t).

(** The thresholds handed to [get_bath_height], in the order of the
    calls. *)
Fixpoint evaluated (t : trace) : list Z :=
  match t with
  | [] => []
  | Call_get_bath_height _ thresh _ _ :: rest => thresh :: evaluated rest
  | _ :: rest => evaluated rest
  end.

(** The binned tables handed to [get_bath_height]. *)
Fixpoint classified_tables (t : trace) : list binned :=
  match t with
  | [] => []
  | Call_get_bath_height b _ _ _ :: rest => b :: classified_tables rest
  | _ :: rest => classified_tables rest
  end.

(** The two events of a water-temperature lookup that failed. *)
Definition is_lookup (ev : event) : bool :=
  match ev with
  | Call_get_water_temp _ => true
  | Stdout line => String.eqb line sst_warning
  | _ => false
  end.

Definition without_lookup (t : trace) : trace :=
  filter (fun ev => negb (is_lookup ev)) t.

(** Two runs with the same outcome and, the events of a failed lookup
    apart, the same events. *)
Definition alike {A} (m1 m2 : M A) : Prop :=
  outcome m1 = outcome m2 /\
  without_lookup (events m1) = without_lookup (events m2).

(** A run with no event of the kind [p]. *)
Definition quiet {A} (p : event -> bool) (m : M A) : Prop :=
  Forall (fun ev => p ev = false) (events m).

End Observers.

(** ** A small instance of [Cshelph] for the examples

    The track, the answer of the temperature lookup and the thresholds
    the classifier refuses are chosen by the example; the other
    functions do the least that fits their types. *)
Module Demo.

Definition interp (counts : list Z) (ref : list float) : result (list float) :=
  if len counts =? len ref
  then Ok (flat_map (fun p => repeat (snd p) (Z.to_nat (fst p)))
                    (combine counts ref))
  else Err (Exception "counts and reference values differ in length").

Definition refract (ref_elev ref_azi photon_height longitude latitude
                      : list float) (confidence : list Z)
  : Refraction.t :=
  Refraction.mk longitude latitude photon_height confidence
    longitude latitude photon_height ref_azi ref_elev.

Definition heights (f : frame) : list float :=
  match f with
  | SeaFrame d => Sea.photon_height d
  | BathFrame d => Bath.cor_photon_height d
  end.

Definition cshelph (track : Atl03.t) (lookup : result float)
    (refused : Z -> bool) : Cshelph := {|
  binned := frame;
  bath_height := list float;
  geo_df := unit;
  read_atl03 := fun _ _ => Ok track;
  convert_wgs_to_utm := fun _ _ => Ok "epsg:32610";
  orthometric_correction := fun lat lon h _ => Ok (lat, lon, h);
  ref_linear_interp := interp;
  bin_data := fun f _ _ => Ok f;
  get_sea_height := fun b _ => Ok (heights b);
  get_water_temp := fun _ _ _ => lookup;
  refraction_correction :=
    fun _ _ _ ref_elev ref_azi h lon lat conf _ =>
      Ok (refract ref_elev ref_azi h lon lat conf);
  get_bath_height :=
    fun b thresh _ _ =>
      if refused thresh then Err (Exception "no bathymetric photons found")
      else Ok (heights b, tt);
  produce_figures := fun _ _ _ _ _ _ _ _ _ _ _ _ => Ok tt
|}.

Definition f (z : Z) : float := F64.of_Z z.

(** Four photons in two segments of two photons each. *)
Definition track (conf : list Z) : Atl03.t :=
  Atl03.mk [f 10; f 20; f 30; f 40] [f 1; f 2; f 3; f 4]
           [f (-1); f (-2); f (-3); f 0] conf
           [f 1; f 1] [f 2; f 2] [1; 3]%Z [100; 101]%Z [f 500; f 500]
           [2; 2]%Z.

Definition signal : Atl03.t := track [2; 3; 4; 4]%Z.
Definition noise : Atl03.t := track [0; 1; 1; 0]%Z.

Definition lookup_down : result float :=
  Err (PyExc "ConnectionError" "sea surface temperature service unreachable").

Definition none_refused (_ : Z) : bool := false.
Definition refuses_25 (t : Z) : bool := (t =? 25)%Z.

(** Three photons with two heights, and a geometry table of two rows. *)
Definition short_height : Reconcile.arrays :=
  Reconcile.mk_arrays [f 10; f 20; f 30] [f 1; f 2; f 3] [f (-1); f (-2)]
    [2; 3; 4]%Z [f 1; f 1] [f 2; f 2] [f 500; f 500].

(** Two photons with one height, and a geometry table of two rows. *)
Definition lone_height : Reconcile.arrays :=
  Reconcile.mk_arrays [f 10; f 20] [f 1; f 2] [f (-1)] [2; 3]%Z
    [f 1; f 1] [f 2; f 2] [f 500; f 500].

(** A frame of four photons at latitudes 10, 20, 30 and 40. *)
Definition four_photons : Sea.t :=
  Sea.mk [f 10; f 20; f 30; f 40] [f 1; f 2; f 3; f 4]
    [f (-1); f (-2); f (-3); f 0] [2; 3; 4; 4]%Z
    [f 1; f 1; f 1; f 1] [f 2; f 2; f 2; f 2]
    [f 500; f 500; f 500; f 500].

(** Three photons and a geometry table of two rows. *)
Definition long_photons : Reconcile.arrays :=
  Reconcile.mk_arrays [f 10; f 20; f 30] [f 1; f 2; f 3]
    [f (-1); f (-2); f (-3)] [2; 3; 4]%Z
    [f 1; f 1] [f 2; f 2] [f 500; f 500].

Definition args (thresh : option Z) (threshlist : option (list string))
  : Cli.args :=
  Cli.mk_args "track.h5" "1" thresh threshlist None (f 10) F64.half
    None None None (f (-40)) (f 5) F64.minus_half false.

(** The run of [run_cshelph] that [main] starts for [a]. *)
Definition run (C : Cshelph) (a : Cli.args) : M unit :=
  run_cshelph (Cli.input a) (Cli.laser a) (Cli.thresh a)
    (option_map (map Py.Str) (Cli.threshlist a)) (Cli.output a)
    (Cli.lat_res a) (Cli.h_res a) (Cli.water_temp a) (Cli.start_lat a)
    (Cli.end_lat a) (Cli.min_buffer a) (Cli.max_buffer a)
    (Cli.surface_buffer a).

(** The instance on the signal track: the lookup fails, the classifier
    refuses nothing. *)
Definition plain : Cshelph := cshelph signal lookup_down none_refused.

(** A sweep over 20, 25 and 30 with a classifier that fails on 25. *)
Definition failing_sweep : M unit :=
  run (cshelph signal lookup_down refuses_25)
      (args None (Some ["20"; "25"; "30"])).

(** Both [--thresh 30] and [--threshlist 20 25] on the command line. *)
Definition both_given : Cli.args := args (Some 30%Z) (Some ["20"; "25"]).

End Demo.

(** ** Photons row by row *)

(** One row of [dataset_sea]. *)
Record photon : Type := mk_photon {
  ph_latitude : float;
  ph_longitude : float;
  ph_height : float;
  ph_confidence : Z;
  ph_ref_elevation : float;
  ph_ref_azimuth : float;
  ph_sat_alt : float
}.

(** The rows of a frame, in order. *)
Definition photons (d : Sea.t) : list photon :=
  map (fun r =>
         match r with
         | (la, (lo, (h, (c, (e, (az, al)))))) => mk_photon la lo h c e az al
         end)
      (combine (Sea.latitude d)
         (combine (Sea.longitude d)
            (combine (Sea.photon_height d)
               (combine (Sea.confidence d)
                  (combine (Sea.ref_elevation d)
                     (combine (Sea.ref_azminuth d) (Sea.ref_sat_alt d))))))).

(** A frame whose columns all have as many entries as it has rows. *)
Definition aligned (d : Sea.t) : Prop :=
  len (Sea.longitude d) = Sea.rows d /\
  len (Sea.photon_height d) = Sea.rows d /\
  len (Sea.confidence d) = Sea.rows d /\
  len (Sea.ref_elevation d) = Sea.rows d /\
  len (Sea.ref_azminuth d) = Sea.rows d /\
  len (Sea.ref_sat_alt d) = Sea.rows d.

(** What lines 175-189 ask of a photon, condition by condition. *)
Definition signal_confidence (p : photon) : bool :=
  negb (ph_confidence p =? 0)%Z && negb (ph_confidence p =? 1)%Z.

Definition within_buffers (min_buffer max_buffer : float) (p : photon) : bool :=
  F64.ltb min_buffer (ph_height p) && F64.ltb (ph_height p) max_buffer.

Definition within_latitudes (start_lat end_lat : option float) (p : photon)
  : bool :=
  match start_lat with
  | None => true
  | Some s =>
    F64.ltb s (ph_latitude p) &&
    match end_lat with
    | Some e => F64.ltb (ph_latitude p) e
    | None => false
    end
  end.

Definition retained (min_buffer max_buffer : float)
    (start_lat end_lat : option float) (p : photon) : bool :=
  signal_confidence p && within_buffers min_buffer max_buffer p
  && within_latitudes start_lat end_lat p.

(** ** More ways to read a trace *)

Section MoreObservers.

Context {C : Cshelph}.

Definition is_figures (ev : event) : bool :=
  match ev with Call_produce_figures _ _ => true | _ => false end.

Definition is_water_lookup (ev : event) : bool :=
  match ev with Call_get_water_temp _ => true | _ => false end.

(** The name of the function of [cshelph] an event calls. *)
Definition call_name (ev : event) : option string :=
  match ev with
  | Call_read_atl03 _ _ => Some "read_atl03"
  | Call_convert_wgs_to_utm _ _ => Some "convert_wgs_to_utm"
  | Call_orthometric_correction _ => Some "orthometric_correction"
  | Call_ref_linear_interp _ _ => Some "ref_linear_interp"
  | Call_bin_data _ _ _ => Some "bin_data"
  | Call_get_sea_height _ _ => Some "get_sea_height"
  | Call_get_water_temp _ => Some "get_water_temp"
  | Call_refraction_correction _ _ _ => Some "refraction_correction"
  | Call_get_bath_height _ _ _ _ => Some "get_bath_height"
  | Call_produce_figures _ _ => Some "produce_figures"
  | Stdout _ | StdoutHead _ | StdoutWaterTemp _ | Traceback _ | PltClose => None
  end.

(** The calls of a trace, by name, in order. *)
Definition calls (t : trace) : list string :=
  flat_map (fun ev => match call_name ev with Some n => [n] | None => [] end) t.

(** The labels handed to [produce_figures], in the order of the calls. *)
Fixpoint figure_labels (t : trace) : list Py.val :=
  match t with
  | [] => []
  | Call_produce_figures _ label :: rest => label :: figure_labels rest
  | _ :: rest => figure_labels rest
  end.

(** A run all of whose events satisfy [P]. *)
Definition every {A} (P : event -> Prop) (m : M A) : Prop :=
  Forall P (events m).

Definition is_interp (ev : event) : bool :=
  match ev with Call_ref_linear_interp _ _ => true | _ => false end.

(** A call of [ref_linear_interp] with as many counts as reference
    values. *)
Definition interp_aligned (ev : event) : Prop :=
  match ev with
  | Call_ref_linear_interp ph_num_per_seg ref => len ph_num_per_seg = len ref
  | _ => True
  end.

(** A call of [refraction_correction] with the water temperature [t]. *)
Definition refraction_at (t : float) (ev : event) : Prop :=
  match ev with
  | Call_refraction_correction water_temp _ _ => water_temp = t
  | _ => True
  end.

(** The calls of the classification of a successful run. *)
Definition classification_calls (thresh : option Z)
    (threshlist : option (list Py.val)) : list string :=
  match thresh with
  | Some _ => ["get_bath_height"; "produce_figures"]
  | None =>
    match threshlist with
    | Some l => flat_map (fun _ => ["get_bath_height"; "produce_figures"]) l
    | None => []
    end
  end.

(** The calls of lines 68-263 of a successful run. *)
Definition preparation_calls (water_temp : option float) : list string :=
  ["read_atl03"; "convert_wgs_to_utm"; "orthometric_correction";
   "ref_linear_interp"; "ref_linear_interp"; "ref_linear_interp";
   "bin_data"; "get_sea_height"]
  ++ match water_temp with None => ["get_water_temp"] | Some _ => [] end
  ++ ["refraction_correction"; "bin_data"].

(** The bathymetry frames handed to [bin_data], in the order of the
    calls. *)
Fixpoint bath_frames (t : trace) : list Bath.t :=
  match t with
  | [] => []
  | Call_bin_data (BathFrame dataset_bath) _ _ :: rest =>
    dataset_bath :: bath_frames rest
  | _ :: rest => bath_frames rest
  end.

(** A bathymetry frame whose depth column holds NaN in every row. *)
Definition depth_undefined (dataset_bath : Bath.t) : Prop :=
  Bath.depth dataset_bath
  = map (fun _ => F64.nan) (Bath.cor_photon_height dataset_bath).

(** The water temperature that lines 209-214 leave in [water_temp]: the
    caller's value, else what [get_water_temp] returns, else 20. *)
Definition water_temp_used (input_h5_file : string)
    (latitude longitude : list float) (water_temp : option float) : float :=
  match water_temp with
  | Some t => t
  | None =>
    match get_water_temp input_h5_file latitude longitude with
    | Ok t => t
    | Err _ => F64.of_Z 20
    end
  end.

End MoreObservers.

(** ** More inputs for the examples *)

Module Sample.

(** A track without photons. *)
Definition empty_track : Atl03.t :=
  Atl03.mk [] [] [] [] [] [] [] [] [] [].

(** Segment arrays of different lengths: two start indices, one count. *)
Definition ragged_track : Atl03.t :=
  Atl03.mk [Demo.f 10] [Demo.f 1] [Demo.f (-1)] [2]%Z
           [Demo.f 1; Demo.f 1] [Demo.f 2; Demo.f 2] [1; 3]%Z [100; 101]%Z
           [Demo.f 500; Demo.f 500] [2]%Z.

Definition empty_run (debug : bool) : Cli.args :=
  Cli.mk_args "track.h5" "1" (Some 30%Z) None None (Demo.f 10) F64.half
    None None None (Demo.f (-40)) (Demo.f 5) F64.minus_half debug.

Definition on_empty_track : Cshelph :=
  Demo.cshelph empty_track Demo.lookup_down Demo.none_refused.

(** The small instance with two more choices: the candidates that
    [get_sea_height] returns, and whether [get_bath_height] refuses a
    table without rows.  The temperature lookup fails. *)
Definition cshelph (track : Atl03.t) (candidates : frame -> list float)
    (needs_rows : bool) : Cshelph := {|
  binned := frame;
  bath_height := list float;
  geo_df := unit;
  read_atl03 := fun _ _ => Ok track;
  convert_wgs_to_utm := fun _ _ => Ok "epsg:32610";
  orthometric_correction := fun lat lon h _ => Ok (lat, lon, h);
  ref_linear_interp := Demo.interp;
  bin_data := fun f _ _ => Ok f;
  get_sea_height := fun b _ => Ok (candidates b);
  get_water_temp := fun _ _ _ => Demo.lookup_down;
  refraction_correction :=
    fun _ _ _ ref_elev ref_azi h lon lat conf _ =>
      Ok (Demo.refract ref_elev ref_azi h lon lat conf);
  get_bath_height :=
    fun b _ _ _ =>
      if needs_rows && (len (Demo.heights b) =? 0)
      then Err (Exception "no photons to classify")
      else Ok (Demo.heights b, tt);
  produce_figures := fun _ _ _ _ _ _ _ _ _ _ _ _ => Ok tt
|}.

(** Four signal photons, and a [get_sea_height] that finds no candidate
    in either latitude band. *)
Definition no_candidates : Cshelph :=
  cshelph Demo.signal (fun _ => [F64.nan; F64.nan]) false.

(** A track of noise photons only, and a classifier that refuses a
    table without rows. *)
Definition noise_only : Cshelph := cshelph Demo.noise Demo.heights true.

(** A frame without rows. *)
Definition no_rows : Sea.t := Sea.mk [] [] [] [] [] [] [].

End Sample.

(** * Properties *)

(** ** The length checks and the reconciliation *)

Section ReconcileFacts.

Import Reconcile.

Lemma check_photon_lengths_equal (m : nat) :
  check_photon_lengths m m m m = Ok tt.
Proof.
  unfold check_photon_lengths. now rewrite Nat.eqb_refl.
Qed.

Lemma check_geometry_lengths_equal (n : nat) :
  check_geometry_lengths n n n = Ok tt.
Proof.
  unfold check_geometry_lengths. now rewrite Nat.eqb_refl.
Qed.

(** The photon check raises exactly when all three comparisons it
    makes find a difference. *)
Lemma check_photon_lengths_raises (la lo ph cf : nat) :
  is_ok (check_photon_lengths la lo ph cf) = false <->
  la <> lo /\ cf <> lo /\ cf <> ph.
Proof.
  unfold check_photon_lengths.
  destruct (Nat.eqb_spec la lo), (Nat.eqb_spec cf lo), (Nat.eqb_spec cf ph);
    simpl; intuition congruence.
Qed.

Lemma check_geometry_lengths_raises (el az al : nat) :
  is_ok (check_geometry_lengths el az al) = false <->
  el <> az /\ az <> al.
Proof.
  unfold check_geometry_lengths.
  destruct (Nat.eqb_spec el az), (Nat.eqb_spec az al);
    simpl; intuition congruence.
Qed.

Lemma leading_rows_all (m n : nat) (a : arrays) :
  photon_table m a -> geometry_table n a -> m <= n ->
  mk_arrays (lat_utm a) (lon_utm a) (photon_h a) (conf a)
    (firstn m (ph_ref_elev a)) (firstn m (ph_ref_azimuth a))
    (firstn m (ph_sat_alt a)) = leading_rows m a.
Proof.
  intros (H1 & H2 & H3 & H4) _ _. unfold leading_rows, len in *.
  f_equal; symmetry; apply firstn_all2; lia.
Qed.

Lemma leading_rows_geometry (m n : nat) (a : arrays) :
  photon_table m a -> geometry_table n a -> n <= m ->
  mk_arrays (firstn n (lat_utm a)) (firstn n (lon_utm a))
    (firstn n (photon_h a)) (firstn n (conf a))
    (ph_ref_elev a) (ph_ref_azimuth a) (ph_sat_alt a) = leading_rows n a.
Proof.
  intros _ (H1 & H2 & H3) _. unfold leading_rows, len in *.
  f_equal; symmetry; apply firstn_all2; lia.
Qed.

Lemma leading_rows_tables (m n k : nat) (a : arrays) :
  photon_table m a -> geometry_table n a -> k <= m -> k <= n ->
  photon_table k (leading_rows k a) /\ geometry_table k (leading_rows k a).
Proof.
  intros (H1 & H2 & H3 & H4) (H5 & H6 & H7) Hm Hn.
  unfold photon_table, geometry_table, leading_rows, len in *; simpl.
  repeat split; apply firstn_length_le; lia.
Qed.

Lemma leading_rows_same (m : nat) (a : arrays) :
  photon_table m a -> geometry_table m a -> leading_rows m a = a.
Proof.
  intros (H1 & H2 & H3 & H4) (H5 & H6 & H7).
  unfold leading_rows, len in *. destruct a; simpl in *.
  f_equal; apply firstn_all2; lia.
Qed.

Lemma truncate_total (a : arrays) : exists a', truncate a = Ok a'.
Proof.
  unfold truncate.
  destruct (Nat.eqb_spec (len (lat_utm a)) (len (ph_ref_elev a))) as [E | N];
    simpl; [eauto |].
  destruct (Nat.ltb_spec (len (lat_utm a)) (len (ph_ref_elev a))); [eauto |].
  destruct (Nat.ltb_spec (len (ph_ref_elev a)) (len (lat_utm a))); [eauto |].
  lia.
Qed.

(** C3.  When the photon table has [m] rows and the geometry table has
    [n] rows, the reconciliation returns the first [min m n] rows of
    every array, in their order, so both tables have [min m n] rows; and
    when [m = n] it returns the arrays as they were. *)
Theorem reconcile_keeps_leading_rows (m n : nat) (a : arrays) :
  photon_table m a -> geometry_table n a ->
  reconcile a = Ok (leading_rows (Nat.min m n) a) /\
  photon_table (Nat.min m n) (leading_rows (Nat.min m n) a) /\
  geometry_table (Nat.min m n) (leading_rows (Nat.min m n) a) /\
  (forall i, i < Nat.min m n ->
     nth_error (lat_utm (leading_rows (Nat.min m n) a)) i = nth_error (lat_utm a) i /\
     nth_error (lon_utm (leading_rows (Nat.min m n) a)) i = nth_error (lon_utm a) i /\
     nth_error (photon_h (leading_rows (Nat.min m n) a)) i = nth_error (photon_h a) i /\
     nth_error (conf (leading_rows (Nat.min m n) a)) i = nth_error (conf a) i /\
     nth_error (ph_ref_elev (leading_rows (Nat.min m n) a)) i
       = nth_error (ph_ref_elev a) i /\
     nth_error (ph_ref_azimuth (leading_rows (Nat.min m n) a)) i
       = nth_error (ph_ref_azimuth a) i /\
     nth_error (ph_sat_alt (leading_rows (Nat.min m n) a)) i
       = nth_error (ph_sat_alt a) i) /\
  (m = n -> reconcile a = Ok a).
Proof.
  intros Hp Hg.
  assert (Hrec : reconcile a = Ok (leading_rows (Nat.min m n) a)).
  { pose proof Hp as (H1 & H2 & H3 & H4). pose proof Hg as (H5 & H6 & H7).
    unfold reconcile. rewrite H1, H2, H3, H4, H5, H6, H7.
    rewrite check_photon_lengths_equal, check_geometry_lengths_equal.
    unfold truncate. rewrite H1, H5.
    destruct (Nat.eqb_spec m n) as [E | N]; cbn [negb].
    - rewrite <- E in Hg |- *. rewrite Nat.min_id.
      now rewrite leading_rows_same.
    - destruct (Nat.ltb_spec m n) as [L | G].
      + rewrite Nat.min_l by lia. unfold slice0.
        now rewrite (leading_rows_all m n) by (auto; lia).
      + destruct (Nat.ltb_spec n m) as [L' | G']; [| lia].
        rewrite Nat.min_r by lia. unfold slice0.
        now rewrite (leading_rows_geometry m n) by (auto; lia). }
  split; [exact Hrec |].
  destruct (leading_rows_tables m n (Nat.min m n) a Hp Hg) as [T1 T2];
    [lia | lia |].
  split; [exact T1 |]. split; [exact T2 |]. split.
  - intros i Hi. unfold leading_rows; simpl.
    apply Nat.ltb_lt in Hi.
    repeat split; rewrite nth_error_firstn, Hi; reflexivity.
  - intros ->. rewrite Hrec, Nat.min_id. now rewrite leading_rows_same.
Qed.

Lemma reconcile_keeps_leading_rows_witness :
  reconcile Demo.long_photons = Ok (leading_rows (Nat.min 3 2) Demo.long_photons).
Proof.
  apply (reconcile_keeps_leading_rows 3 2 Demo.long_photons).
  - repeat split.
  - repeat split.
Defined.

(** C8.  The last branch of the reconciliation, which raises
    "Interpolated variables do not have same length", is never taken:
    the truncation always returns, for lengths that differ exactly one
    of the two truncating branches applies, and the reconciliation never
    raises that exception. *)
Theorem reconcile_mismatch_branch_unreachable (a : arrays) :
  (exists a', truncate a = Ok a') /\
  (Nat.eqb (len (lat_utm a)) (len (ph_ref_elev a))
   || xorb (len (lat_utm a) <? len (ph_ref_elev a))
           (len (ph_ref_elev a) <? len (lat_utm a)) = true) /\
  reconcile a <> Err (Exception "Interpolated variables do not have same length").
Proof.
  split; [apply truncate_total |]. split.
  - destruct (Nat.eqb_spec (len (lat_utm a)) (len (ph_ref_elev a))); [easy |].
    destruct (Nat.ltb_spec (len (lat_utm a)) (len (ph_ref_elev a))),
             (Nat.ltb_spec (len (ph_ref_elev a)) (len (lat_utm a)));
      simpl; try reflexivity; lia.
  - unfold reconcile, check_photon_lengths, check_geometry_lengths.
    destruct (negb _ && negb _ && negb _); [discriminate |].
    destruct (negb _ && negb _); [discriminate |].
    destruct (truncate_total a) as [a' ->]. discriminate.
Qed.

(** C1 (the code as it is).  Three latitudes, longitudes and confidence
    codes with only two photon heights pass the photon check, since the
    check raises only when all three of its comparisons differ; with a
    geometry table of two rows the truncation then hides the mismatch
    and the frame is built. *)
Theorem length_check_misses_short_height :
  check_photon_lengths 3 3 2 3 = Ok tt /\
  reconcile Demo.short_height = Ok (leading_rows 2 Demo.short_height) /\
  is_ok (Sea.DataFrame (leading_rows 2 Demo.short_height)) = true /\
  check_geometry_lengths 2 2 3 = Ok tt.
Proof.
  repeat split.
Qed.

End ReconcileFacts.

(** ** Runs: sequencing and handlers *)

Section RunFacts.

Context {C : Cshelph}.

Lemma bind_ok {A B} (t : trace) (a : A) (k : A -> M B) :
  bind (t, Ok a) k = (t ++ events (k a), outcome (k a)).
Proof.
  unfold bind, events, outcome. now destruct (k a).
Qed.

Lemma bind_eq {A B} (m : M A) (k : A -> M B) t a t' r :
  m = (t, Ok a) -> k a = (t', r) -> bind m k = (t ++ t', r).
Proof.
  intros -> H. unfold bind. now rewrite H.
Qed.

Lemma bind_err {A B} (t : trace) (e : exn) (k : A -> M B) :
  bind (t, Err e) k = (t, Err e).
Proof. reflexivity. Qed.

Lemma run_eta {A} (m : M A) : m = (events m, outcome m).
Proof. now destruct m. Qed.

(** What a successful sequence is made of. *)
Lemma bind_inv_ok {A B} (m : M A) (k : A -> M B) (t : trace) (b : B) :
  bind m k = (t, Ok b) ->
  exists t1 a t2, m = (t1, Ok a) /\ k a = (t2, Ok b) /\ t = t1 ++ t2.
Proof.
  destruct m as [t1 [a | e]]; simpl; [| discriminate].
  destruct (k a) as [t2 r] eqn:E. intros H. injection H as <- ->.
  now exists t1, a, t2.
Qed.

Lemma call_inv_ok {A} (ev : event) (r : result A) (t : trace) (a : A) :
  call ev r = (t, Ok a) -> t = [ev] /\ r = Ok a.
Proof.
  unfold call. intros H. now injection H as <- ->.
Qed.

Lemma lift_inv_ok {A} (r : result A) (t : trace) (a : A) :
  lift r = (t, Ok a) -> t = [] /\ r = Ok a.
Proof.
  unfold lift. intros H. now injection H as <- ->.
Qed.

Lemma ret_inv_ok {A} (x : A) (t : trace) (a : A) :
  ret x = (t, Ok a) -> t = [] /\ x = a.
Proof.
  unfold ret. intros H. now injection H as <- ->.
Qed.

Lemma emit_inv_ok (ev : event) (t : trace) (u : unit) :
  emit ev = (t, Ok u) -> t = [ev].
Proof.
  unfold emit. intros H. now injection H as <-.
Qed.

(** The handler of line 313 raises what it caught: the [try] changes
    nothing. *)
Lemma try_except_reraise {A} (m : M A) :
  try_except m (fun e => raise e) = m.
Proof.
  destruct m as [t [a | e]]; simpl; [reflexivity |].
  now rewrite app_nil_r.
Qed.

Lemma run_cshelph_body input laser thresh threshlist output lat_res h_res
    water_temp start_lat end_lat min_buffer max_buffer surface_buffer :
  run_cshelph input laser thresh threshlist output lat_res h_res water_temp
    start_lat end_lat min_buffer max_buffer surface_buffer
  = run_body input laser thresh threshlist output lat_res h_res water_temp
      start_lat end_lat min_buffer max_buffer surface_buffer.
Proof. apply try_except_reraise. Qed.

(** *** Traces without events of some kind *)

Lemma quiet_ret {A} p (a : A) : quiet p (ret a).
Proof. constructor. Qed.

Lemma quiet_lift {A} p (r : result A) : quiet p (lift r).
Proof. constructor. Qed.

Lemma quiet_raise {A} p (e : exn) : quiet p (@raise C A e).
Proof. constructor. Qed.

Lemma quiet_emit p ev : p ev = false -> quiet p (emit ev).
Proof. intros H. now repeat constructor. Qed.

Lemma quiet_call {A} p ev (r : result A) : p ev = false -> quiet p (call ev r).
Proof. intros H. now repeat constructor. Qed.

Lemma quiet_bind {A B} p (m : M A) (k : A -> M B) :
  quiet p m -> (forall a, quiet p (k a)) -> quiet p (bind m k).
Proof.
  unfold quiet. destruct m as [t [a | e]]; simpl; intros Hm Hk; [| exact Hm].
  specialize (Hk a). destruct (k a) as [t' r]; simpl in *.
  apply Forall_app. now split.
Qed.

Lemma quiet_try_except {A} p (m : M A) (h : exn -> M A) :
  quiet p m -> (forall e, quiet p (h e)) -> quiet p (try_except m h).
Proof.
  unfold quiet. destruct m as [t [a | e]]; simpl; intros Hm Hh; [exact Hm |].
  specialize (Hh e). destruct (h e) as [t' r]; simpl in *.
  apply Forall_app. now split.
Qed.

Lemma quiet_count {A} p (m : M A) : quiet p m -> count p (events m) = 0.
Proof.
  unfold quiet, count, len. induction 1 as [| ev t Hev _ IH]; simpl.
  - reflexivity.
  - now rewrite Hev.
Qed.

Lemma count_app p (t1 t2 : trace) :
  count p (t1 ++ t2) = count p t1 + count p t2.
Proof.
  unfold count, len. now rewrite filter_app, length_app.
Qed.

End RunFacts.

Create HintDb quiet.
#[local] Hint Resolve quiet_ret quiet_lift quiet_raise : quiet.
#[local] Hint Extern 2 (quiet _ (bind _ _)) => apply quiet_bind; [| intros] : quiet.
#[local] Hint Extern 2 (quiet _ (try_except _ _)) =>
  apply quiet_try_except; [| intros] : quiet.
#[local] Hint Extern 1 (quiet _ (emit _)) => apply quiet_emit; reflexivity : quiet.
#[local] Hint Extern 1 (quiet _ (call _ _)) => apply quiet_call; reflexivity : quiet.

(** ** The sea surface stage *)

Section SurfaceFacts.

Context {C : Cshelph}.

(** Only [-0.5] itself compares equal to [-0.5]. *)
Lemma eqb_minus_half (x : float) :
  F64.eqb x F64.minus_half = true -> x = F64.minus_half.
Proof.
  unfold F64.eqb, F64.minus_half, SFeqb, SFcompare.
  destruct x as [s | s | | s m e]; try discriminate.
  - destruct s; discriminate.
  - destruct s; [| discriminate].
    destruct (Z.compare_spec e (-53)) as [-> | _ | _]; try discriminate.
    destruct (Pos.compare_cont Eq m 4503599627370496) eqn:E; try discriminate.
    intros _. apply Pos.compare_eq in E. now subst m.
Qed.

Lemma prepare_surface_buffer_id (surface_buffer : float) :
  prepare_surface_buffer surface_buffer = surface_buffer.
Proof.
  unfold prepare_surface_buffer.
  destruct (F64.eqb surface_buffer F64.minus_half) eqn:E; [| reflexivity].
  symmetry. now apply eqb_minus_half.
Qed.

(** C9.  The conditional on [surface_buffer] returns its input, so
    [get_sea_height] is called with the value the caller gave. *)
Theorem surface_buffer_passed_unchanged
    (d : Sea.t) (lat_res h_res surface_buffer : float) :
  prepare_surface_buffer surface_buffer = surface_buffer /\
  sea_surface d lat_res h_res surface_buffer =
    (emit (StdoutHead (Sea.head d)) ;;;
     binned_data_sea <- call (Call_bin_data (SeaFrame d) lat_res h_res)
                             (bin_data (SeaFrame d) lat_res h_res) ;;
     sea_height <- call (Call_get_sea_height binned_data_sea surface_buffer)
                        (get_sea_height binned_data_sea surface_buffer) ;;
     ret (mk_surface d sea_height (Np.nanmedian sea_height))).
Proof.
  split; [apply prepare_surface_buffer_id |].
  unfold sea_surface. now rewrite prepare_surface_buffer_id.
Qed.

(** C10.  Without [start_lat] the latitude filter returns the frame as
    it is, and two runs that differ only in [end_lat] are the same run:
    same events, same outcome. *)
Theorem end_lat_unused_without_start_lat
    (input laser : string) (thresh : option Z)
    (threshlist : option (list Py.val)) (output : option string)
    (lat_res h_res : float) (water_temp : option float)
    (end_lat end_lat' : option float)
    (min_buffer max_buffer surface_buffer : float) :
  (forall d, filter_latitude None end_lat d = d) /\
  run_cshelph input laser thresh threshlist output lat_res h_res water_temp
    None end_lat min_buffer max_buffer surface_buffer
  = run_cshelph input laser thresh threshlist output lat_res h_res water_temp
      None end_lat' min_buffer max_buffer surface_buffer.
Proof.
  split; reflexivity.
Qed.

End SurfaceFacts.

(** ** The water temperature *)

Section TemperatureFacts.

Context {C : Cshelph}.

Lemma alike_refl {A} (m : M A) : alike m m.
Proof. now split. Qed.

Lemma alike_bind {A B} (m1 m2 : M A) (k1 k2 : A -> M B) :
  alike m1 m2 -> (forall a, alike (k1 a) (k2 a)) ->
  alike (bind m1 k1) (bind m2 k2).
Proof.
  unfold alike. destruct m1 as [t1 r1], m2 as [t2 r2]; simpl.
  intros [<- Ht] Hk. destruct r1 as [a | e]; simpl; [| now split].
  destruct (Hk a) as [Ho He].
  destruct (k1 a) as [u1 o1], (k2 a) as [u2 o2]; simpl in *.
  split; [exact Ho |]. unfold without_lookup in *.
  now rewrite !filter_app, Ht, He.
Qed.

Lemma alike_reraise {A} (m1 m2 : M A) :
  alike m1 m2 ->
  alike (try_except m1 (fun e => raise e)) (try_except m2 (fun e => raise e)).
Proof. now rewrite !try_except_reraise. Qed.

(** The lookup fails: the stage prints the warning and yields 20. *)
Lemma sea_temperature_fallback
    (input : string) (lat lon : list float) (e : exn) :
  get_water_temp input lat lon = Err e ->
  sea_temperature input lat lon None =
    ([Call_get_water_temp input; Stdout sst_warning;
      StdoutWaterTemp (F64.of_Z 20)], Ok (F64.of_Z 20)).
Proof.
  intros H. unfold sea_temperature. now rewrite H.
Qed.

(** C6.  When the caller gives no water temperature and the lookup
    raises, the stage prints the warning, takes 20 and returns; the run
    then goes on as the run of a caller who gave 20: same outcome, and
    the same events apart from the lookup and its warning. *)
Theorem water_temp_lookup_failure_recovered
    (input laser : string) (thresh : option Z)
    (threshlist : option (list Py.val)) (output : option string)
    (lat_res h_res : float) (start_lat end_lat : option float)
    (min_buffer max_buffer surface_buffer : float)
    (Hdown : forall lat lon, is_ok (get_water_temp input lat lon) = false) :
  (forall lat lon,
     sea_temperature input lat lon None =
       ([Call_get_water_temp input; Stdout sst_warning;
         StdoutWaterTemp (F64.of_Z 20)], Ok (F64.of_Z 20))) /\
  outcome (run_cshelph input laser thresh threshlist output lat_res h_res
             None start_lat end_lat min_buffer max_buffer surface_buffer)
  = outcome (run_cshelph input laser thresh threshlist output lat_res h_res
               (Some (F64.of_Z 20)) start_lat end_lat min_buffer max_buffer
               surface_buffer) /\
  without_lookup
    (events (run_cshelph input laser thresh threshlist output lat_res h_res
               None start_lat end_lat min_buffer max_buffer surface_buffer))
  = without_lookup
      (events (run_cshelph input laser thresh threshlist output lat_res h_res
                 (Some (F64.of_Z 20)) start_lat end_lat min_buffer max_buffer
                 surface_buffer)).
Proof.
  assert (Hstage : forall lat lon,
             sea_temperature input lat lon None =
               ([Call_get_water_temp input; Stdout sst_warning;
                 StdoutWaterTemp (F64.of_Z 20)], Ok (F64.of_Z 20))).
  { intros lat lon. specialize (Hdown lat lon).
    destruct (get_water_temp input lat lon) as [t | e] eqn:E; [discriminate |].
    now apply sea_temperature_fallback with (e := e). }
  split; [exact Hstage |].
  change (alike
    (run_cshelph input laser thresh threshlist output lat_res h_res
       None start_lat end_lat min_buffer max_buffer surface_buffer)
    (run_cshelph input laser thresh threshlist output lat_res h_res
       (Some (F64.of_Z 20)) start_lat end_lat min_buffer max_buffer
       surface_buffer)).
  unfold run_cshelph. apply alike_reraise.
  unfold run_body, prepare.
  apply alike_bind; [| intros; apply alike_refl].
  do 4 (apply alike_bind; [apply alike_refl | intros]).
  apply alike_bind; [| intros; apply alike_refl].
  rewrite Hstage. now split.
Qed.

End TemperatureFacts.

(** ** Refraction, binning and the sweep *)

#[local] Hint Extern 1 (quiet _ (let '(_, _) := ?x in _)) => destruct x : quiet.
#[local] Hint Extern 1 (quiet _ (match ?x with Some _ => _ | None => _ end)) =>
  destruct x : quiet.
#[local] Hint Extern 1 (quiet _ (if ?x then _ else _)) => destruct x : quiet.

Section StageFacts.

Context {C : Cshelph}.

(** A stage that only prints, reads and calls [bin_data] on the photon
    frame, [get_sea_height], [get_water_temp] and the like has no event
    of the three kinds below. *)
Lemma quiet_interp_field p counts mask ref :
  (forall n r, p (Call_ref_linear_interp n r) = false) ->
  quiet p (interp_field counts mask ref).
Proof.
  intros H. unfold interp_field. apply quiet_bind; [auto with quiet |].
  intros. apply quiet_call, H.
Qed.

Lemma quiet_load p input laser :
  p (Call_read_atl03 input laser) = false ->
  (forall a b, p (Call_convert_wgs_to_utm a b) = false) ->
  (forall c, p (Call_orthometric_correction c) = false) ->
  (forall n r, p (Call_ref_linear_interp n r) = false) ->
  quiet p (load input laser).
Proof.
  intros H1 H2 H3 H4. unfold load.
  repeat first
    [ apply quiet_interp_field; exact H4
    | apply quiet_call; solve [auto]
    | apply quiet_bind; [| intros]
    | match goal with |- quiet _ (let '(_, _) := ?x in _) => destruct x end
    | solve [auto with quiet] ].
Qed.

Lemma quiet_filtered_frame p a minb maxb sl el :
  quiet p (filtered_frame a minb maxb sl el).
Proof. unfold filtered_frame. auto with quiet. Qed.

Lemma quiet_sea_surface p d lr hr sb :
  p (StdoutHead (Sea.head d)) = false ->
  p (Call_bin_data (SeaFrame d) lr hr) = false ->
  (forall b s, p (Call_get_sea_height b s) = false) ->
  quiet p (sea_surface d lr hr sb).
Proof.
  intros H1 H2 H3. unfold sea_surface.
  repeat first
    [ apply quiet_call; solve [auto]
    | apply quiet_emit; solve [auto]
    | apply quiet_bind; [| intros]
    | solve [auto with quiet] ].
Qed.

Lemma quiet_sea_temperature p input lat lon wt :
  p (Call_get_water_temp input) = false ->
  (forall s, p (Stdout s) = false) ->
  (forall t, p (StdoutWaterTemp t) = false) ->
  quiet p (sea_temperature input lat lon wt).
Proof.
  intros H1 H2 H3. unfold sea_temperature.
  apply quiet_bind.
  - destruct wt; [auto with quiet |].
    apply quiet_try_except; [apply quiet_call, H1 |].
    intros. apply quiet_bind; [apply quiet_emit, H2 | auto with quiet].
  - intros. apply quiet_bind; [apply quiet_emit, H3 | auto with quiet].
Qed.

(** Lines 219-263 when they succeed: one refraction correction, then
    one binning of the bathymetry frame, whose depth column is the
    estimate minus the corrected heights. *)
Lemma correct_and_bin_ok water_temp s lat_res h_res t co :
  correct_and_bin water_temp s lat_res h_res = (t, Ok co) ->
  t = [Stdout "refrac correction";
       Call_refraction_correction water_temp (sf_med_water_surface_h s)
         (sf_dataset_sea1 s);
       Call_bin_data (BathFrame (co_dataset_bath co)) lat_res h_res] /\
  bin_data (BathFrame (co_dataset_bath co)) lat_res h_res
    = Ok (co_binned_data co) /\
  Bath.depth (co_dataset_bath co)
    = depth_of (sf_med_water_surface_h s) (Refraction.ref_z (co_refraction co)).
Proof.
  unfold correct_and_bin. intros H.
  apply bind_inv_ok in H. destruct H as (t1 & [] & t2 & H1 & H & ->).
  apply emit_inv_ok in H1. subst t1.
  apply bind_inv_ok in H. destruct H as (t3 & r & t4 & H3 & H & ->).
  apply call_inv_ok in H3. destruct H3 as [-> Hr].
  apply bind_inv_ok in H. destruct H as (t5 & db & t6 & H5 & H & ->).
  apply lift_inv_ok in H5. destruct H5 as [-> Hdb].
  apply bind_inv_ok in H. destruct H as (t7 & b & t8 & H7 & H & ->).
  apply call_inv_ok in H7. destruct H7 as [-> Hb].
  apply ret_inv_ok in H. destruct H as [-> <-]. simpl.
  repeat split; [exact Hb |].
  unfold Bath.DataFrame in Hdb.
  destruct (all_same_length _); [| discriminate].
  now injection Hdb as <-.
Qed.

(** One step of the sweep neither corrects nor bins, and classifies the
    table of its context. *)
Lemma quiet_figures p cx bath geo label :
  p PltClose = false -> (forall s, p (Stdout s) = false) ->
  (forall b l, p (Call_produce_figures b l) = false) ->
  quiet p (figures cx bath geo label).
Proof.
  intros H1 H2 H3. unfold figures.
  apply quiet_bind; [apply quiet_emit, H1 | intros].
  apply quiet_bind; [apply quiet_emit, H2 | intros].
  apply quiet_call, H3.
Qed.

Lemma quiet_sweep_step p cx v :
  p PltClose = false -> (forall s, p (Stdout s) = false) ->
  (forall b l, p (Call_produce_figures b l) = false) ->
  (forall b t m h, p (Call_get_bath_height b t m h) = false) ->
  quiet p (sweep_step cx v).
Proof.
  intros H1 H2 H3 H4. unfold sweep_step.
  apply quiet_bind; [apply quiet_emit, H2 | intros].
  apply quiet_bind; [auto with quiet | intros].
  apply quiet_bind; [apply quiet_call, H4 | intros [bath geo]].
  now apply quiet_figures.
Qed.

Lemma quiet_sweep p cx l :
  p PltClose = false -> (forall s, p (Stdout s) = false) ->
  (forall b l, p (Call_produce_figures b l) = false) ->
  (forall b t m h, p (Call_get_bath_height b t m h) = false) ->
  quiet p (sweep cx l).
Proof.
  intros H1 H2 H3 H4. induction l as [| v l IH]; simpl.
  - auto with quiet.
  - apply quiet_bind; [now apply quiet_sweep_step | intros; exact IH].
Qed.

Lemma classified_tables_app (t1 t2 : trace) :
  classified_tables (t1 ++ t2) = classified_tables t1 ++ classified_tables t2.
Proof.
  induction t1 as [| ev t1 IH]; simpl; [reflexivity |].
  destruct ev; simpl; now rewrite IH.
Qed.

Lemma classified_tables_quiet (t : trace) :
  Forall (fun ev => is_classification ev = false) t ->
  classified_tables t = [].
Proof.
  induction 1 as [| ev t Hev _ IH]; simpl; [reflexivity |].
  destruct ev; simpl in *; try exact IH. discriminate.
Qed.

Lemma classified_tables_sweep_step cx v :
  Forall (fun b => b = cx_binned_data cx)
         (classified_tables (events (sweep_step cx v))).
Proof.
  unfold sweep_step, figures, bind, emit, call, lift; simpl.
  destruct (Py.int v) as [t | e]; simpl; [| constructor].
  destruct (get_bath_height (cx_binned_data cx) t (cx_med_water_surface_h cx)
              (cx_h_res cx)) as [[bath geo] | e]; simpl.
  - repeat constructor.
  - repeat constructor.
Qed.

Lemma classified_tables_sweep cx l :
  Forall (fun b => b = cx_binned_data cx)
         (classified_tables (events (sweep cx l))).
Proof.
  induction l as [| v l IH]; simpl; [constructor |].
  pose proof (classified_tables_sweep_step cx v) as Hv.
  destruct (sweep_step cx v) as [t [[] | e]]; simpl in *.
  - destruct (sweep cx l) as [t' r]; simpl in *.
    rewrite classified_tables_app. apply Forall_app. now split.
  - exact Hv.
Qed.

Lemma quiet_correct_and_bin p water_temp s lat_res h_res :
  (forall line, p (Stdout line) = false) ->
  (forall wt med d, p (Call_refraction_correction wt med d) = false) ->
  (forall f lr hr, p (Call_bin_data f lr hr) = false) ->
  quiet p (correct_and_bin water_temp s lat_res h_res).
Proof.
  intros H1 H2 H3. unfold correct_and_bin.
  apply quiet_bind; [apply quiet_emit, H1 | intros].
  apply quiet_bind; [apply quiet_call, H2 | intros].
  apply quiet_bind; [apply quiet_lift | intros].
  apply quiet_bind; [apply quiet_call, H3 | intros]. apply quiet_ret.
Qed.

Lemma quiet_classify p cx thresh threshlist :
  p PltClose = false -> (forall s, p (Stdout s) = false) ->
  (forall b l, p (Call_produce_figures b l) = false) ->
  (forall b t m h, p (Call_get_bath_height b t m h) = false) ->
  quiet p (classify cx thresh threshlist).
Proof.
  intros H1 H2 H3 H4. unfold classify.
  apply quiet_bind; [apply quiet_emit, H2 | intros].
  destruct thresh as [t |].
  - unfold classify_single.
    apply quiet_bind; [apply quiet_call, H4 | intros [bath geo]].
    now apply quiet_figures.
  - destruct threshlist as [l |]; [now apply quiet_sweep | apply quiet_ret].
Qed.

End StageFacts.

Section SweepFacts.

Context {C : Cshelph}.

Lemma quiet_events {A} p (m : M A) (t : trace) (r : result A) :
  m = (t, r) -> quiet p m -> count p t = 0.
Proof.
  intros -> H. exact (quiet_count p _ H).
Qed.

(** Lines 68-263 when they succeed: the refraction correction and the
    binning of the bathymetry frame happened once each, no
    classification yet, and the context holds the table that binning
    returned. *)
Lemma prepare_ok input laser lat_res h_res water_temp start_lat end_lat
    min_buffer max_buffer surface_buffer (pre : trace) (cx : context) :
  prepare input laser lat_res h_res water_temp start_lat end_lat
    min_buffer max_buffer surface_buffer = (pre, Ok cx) ->
  count is_refraction pre = 1 /\
  count is_bath_binning pre = 1 /\
  count is_classification pre = 0 /\
  exists dataset_bath,
    In (Call_bin_data (BathFrame dataset_bath) lat_res h_res) pre /\
    bin_data (BathFrame dataset_bath) lat_res h_res = Ok (cx_binned_data cx).
Proof.
  unfold prepare. intros H.
  apply bind_inv_ok in H. destruct H as (t1 & ld & u1 & H1 & H & ->).
  apply bind_inv_ok in H. destruct H as (t2 & a & u2 & H2 & H & ->).
  apply bind_inv_ok in H. destruct H as (t3 & d & u3 & H3 & H & ->).
  apply bind_inv_ok in H. destruct H as (t4 & s & u4 & H4 & H & ->).
  apply bind_inv_ok in H. destruct H as (t5 & wt & u5 & H5 & H & ->).
  apply bind_inv_ok in H. destruct H as (t6 & co & u6 & H6 & H & ->).
  apply ret_inv_ok in H. destruct H as [-> <-]. simpl.
  apply lift_inv_ok in H2. destruct H2 as [-> _].
  apply correct_and_bin_ok in H6. destruct H6 as (-> & Hb & _).
  assert (Q : forall p,
             p = is_refraction \/ p = is_bath_binning \/ p = is_classification ->
             count p t1 = 0 /\ count p t3 = 0 /\ count p t4 = 0 /\
             count p t5 = 0).
  { intros p Hp. repeat split.
    - eapply quiet_events; [exact H1 |].
      apply quiet_load; destruct Hp as [-> | [-> | ->]]; reflexivity.
    - eapply quiet_events; [exact H3 |]. apply quiet_filtered_frame.
    - eapply quiet_events; [exact H4 |].
      apply quiet_sea_surface; destruct Hp as [-> | [-> | ->]]; reflexivity.
    - eapply quiet_events; [exact H5 |].
      apply quiet_sea_temperature; destruct Hp as [-> | [-> | ->]]; reflexivity. }
  split; [| split; [| split]].
  - destruct (Q is_refraction) as (Q1 & Q3 & Q4 & Q5); [auto |].
    rewrite !count_app, Q1, Q3, Q4, Q5. reflexivity.
  - destruct (Q is_bath_binning) as (Q1 & Q3 & Q4 & Q5); [auto |].
    rewrite !count_app, Q1, Q3, Q4, Q5. reflexivity.
  - destruct (Q is_classification) as (Q1 & Q3 & Q4 & Q5); [auto |].
    rewrite !count_app, Q1, Q3, Q4, Q5. reflexivity.
  - exists (co_dataset_bath co). split; [| exact Hb].
    rewrite !in_app_iff. do 5 right. left. simpl. auto.
Qed.

(** C7.  In a run with a list of thresholds that reaches the sweep, the
    events are those of lines 68-263 followed by those of the sweep; the
    refraction correction and the binning of the bathymetry frame occur
    once each, both before the sweep, and no classification before it;
    the sweep has neither; and every call of [get_bath_height] is given
    the one table that binning returned. *)
Theorem sweep_reuses_corrected_table
    (input laser : string) (threshlist : list Py.val) (output : option string)
    (lat_res h_res : float) (water_temp start_lat end_lat : option float)
    (min_buffer max_buffer surface_buffer : float)
    (pre : trace) (cx : context)
    (Hprepare :
       prepare input laser lat_res h_res water_temp start_lat end_lat
         min_buffer max_buffer surface_buffer = (pre, Ok cx)) :
  let run :=
    run_cshelph input laser None (Some threshlist) output lat_res h_res
      water_temp start_lat end_lat min_buffer max_buffer surface_buffer in
  events run
    = pre ++ Stdout "Locating bathymetric photons..." :: events (sweep cx threshlist) /\
  count is_refraction pre = 1 /\
  count is_bath_binning pre = 1 /\
  count is_classification pre = 0 /\
  count is_refraction (events (sweep cx threshlist)) = 0 /\
  count is_bath_binning (events (sweep cx threshlist)) = 0 /\
  count is_refraction (events run) = 1 /\
  count is_bath_binning (events run) = 1 /\
  Forall (fun b => b = cx_binned_data cx) (classified_tables (events run)) /\
  exists dataset_bath,
    In (Call_bin_data (BathFrame dataset_bath) lat_res h_res) pre /\
    bin_data (BathFrame dataset_bath) lat_res h_res = Ok (cx_binned_data cx).
Proof.
  intros run.
  destruct (prepare_ok _ _ _ _ _ _ _ _ _ _ _ _ Hprepare)
    as (Hr & Hb & Hc & Hbin).
  assert (Hrun : events run
                 = pre ++ Stdout "Locating bathymetric photons..."
                       :: events (sweep cx threshlist)).
  { unfold run. rewrite run_cshelph_body. unfold run_body.
    rewrite Hprepare, bind_ok. unfold classify, emit, events; simpl.
    now destruct (sweep cx threshlist). }
  assert (Sr : count is_refraction (events (sweep cx threshlist)) = 0)
    by (apply quiet_count, quiet_sweep; reflexivity).
  assert (Sb : count is_bath_binning (events (sweep cx threshlist)) = 0)
    by (apply quiet_count, quiet_sweep; reflexivity).
  repeat match goal with |- _ /\ _ => split end;
    try assumption; [| | ].
  - rewrite Hrun. change (pre ++ ?x :: ?r) with (pre ++ [x] ++ r).
    rewrite !count_app, Hr, Sr. reflexivity.
  - rewrite Hrun. change (pre ++ ?x :: ?r) with (pre ++ [x] ++ r).
    rewrite !count_app, Hb, Sb. reflexivity.
  - rewrite Hrun. change (pre ++ ?x :: ?r) with (pre ++ [x] ++ r).
    rewrite !classified_tables_app.
    rewrite (classified_tables_quiet pre); simpl.
    + apply classified_tables_sweep.
    + unfold count, len in Hc. apply length_zero_iff_nil in Hc.
      clear -Hc. induction pre as [| ev pre IH]; [constructor |].
      simpl in Hc. destruct (is_classification ev) eqn:E; [discriminate |].
      constructor; auto.
Qed.

End SweepFacts.

(** ** Failures in the sweep *)

Section SweepFailureFacts.

Context {C : Cshelph}.

Lemma sweep_app cx (l1 l2 : list Py.val) :
  sweep cx (l1 ++ l2) = (sweep cx l1 ;;; sweep cx l2).
Proof.
  induction l1 as [| v l1 IH]; simpl.
  - unfold ret, bind. now destruct (sweep cx l2).
  - rewrite IH. destruct (sweep_step cx v) as [t [[] | e]]; simpl; [| reflexivity].
    destruct (sweep cx l1) as [t1 [[] | e1]]; simpl.
    + destruct (sweep cx l2) as [t2 r2]. now rewrite app_assoc.
    + reflexivity.
Qed.

(** While no step fails, the sweep runs every step in order. *)
Lemma sweep_all_ok cx (l : list Py.val) :
  (forall u, In u l -> outcome (sweep_step cx u) = Ok tt) ->
  sweep cx l = (flat_map (fun u => events (sweep_step cx u)) l, Ok tt).
Proof.
  induction l as [| v l IH]; intros H; simpl; [reflexivity |].
  rewrite IH by (intros; apply H; now right).
  pose proof (H v (or_introl eq_refl)) as Hv.
  destruct (sweep_step cx v) as [t r]; simpl in *. now subst r.
Qed.

(** The step that fails is the last one that runs. *)
Lemma sweep_first_failure cx (before after : list Py.val) (v : Py.val) e :
  (forall u, In u before -> outcome (sweep_step cx u) = Ok tt) ->
  outcome (sweep_step cx v) = Err e ->
  sweep cx (before ++ v :: after)
  = (flat_map (fun u => events (sweep_step cx u)) (before ++ [v]), Err e).
Proof.
  intros Hb Hv. rewrite sweep_app, (sweep_all_ok cx before Hb). simpl.
  rewrite flat_map_app. simpl.
  destruct (sweep_step cx v) as [t r]; simpl in *. subst r. simpl.
  now rewrite app_nil_r.
Qed.

(** C2 (as the code has it).  In a run that reaches the sweep, the
    thresholds are taken in the order of the list; when the step of one
    threshold raises, the steps of the thresholds before it have run,
    the exception leaves [run_cshelph], and no step of a later threshold
    runs. *)
Theorem sweep_stops_at_first_failure
    (input laser : string) (output : option string)
    (lat_res h_res : float) (water_temp start_lat end_lat : option float)
    (min_buffer max_buffer surface_buffer : float)
    (pre : trace) (cx : context)
    (before after : list Py.val) (v : Py.val) (e : exn)
    (Hprepare :
       prepare input laser lat_res h_res water_temp start_lat end_lat
         min_buffer max_buffer surface_buffer = (pre, Ok cx))
    (Hbefore : forall u, In u before -> outcome (sweep_step cx u) = Ok tt)
    (Hfails : outcome (sweep_step cx v) = Err e) :
  run_cshelph input laser None (Some (before ++ v :: after)) output
    lat_res h_res water_temp start_lat end_lat min_buffer max_buffer
    surface_buffer
  = (pre ++ Stdout "Locating bathymetric photons..."
         :: flat_map (fun u => events (sweep_step cx u)) (before ++ [v]),
     Err e).
Proof.
  rewrite run_cshelph_body. unfold run_body.
  rewrite Hprepare, bind_ok. unfold classify.
  rewrite (sweep_first_failure cx before after v e Hbefore Hfails).
  reflexivity.
Qed.

End SweepFailureFacts.

(** C2 (as stated) fails: with a classifier that raises on 25, the
    sweep over 20, 25, 30 evaluates 20 and 25, the exception leaves the
    run, and 30 is never evaluated. *)
Lemma sweep_aborts_after_failed_threshold :
  outcome Demo.failing_sweep = Err (Exception "no bathymetric photons found") /\
  evaluated (events Demo.failing_sweep) = [20; 25]%Z /\
  ~ In 30%Z (evaluated (events Demo.failing_sweep)).
Proof.
  assert (E : evaluated (events Demo.failing_sweep) = [20; 25]%Z)
    by (vm_compute; reflexivity).
  split; [vm_compute; reflexivity |]. split; [exact E |].
  rewrite E. simpl. intros [H | [H | []]]; discriminate.
Qed.

(** ** The command line *)

Section CliFacts.

Context {C : Cshelph}.

Import Cli.

Lemma events_bind_head {A B} (m : M A) (k : A -> M B) (ev : event) :
  (exists t, events m = ev :: t) -> exists t, events (bind m k) = ev :: t.
Proof.
  intros [t H]. destruct m as [t0 [a | e]]; simpl in *; subst t0.
  - destruct (k a) as [t' r]. simpl. eauto.
  - eauto.
Qed.

Lemma events_try_except_head {A} (m : M A) (h : exn -> M A) (ev : event) :
  (exists t, events m = ev :: t) -> exists t, events (try_except m h) = ev :: t.
Proof.
  intros [t H]. destruct m as [t0 [a | e]]; simpl in *; subst t0.
  - eauto.
  - destruct (h e) as [t' r]. simpl. eauto.
Qed.

(** The first thing a run does is to read the input. *)
Lemma run_cshelph_starts_reading input laser thresh threshlist output
    lat_res h_res water_temp start_lat end_lat min_buffer max_buffer
    surface_buffer :
  exists t,
    events (run_cshelph input laser thresh threshlist output lat_res h_res
              water_temp start_lat end_lat min_buffer max_buffer
              surface_buffer)
    = Call_read_atl03 input laser :: t.
Proof.
  rewrite run_cshelph_body. unfold run_body, prepare, load.
  do 3 apply events_bind_head. unfold call. simpl. eauto.
Qed.

(** With [--thresh] given, [run_cshelph] never looks at the list. *)
Lemma run_cshelph_ignores_list input laser (t : Z) threshlist threshlist'
    output lat_res h_res water_temp start_lat end_lat min_buffer max_buffer
    surface_buffer :
  run_cshelph input laser (Some t) threshlist output lat_res h_res
    water_temp start_lat end_lat min_buffer max_buffer surface_buffer
  = run_cshelph input laser (Some t) threshlist' output lat_res h_res
      water_temp start_lat end_lat min_buffer max_buffer surface_buffer.
Proof. reflexivity. Qed.

Lemma bind_emit {B} (ev : event) (k : unit -> M B) :
  bind (emit ev) k = (ev :: events (k tt), outcome (k tt)).
Proof.
  unfold emit, bind, events, outcome. now destruct (k tt).
Qed.

Lemma accepted_when_given (a : args) :
  ~ (thresh a = None /\ threshlist a = None) -> accepted a.
Proof.
  intros Hn. unfold accepted, main.
  assert (E : is_none (thresh a) && is_none (threshlist a) = false).
  { destruct (thresh a), (threshlist a); try reflexivity.
    exfalso. now apply Hn. }
  rewrite E, bind_emit. apply in_cons. unfold guarded_run.
  destruct (run_cshelph_starts_reading (input a) (laser a) (thresh a)
              (option_map (map Py.Str) (threshlist a)) (output a)
              (lat_res a) (h_res a) (water_temp a) (start_lat a) (end_lat a)
              (min_buffer a) (max_buffer a) (surface_buffer a)) as [t Ht].
  destruct (events_try_except_head _
              (fun e => emit (Stdout ("Error: " ++ exn_msg e)) ;;;
                        if debug a then emit (Traceback e) else ret tt)
              _ (ex_intro _ t Ht)) as [t' Ht'].
  rewrite Ht'. now left.
Qed.

Lemma rejected_when_missing (a : args) :
  thresh a = None /\ threshlist a = None -> rejected a.
Proof.
  intros [H1 H2]. unfold rejected, main. now rewrite H1, H2.
Qed.

Lemma accepted_not_rejected (a : args) : accepted a -> ~ rejected a.
Proof.
  unfold accepted, rejected. intros Ha Hr. rewrite Hr in Ha. exact Ha.
Qed.

(** C4 (as the code has it).  [main] rejects the command line exactly
    when neither [--thresh] nor [--threshlist] is given, and starts the
    run in every other case, also when both are given; then the single
    threshold is used and the list is ignored. *)
Theorem main_rejects_only_missing_thresholds (a : args) :
  (rejected a <-> thresh a = None /\ threshlist a = None) /\
  (accepted a <-> ~ (thresh a = None /\ threshlist a = None)) /\
  (forall (t : Z) (l : option (list string)),
     main (with_thresholds a (Some t) l)
     = main (with_thresholds a (Some t) None)).
Proof.
  split; [| split].
  - split; [| apply rejected_when_missing].
    intros Hr. destruct (thresh a) eqn:E1, (threshlist a) eqn:E2; auto;
      exfalso; apply (accepted_not_rejected a); try exact Hr;
      apply accepted_when_given; rewrite ?E1, ?E2; intros [? ?]; discriminate.
  - split; [| apply accepted_when_given].
    intros Ha Hn. apply (accepted_not_rejected a Ha).
    now apply rejected_when_missing.
  - intros t l. reflexivity.
Qed.

End CliFacts.

(** C4 (as stated) fails: with [--thresh 30] and [--threshlist 20 25]
    both given, [main] does not reject; the run is started and
    classifies with 30 alone. *)
Lemma main_accepts_both_thresholds :
  Cli.thresh Demo.both_given <> None /\
  Cli.threshlist Demo.both_given <> None /\
  @Cli.accepted Demo.plain Demo.both_given /\
  ~ @Cli.rejected Demo.plain Demo.both_given /\
  outcome (@Cli.main Demo.plain Demo.both_given) = Ok tt /\
  evaluated (events (@Cli.main Demo.plain Demo.both_given)) = [30%Z].
Proof.
  split; [discriminate |]. split; [discriminate |].
  assert (Ha : @Cli.accepted Demo.plain Demo.both_given).
  { apply accepted_when_given. intros [H _]. discriminate. }
  split; [exact Ha |]. split.
  - now apply accepted_not_rejected.
  - split; vm_compute; reflexivity.
Qed.

(** ** A sea surface without candidates *)

Section MissingEstimateFacts.

Context {C : Cshelph}.

(** Nothing but NaN in, NaN out. *)
Lemma nanmedian_no_candidates (sea_height : list float) :
  (forall x, In x sea_height -> F64.is_nan x = true) ->
  Np.nanmedian sea_height = F64.nan.
Proof.
  intros H. unfold Np.nanmedian.
  replace (filter (fun x => negb (F64.is_nan x)) sea_height) with (@nil float).
  - reflexivity.
  - symmetry. induction sea_height as [| x l IH]; simpl; [reflexivity |].
    rewrite (H x (or_introl eq_refl)). simpl.
    apply IH. intros y Hy. apply H. now right.
Qed.

(** A depth derived from a NaN estimate is NaN. *)
Lemma depth_of_nan (ref_z : list float) :
  depth_of F64.nan ref_z = map (fun _ => F64.nan) ref_z.
Proof.
  unfold depth_of. apply map_ext. intros z. reflexivity.
Qed.

(** When every photon has confidence 0 or 1 the confidence filter keeps
    no row. *)
Lemma select_none {A} (mask : list bool) (col : list A) :
  (forall b, In b mask -> b = false) -> Py.select mask col = [].
Proof.
  unfold Py.select. revert col.
  induction mask as [| b mask IH]; intros col H; simpl; [reflexivity |].
  destruct col as [| x col]; simpl; [reflexivity |].
  rewrite (H b (or_introl eq_refl)). simpl.
  apply IH. intros b' Hb'. apply H. now right.
Qed.

Lemma in_combine_map {A B D} (g : A -> B) (h : A -> D) (l : list A) x y :
  In (x, y) (combine (map g l) (map h l)) ->
  exists c, In c l /\ x = g c /\ y = h c.
Proof.
  induction l as [| c l IH]; simpl; [easy |].
  intros [E | Hin].
  - injection E as <- <-. exists c. auto.
  - destruct (IH Hin) as (c' & Hc' & -> & ->). exists c'. auto.
Qed.

Lemma filter_confidence_noise (d : Sea.t) :
  (forall c, In c (Sea.confidence d) -> c = 0%Z \/ c = 1%Z) ->
  Sea.rows (filter_confidence d) = 0.
Proof.
  intros H. unfold filter_confidence, Sea.rows, Sea.loc; simpl.
  rewrite select_none; [reflexivity |].
  intros b Hb. unfold mask_and, ne_scalar in Hb.
  apply in_map_iff in Hb. destruct Hb as ([b1 b2] & <- & Hin).
  apply in_combine_map in Hin. destruct Hin as (c & Hc & -> & ->).
  simpl. destruct (H c Hc) as [-> | ->]; reflexivity.
Qed.

(** Lines 194-206, when they return: the frame is passed on, the
    estimate is the median of what [get_sea_height] returned, and no
    bathymetry frame has been binned. *)
Lemma sea_surface_inv d lat_res h_res surface_buffer (ts : trace) (s : surface) :
  sea_surface d lat_res h_res surface_buffer = (ts, Ok s) ->
  sf_dataset_sea1 s = d /\
  sf_med_water_surface_h s = Np.nanmedian (sf_sea_height s) /\
  bath_frames ts = [].
Proof.
  unfold sea_surface, emit, call, ret, bind.
  destruct (bin_data (SeaFrame d) lat_res h_res) as [bs | e]; [| discriminate].
  destruct (get_sea_height bs _) as [sh | e]; [| discriminate].
  intros H. injection H as <- <-. repeat split.
Qed.

(** Lines 209-216 always return, with the temperature of
    [water_temp_used]. *)
Lemma sea_temperature_settles input lat lon water_temp :
  sea_temperature input lat lon water_temp
  = (events (sea_temperature input lat lon water_temp),
     Ok (water_temp_used input lat lon water_temp)).
Proof.
  unfold sea_temperature, water_temp_used, try_except, call, emit, ret, bind.
  destruct water_temp as [t |]; [reflexivity |].
  destruct (get_water_temp input lat lon); reflexivity.
Qed.

Lemma bath_frames_app (t1 t2 : trace) :
  bath_frames (t1 ++ t2) = bath_frames t1 ++ bath_frames t2.
Proof.
  induction t1 as [| ev t1 IH]; simpl; [reflexivity |].
  destruct ev; try exact IH.
  match goal with f : frame |- _ => destruct f end; simpl;
    [exact IH | now rewrite IH].
Qed.

Lemma bath_frames_quiet {A} (m : M A) :
  quiet is_bath_binning m -> bath_frames (events m) = [].
Proof.
  unfold quiet. generalize (events m). intros t H.
  induction H as [| ev t Hev _ IH]; [reflexivity |].
  destruct ev; try exact IH.
  match goal with f : frame |- _ => destruct f end;
    [exact IH | discriminate].
Qed.

(** A run that reaches the sea-surface estimate is the events up to
    there, the temperature stage, and lines 219-312 run with the
    estimate and the temperature that was settled on. *)
Lemma run_after_surface
    (input laser : string) (thresh : option Z)
    (threshlist : option (list Py.val))
    (output : option string) (lat_res h_res : float)
    (water_temp start_lat end_lat : option float)
    (min_buffer max_buffer surface_buffer : float)
    (t0 ts : trace) (ld : loaded) (a : Reconcile.arrays) (d : Sea.t)
    (s : surface) :
  load input laser = (t0, Ok ld) ->
  Reconcile.reconcile (ld_arrays ld) = Ok a ->
  filtered_frame a min_buffer max_buffer start_lat end_lat = ([], Ok d) ->
  sea_surface d lat_res h_res surface_buffer = (ts, Ok s) ->
  let wt := water_temp_used input (ld_latitude ld) (ld_longitude ld) water_temp in
  let rest :=
    co <- correct_and_bin wt s lat_res h_res ;;
    classify
      (mk_context input laser (ld_epsg_num ld) h_res (sf_sea_height s)
         (sf_med_water_surface_h s) (co_binned_data co)
         (Refraction.ref_y (co_refraction co))
         (Refraction.ref_z (co_refraction co)))
      thresh threshlist in
  run_cshelph input laser thresh threshlist output lat_res h_res
    water_temp start_lat end_lat min_buffer max_buffer surface_buffer
  = (t0 ++ ts
     ++ events (sea_temperature input (ld_latitude ld) (ld_longitude ld)
                  water_temp)
     ++ events rest,
     outcome rest).
Proof.
  intros Hload Hreconcile Hframe Hsurface wt rest.
  rewrite run_cshelph_body. unfold run_body.
  set (tw := events (sea_temperature input (ld_latitude ld) (ld_longitude ld)
                       water_temp)).
  set (stage :=
         co <- correct_and_bin wt s lat_res h_res ;;
         ret (mk_context input laser (ld_epsg_num ld) h_res (sf_sea_height s)
                (sf_med_water_surface_h s) (co_binned_data co)
                (Refraction.ref_y (co_refraction co))
                (Refraction.ref_z (co_refraction co)))).
  assert (Hprepare :
            prepare input laser lat_res h_res water_temp start_lat end_lat
              min_buffer max_buffer surface_buffer
            = (t0 ++ [] ++ [] ++ ts ++ tw ++ events stage, outcome stage)).
  { unfold prepare.
    eapply bind_eq; [exact Hload |]. cbv beta.
    eapply bind_eq; [unfold lift; rewrite Hreconcile; reflexivity |].
    cbv beta. eapply bind_eq; [exact Hframe |].
    cbv beta. eapply bind_eq; [exact Hsurface |].
    cbv beta. eapply bind_eq; [apply sea_temperature_settles |].
    cbv beta. apply run_eta. }
  rewrite Hprepare. unfold stage, rest.
  destruct (correct_and_bin wt s lat_res h_res) as [tc [co | e]].
  - unfold bind, ret, events, outcome. cbn [fst snd].
    destruct (classify _ thresh threshlist) as [t' r]. cbn [fst snd].
    f_equal. simpl. rewrite app_nil_r, <- !app_assoc. reflexivity.
  - reflexivity.
Qed.

(** Lines 219-263, case by case: what was called and what is returned
    or raised. *)
Lemma correct_and_bin_cases water_temp s lat_res h_res :
  let d := sf_dataset_sea1 s in
  let med := sf_med_water_surface_h s in
  let called := [Stdout "refrac correction";
                 Call_refraction_correction water_temp med d] in
  correct_and_bin water_temp s lat_res h_res
  = match
      refraction_correction water_temp med 532
        (Sea.ref_elevation d) (Sea.ref_azminuth d) (Sea.photon_height d)
        (Sea.longitude d) (Sea.latitude d) (Sea.confidence d)
        (Sea.ref_sat_alt d)
    with
    | Err e => (called, Err e)
    | Ok r =>
      match Bath.DataFrame r (depth_of med (Refraction.ref_z r)) with
      | Err e => (called, Err e)
      | Ok dataset_bath =>
        let called :=
          called ++ [Call_bin_data (BathFrame dataset_bath) lat_res h_res] in
        match bin_data (BathFrame dataset_bath) lat_res h_res with
        | Err e => (called, Err e)
        | Ok binned_data =>
          (called, Ok (mk_corrected r dataset_bath binned_data))
        end
      end
    end.
Proof.
  unfold correct_and_bin, emit, call, lift, ret, bind. cbv zeta.
  destruct (refraction_correction _ _ _ _ _ _ _ _ _ _) as [r | e];
    [| reflexivity].
  destruct (Bath.DataFrame r _) as [dataset_bath | e]; [| reflexivity].
  destruct (bin_data (BathFrame dataset_bath) lat_res h_res); reflexivity.
Qed.

(** C5 (amended).  In a run where [get_sea_height] returns no candidate
    (an empty list, or nothing but NaN), the estimate is NaN and nothing
    is raised for it: the temperature stage returns and
    [refraction_correction] is called with the NaN estimate; every
    bathymetry frame the run hands to [bin_data] has a depth column of
    NaN only, one per row; and the run ends as the calls made after the
    estimate end: with the exception of [refraction_correction], of the
    frame constructor or of [bin_data] when one of them raises, and as
    the classification ends otherwise. *)
Theorem missing_estimate_propagates
    (input laser : string) (thresh : option Z)
    (threshlist : option (list Py.val))
    (output : option string) (lat_res h_res : float)
    (water_temp start_lat end_lat : option float)
    (min_buffer max_buffer surface_buffer : float)
    (t0 ts : trace) (ld : loaded) (a : Reconcile.arrays) (d : Sea.t)
    (s : surface)
    (Hload : load input laser = (t0, Ok ld))
    (Hreconcile : Reconcile.reconcile (ld_arrays ld) = Ok a)
    (Hframe :
       filtered_frame a min_buffer max_buffer start_lat end_lat = ([], Ok d))
    (Hsurface : sea_surface d lat_res h_res surface_buffer = (ts, Ok s))
    (Hnone : forall x, In x (sf_sea_height s) -> F64.is_nan x = true) :
  let wt := water_temp_used input (ld_latitude ld) (ld_longitude ld) water_temp in
  let run :=
    run_cshelph input laser thresh threshlist output lat_res h_res
      water_temp start_lat end_lat min_buffer max_buffer surface_buffer in
  sf_med_water_surface_h s = F64.nan /\
  In (Call_refraction_correction wt F64.nan d) (events run) /\
  Forall depth_undefined (bath_frames (events run)) /\
  outcome run
  = match
      refraction_correction wt F64.nan 532
        (Sea.ref_elevation d) (Sea.ref_azminuth d) (Sea.photon_height d)
        (Sea.longitude d) (Sea.latitude d) (Sea.confidence d)
        (Sea.ref_sat_alt d)
    with
    | Err e => Err e
    | Ok r =>
      match Bath.DataFrame r (depth_of F64.nan (Refraction.ref_z r)) with
      | Err e => Err e
      | Ok dataset_bath =>
        match bin_data (BathFrame dataset_bath) lat_res h_res with
        | Err e => Err e
        | Ok binned_data =>
          outcome
            (classify
               (mk_context input laser (ld_epsg_num ld) h_res
                  (sf_sea_height s) F64.nan binned_data
                  (Refraction.ref_y r) (Refraction.ref_z r))
               thresh threshlist)
        end
      end
    end.
Proof.
  intros wt run.
  destruct (sea_surface_inv _ _ _ _ _ _ Hsurface) as (Hd & Hmed & Hts).
  rewrite (nanmedian_no_candidates _ Hnone) in Hmed.
  split; [exact Hmed |].
  pose proof (run_after_surface input laser thresh threshlist output lat_res
                h_res water_temp start_lat end_lat min_buffer max_buffer
                surface_buffer t0 ts ld a d s Hload Hreconcile Hframe Hsurface)
    as Hrun.
  cbv zeta in Hrun. fold wt in Hrun. fold run in Hrun.
  assert (Ht0 : bath_frames t0 = []).
  { pose proof (bath_frames_quiet (load input laser)
                  (quiet_load is_bath_binning input laser eq_refl
                     (fun _ _ => eq_refl) (fun _ => eq_refl)
                     (fun _ _ => eq_refl))) as H.
    now rewrite Hload in H. }
  assert (Htw : bath_frames
                  (events (sea_temperature input (ld_latitude ld)
                             (ld_longitude ld) water_temp)) = []).
  { apply bath_frames_quiet, quiet_sea_temperature; reflexivity. }
  assert (Hclassify : forall cx,
             bath_frames (events (classify cx thresh threshlist)) = []).
  { intros cx. apply bath_frames_quiet, quiet_classify; reflexivity. }
  pose proof (f_equal fst Hrun) as Hev. pose proof (f_equal snd Hrun) as Hout.
  cbn [fst snd] in Hev, Hout.
  change (fst run) with (events run) in Hev.
  change (snd run) with (outcome run) in Hout.
  rewrite Hev, Hout. clear Hev Hout Hrun.
  rewrite !bath_frames_app, Ht0, Hts, Htw. cbn [app].
  rewrite !in_app_iff.
  destruct s as [d' sea_height med]. cbn in Hd, Hmed. subst d' med.
  cbn [sf_dataset_sea1 sf_med_water_surface_h sf_sea_height] in *.
  rewrite correct_and_bin_cases.
  cbn [sf_dataset_sea1 sf_med_water_surface_h].
  destruct (refraction_correction wt F64.nan 532 _ _ _ _ _ _ _) as [r | e].
  2: { split; [do 3 right; right; now left | split; [constructor | reflexivity]]. }
  destruct (Bath.DataFrame r _) as [dataset_bath | e] eqn:Ebath.
  2: { split; [do 3 right; right; now left | split; [constructor | reflexivity]]. }
  assert (Hdepth : depth_undefined dataset_bath).
  { unfold Bath.DataFrame in Ebath.
    destruct (all_same_length _); [| discriminate].
    injection Ebath as <-. unfold depth_undefined. simpl.
    apply depth_of_nan. }
  destruct (bin_data (BathFrame dataset_bath) lat_res h_res) as [b | e].
  2: { split; [do 3 right; right; now left | split; [| reflexivity]].
       constructor; [exact Hdepth | constructor]. }
  unfold bind. cbn [co_binned_data co_refraction].
  specialize (Hclassify
                (mk_context input laser (ld_epsg_num ld) h_res sea_height
                   F64.nan b (Refraction.ref_y r) (Refraction.ref_z r))).
  destruct (classify _ thresh threshlist) as [tc rc].
  cbn [events outcome fst snd] in Hclassify |- *.
  split; [do 3 right; right; now left | split; [| reflexivity]].
  rewrite bath_frames_app, Hclassify.
  constructor; [exact Hdepth | constructor].
Qed.

End MissingEstimateFacts.

(** C5, as stated, fails.  Every photon of the track has confidence 0
    or 1, the filters leave a frame without rows, [get_sea_height]
    returns no candidate and the estimate is NaN; the run goes on, and
    when the classifier then refuses the table without rows its
    exception leaves [run_cshelph]: nothing between line 206 and line
    312 keeps the run from ending in an exception. *)
Lemma missing_estimate_run_can_raise :
  let run := Demo.run Sample.noise_only (Demo.args (Some 30%Z) None) in
  Forall (fun c => c = 0%Z \/ c = 1%Z) (Atl03.conf Demo.noise) /\
  In (@Call_get_sea_height Sample.noise_only (SeaFrame Sample.no_rows)
        F64.minus_half)
     (events run) /\
  @get_sea_height Sample.noise_only (SeaFrame Sample.no_rows) F64.minus_half
  = Ok [] /\
  In (@Call_refraction_correction Sample.noise_only (F64.of_Z 20) F64.nan
        Sample.no_rows)
     (events run) /\
  outcome run = Err (Exception "no photons to classify").
Proof.
  intros run. split; [| split; [| split; [| split]]].
  - unfold Demo.noise, Demo.track, Atl03.conf.
    repeat (apply Forall_cons; [auto |]). apply Forall_nil.
  - vm_compute. do 8 right. now left.
  - reflexivity.
  - vm_compute. do 13 right. now left.
  - vm_compute. reflexivity.
Qed.

(** ** Examples *)

Example int_of_str_plain : Py.int_of_str "30" = Ok 30%Z.
Proof. reflexivity. Qed.

Example int_of_str_spaces_and_sign : Py.int_of_str " -1_000 " = Ok (-1000)%Z.
Proof. reflexivity. Qed.

Example int_of_str_letter : is_ok (Py.int_of_str "30h") = false.
Proof. reflexivity. Qed.

Example split_last_epsg : Py.split_last ":" "epsg:32610" = "32610".
Proof. reflexivity. Qed.

Example nanmedian_odd :
  Np.nanmedian [Demo.f 3; F64.nan; Demo.f 1; Demo.f 2] = Demo.f 2.
Proof. reflexivity. Qed.

Example nanmedian_even :
  Np.nanmedian [Demo.f 4; Demo.f 1] = F64.div (Demo.f 5) (Demo.f 2).
Proof. reflexivity. Qed.

Example nanmedian_empty : Np.nanmedian [] = F64.nan.
Proof. reflexivity. Qed.

(** The median is a mean, and the mean of a lone negative zero is the
    positive zero. *)
Example nanmedian_negative_zero :
  Np.nanmedian [S754_zero true] = S754_zero false.
Proof. reflexivity. Qed.

(** The separator of code 31 is no blank for [int]. *)
Example int_of_str_unit_separator :
  is_ok (Py.int_of_str (String (ascii_of_nat 31) "12")) = false /\
  Py.int_of_str (String (ascii_of_nat 9) "12") = Ok 12%Z.
Proof. split; reflexivity. Qed.

Example surface_buffer_default :
  prepare_surface_buffer F64.minus_half = F64.minus_half.
Proof. reflexivity. Qed.

Example surface_buffer_nan : prepare_surface_buffer F64.nan = F64.nan.
Proof. reflexivity. Qed.

(** With [start_lat] given, [end_lat] does matter. *)
Example end_lat_used_with_start_lat :
  Sea.rows (filter_latitude (Some (Demo.f 15)) (Some (Demo.f 35))
              Demo.four_photons) = 2 /\
  Sea.rows (filter_latitude (Some (Demo.f 15)) (Some (Demo.f 25))
              Demo.four_photons) = 1 /\
  Sea.rows (filter_latitude (Some (Demo.f 15)) None Demo.four_photons) = 0.
Proof. repeat split. Qed.

(** A mismatch that the truncation does not hide passes the checks and
    is refused only when the frame is built. *)
Example lone_height_reaches_the_frame :
  Reconcile.reconcile Demo.lone_height = Ok Demo.lone_height /\
  Sea.DataFrame Demo.lone_height = Err frame_error.
Proof. split; reflexivity. Qed.

(** A run on the small instance, lookup of the temperature failing. *)
Example demo_run_thresholds :
  evaluated
    (events (Demo.run (Demo.cshelph Demo.signal Demo.lookup_down
                         Demo.none_refused)
               (Demo.args None (Some ["20"; "25"; "30"]))))
  = [20; 25; 30]%Z.
Proof. vm_compute. reflexivity. Qed.

(** ** The theorems at work on the small instance *)

Lemma missing_estimate_propagates_witness :
  let run := Demo.run Sample.no_candidates (Demo.args (Some 30%Z) None) in
  map Bath.depth (bath_frames (events run))
  = [[F64.nan; F64.nan; F64.nan; F64.nan]] /\
  Forall depth_undefined (bath_frames (events run)) /\
  In (@Call_refraction_correction Sample.no_candidates (F64.of_Z 20) F64.nan
        Demo.four_photons)
     (events run) /\
  outcome run = Ok tt.
Proof.
  intros run. split; [vm_compute; reflexivity |].
  eassert (H : _).
  { eapply (@missing_estimate_propagates Sample.no_candidates
              "track.h5" "1" (Some 30%Z) None None (Demo.f 10) F64.half
              None None None (Demo.f (-40)) (Demo.f 5) F64.minus_half).
    - lazy. reflexivity.
    - lazy. reflexivity.
    - lazy. reflexivity.
    - lazy. reflexivity.
    - intros x [<- | [<- | []]]; reflexivity. }
  destruct H as (_ & Hcall & Hdepth & Hout).
  split; [exact Hdepth | split; [exact Hcall | exact Hout]].
Defined.

Lemma water_temp_lookup_failure_recovered_witness :
  outcome (Demo.run (Demo.cshelph Demo.signal Demo.lookup_down Demo.none_refused)
             (Demo.args (Some 30%Z) None))
  = outcome (Demo.run (Demo.cshelph Demo.signal Demo.lookup_down Demo.none_refused)
               (Cli.mk_args "track.h5" "1" (Some 30%Z) None None (Demo.f 10)
                  F64.half (Some (F64.of_Z 20)) None None (Demo.f (-40))
                  (Demo.f 5) F64.minus_half false)).
Proof.
  refine (proj1 (proj2
    (@water_temp_lookup_failure_recovered
       (Demo.cshelph Demo.signal Demo.lookup_down Demo.none_refused)
       "track.h5" "1" (Some 30%Z) None None (Demo.f 10) F64.half None None
       (Demo.f (-40)) (Demo.f 5) F64.minus_half _))).
  intros lat lon. reflexivity.
Defined.

Lemma sweep_reuses_corrected_table_witness :
  count is_refraction
    (events (Demo.run (Demo.cshelph Demo.signal Demo.lookup_down Demo.none_refused)
               (Demo.args None (Some ["20"; "30"])))) = 1.
Proof.
  edestruct (@sweep_reuses_corrected_table
               (Demo.cshelph Demo.signal Demo.lookup_down Demo.none_refused)
               "track.h5" "1" [Py.Str "20"; Py.Str "30"] None (Demo.f 10)
               F64.half None None None (Demo.f (-40)) (Demo.f 5)
               F64.minus_half)
    as (_ & _ & _ & _ & _ & _ & H & _).
  - lazy. reflexivity.
  - exact H.
Defined.

Lemma sweep_stops_at_first_failure_witness :
  outcome Demo.failing_sweep = Err (Exception "no bathymetric photons found").
Proof.
  eassert (H : _).
  { eapply (@sweep_stops_at_first_failure
              (Demo.cshelph Demo.signal Demo.lookup_down Demo.refuses_25)
              "track.h5" "1" None (Demo.f 10) F64.half None None None
              (Demo.f (-40)) (Demo.f 5) F64.minus_half _ _
              [Py.Str "20"] [Py.Str "30"] (Py.Str "25")
              (Exception "no bathymetric photons found")).
    - lazy. reflexivity.
    - intros u [<- | []]. lazy. reflexivity.
    - lazy. reflexivity. }
  exact (f_equal snd H).
Defined.

(** * Further properties *)

(** ** Masks and rows *)

Section MaskFacts.

Lemma combine_nil_r {A B} (l : list A) : combine l (@nil B) = [].
Proof. now destruct l. Qed.

Lemma select_nil {A} (mask : list bool) : Py.select mask (@nil A) = [].
Proof.
  unfold Py.select. now rewrite combine_nil_r.
Qed.

Lemma select_cons {A} (b : bool) (mask : list bool) (x : A) (l : list A) :
  Py.select (b :: mask) (x :: l)
  = if b then x :: Py.select mask l else Py.select mask l.
Proof. unfold Py.select. simpl. now destruct b. Qed.

(** Selecting from two columns at once is selecting from each. *)
Lemma select_combine {A B} (mask : list bool) (a : list A) (b : list B) :
  Py.select mask (combine a b)
  = combine (Py.select mask a) (Py.select mask b).
Proof.
  revert a b. induction mask as [| m mask IH]; intros a b; [reflexivity |].
  destruct a as [| x a]; [now rewrite !select_nil |].
  destruct b as [| y b].
  - rewrite combine_nil_r, !select_nil. now rewrite combine_nil_r.
  - simpl combine. rewrite !select_cons, IH. now destruct m.
Qed.

Lemma select_map {A B} (g : A -> B) (mask : list bool) (l : list A) :
  Py.select mask (map g l) = map g (Py.select mask l).
Proof.
  revert l. induction mask as [| m mask IH]; intros l; [reflexivity |].
  destruct l as [| x l]; [now rewrite select_nil |].
  simpl map. rewrite !select_cons, IH. now destruct m.
Qed.

(** A mask computed from the rows selects the rows it holds for. *)
Lemma select_own_mask {A} (p : A -> bool) (l : list A) :
  Py.select (map p l) l = filter p l.
Proof.
  induction l as [| x l IH]; [reflexivity |].
  simpl map. rewrite select_cons, IH. simpl. now destruct (p x).
Qed.

Lemma select_length {A B} (mask : list bool) (a : list A) (b : list B) :
  len a = len b -> len (Py.select mask a) = len (Py.select mask b).
Proof.
  revert a b. induction mask as [| m mask IH]; intros a b H; [reflexivity |].
  destruct a as [| x a], b as [| y b]; try discriminate.
  - now rewrite !select_nil.
  - rewrite !select_cons. injection H as H.
    destruct m; simpl; auto using f_equal.
Qed.

Lemma select_shorter {A} (mask : list bool) (a : list A) :
  len (Py.select mask a) <= len a.
Proof.
  revert a. induction mask as [| m mask IH]; intros a; [apply Nat.le_0_l |].
  destruct a as [| x a]; [now rewrite select_nil |].
  rewrite select_cons. specialize (IH a). unfold len in *.
  destruct m; simpl; lia.
Qed.

Lemma mask_and_map {A} (p q : A -> bool) (l : list A) :
  mask_and (map p l) (map q l) = map (fun x => p x && q x) l.
Proof.
  unfold mask_and. induction l as [| x l IH]; [reflexivity |].
  simpl. now rewrite IH.
Qed.

Lemma filter_twice {A} (p q : A -> bool) (l : list A) :
  filter q (filter p l) = filter (fun x => p x && q x) l.
Proof.
  induction l as [| x l IH]; [reflexivity |].
  simpl. destruct (p x); simpl; [destruct (q x) |]; now rewrite IH.
Qed.

Lemma filter_all {A} (l : list A) : filter (fun _ => true) l = l.
Proof.
  induction l as [| x l IH]; [reflexivity |]. simpl. now rewrite IH.
Qed.

End MaskFacts.

(** ** The frame and its filters, row by row *)

Section FilterFacts.

Context {C : Cshelph}.

(** The rows of a selection are the selection of the rows. *)
Lemma photons_loc (mask : list bool) (d : Sea.t) :
  photons (Sea.loc mask d) = Py.select mask (photons d).
Proof.
  unfold photons, Sea.loc; simpl.
  now rewrite select_map, !select_combine.
Qed.

Lemma aligned_loc (mask : list bool) (d : Sea.t) :
  aligned d -> aligned (Sea.loc mask d).
Proof.
  unfold aligned, Sea.rows, Sea.loc; simpl.
  intros (H1 & H2 & H3 & H4 & H5 & H6).
  repeat split; apply select_length; assumption.
Qed.

Lemma rows_loc (mask : list bool) (d : Sea.t) :
  Sea.rows (Sea.loc mask d) <= Sea.rows d.
Proof. unfold Sea.rows, Sea.loc; simpl. apply select_shorter. Qed.

(** In an aligned frame every column is read back from the rows. *)
Lemma photons_columns (d : Sea.t) :
  aligned d ->
  map ph_latitude (photons d) = Sea.latitude d /\
  map ph_longitude (photons d) = Sea.longitude d /\
  map ph_height (photons d) = Sea.photon_height d /\
  map ph_confidence (photons d) = Sea.confidence d /\
  map ph_ref_elevation (photons d) = Sea.ref_elevation d /\
  map ph_ref_azimuth (photons d) = Sea.ref_azminuth d /\
  map ph_sat_alt (photons d) = Sea.ref_sat_alt d.
Proof.
  destruct d as [la lo h c e az al].
  unfold aligned, Sea.rows, photons, len; simpl.
  revert lo h c e az al.
  induction la as [| x la IH]; intros lo h c e az al (H1 & H2 & H3 & H4 & H5 & H6).
  - destruct lo, h, c, e, az, al; try discriminate. now repeat split.
  - destruct lo, h, c, e, az, al; try discriminate. simpl in *.
    destruct (IH lo h c e az al) as (I1 & I2 & I3 & I4 & I5 & I6 & I7).
    { repeat split; congruence. }
    repeat split; f_equal; assumption.
Qed.

Lemma photons_length (d : Sea.t) :
  aligned d -> len (photons d) = Sea.rows d.
Proof.
  intros H. destruct (photons_columns d H) as (H1 & _).
  unfold Sea.rows. rewrite <- H1. unfold len. now rewrite length_map.
Qed.

(** The frame that pandas builds is aligned and holds the arrays. *)
Lemma dataframe_aligned (a : Reconcile.arrays) (ds : Sea.t) :
  Sea.DataFrame a = Ok ds ->
  aligned ds /\
  ds = Sea.mk (Reconcile.lat_utm a) (Reconcile.lon_utm a)
         (Reconcile.photon_h a) (Reconcile.conf a)
         (Reconcile.ph_ref_elev a) (Reconcile.ph_ref_azimuth a)
         (Reconcile.ph_sat_alt a).
Proof.
  unfold Sea.DataFrame.
  destruct (all_same_length _) eqn:E; [| discriminate].
  intros H. injection H as <-. split; [| reflexivity].
  unfold all_same_length in E. simpl in E.
  repeat (apply andb_prop in E; destruct E as [?E E]).
  repeat match goal with
         | H : (_ =? _) = true |- _ => apply Nat.eqb_eq in H
         end.
  unfold aligned, Sea.rows; simpl. repeat split; congruence.
Qed.

Lemma filter_confidence_rows (d : Sea.t) :
  aligned d ->
  photons (filter_confidence d) = filter signal_confidence (photons d).
Proof.
  intros H. destruct (photons_columns d H) as (_ & _ & _ & Hc & _).
  unfold filter_confidence. rewrite photons_loc.
  unfold ne_scalar. rewrite <- Hc, !map_map, mask_and_map.
  apply select_own_mask.
Qed.

Lemma filter_elevation_rows (min_buffer max_buffer : float) (d : Sea.t) :
  aligned d ->
  photons (filter_elevation min_buffer max_buffer d)
  = filter (within_buffers min_buffer max_buffer) (photons d).
Proof.
  intros H. destruct (photons_columns d H) as (_ & _ & Hh & _).
  unfold filter_elevation. rewrite photons_loc.
  unfold gt_scalar, lt_scalar. rewrite <- Hh, !map_map, mask_and_map.
  apply select_own_mask.
Qed.

Lemma filter_latitude_rows (start_lat end_lat : option float) (d : Sea.t) :
  aligned d ->
  photons (filter_latitude start_lat end_lat d)
  = filter (within_latitudes start_lat end_lat) (photons d).
Proof.
  intros H. destruct (photons_columns d H) as (Hl & _).
  unfold filter_latitude, within_latitudes.
  destruct start_lat as [s |]; [| now rewrite filter_all].
  rewrite photons_loc. unfold gt_scalar, lt_scalar.
  destruct end_lat as [e |]; rewrite <- Hl, !map_map, mask_and_map;
    apply select_own_mask.
Qed.

Lemma filters_aligned min_buffer max_buffer start_lat end_lat (d : Sea.t) :
  aligned d ->
  aligned (filter_latitude start_lat end_lat
             (filter_elevation min_buffer max_buffer (filter_confidence d))).
Proof.
  intros H. unfold filter_latitude.
  destruct start_lat; repeat apply aligned_loc; exact H.
Qed.

(** The three filters together, on an aligned frame. *)
Lemma filters_rows min_buffer max_buffer start_lat end_lat (d : Sea.t) :
  aligned d ->
  photons (filter_latitude start_lat end_lat
             (filter_elevation min_buffer max_buffer (filter_confidence d)))
  = filter (retained min_buffer max_buffer start_lat end_lat) (photons d).
Proof.
  intros H.
  rewrite filter_latitude_rows
    by (unfold filter_elevation, filter_confidence; now repeat apply aligned_loc).
  rewrite filter_elevation_rows
    by (unfold filter_confidence; now apply aligned_loc).
  rewrite filter_confidence_rows by exact H.
  rewrite !filter_twice. apply filter_ext. intros p.
  unfold retained. now rewrite andb_assoc.
Qed.

(** X1.  When the frame is built, lines 175-189 return an aligned frame
    whose rows are exactly the photons of the frame, whole and in their
    order, that have a confidence other than 0 and 1, a height strictly
    between the buffers and, when [start_lat] is given, a latitude
    strictly between the two bounds. *)
Theorem filtered_frame_keeps_retained_photons
    (a : Reconcile.arrays) (min_buffer max_buffer : float)
    (start_lat end_lat : option float) (dataset_sea : Sea.t)
    (Hframe : Sea.DataFrame a = Ok dataset_sea) :
  exists dataset_sea1,
    filtered_frame a min_buffer max_buffer start_lat end_lat
    = ([], Ok dataset_sea1) /\
    aligned dataset_sea1 /\
    photons dataset_sea1
    = filter (retained min_buffer max_buffer start_lat end_lat)
             (photons dataset_sea) /\
    Sea.rows dataset_sea1 <= Sea.rows dataset_sea.
Proof.
  destruct (dataframe_aligned a dataset_sea Hframe) as [Ha _].
  eexists. split; [| split; [| split]].
  - unfold filtered_frame, lift, ret, bind. rewrite Hframe. reflexivity.
  - now apply filters_aligned.
  - now apply filters_rows.
  - unfold filter_latitude.
    destruct start_lat;
      repeat (etransitivity; [apply rows_loc |]); apply Nat.le_refl.
Qed.

Lemma ltb_not_nan (x y : float) :
  F64.ltb x y = true -> F64.is_nan x = false /\ F64.is_nan y = false.
Proof.
  unfold F64.ltb, SFltb, SFcompare.
  destruct x, y; simpl; try discriminate; auto.
Qed.

Lemma filtered_frame_inv (a : Reconcile.arrays) min_buffer max_buffer
    start_lat end_lat (t : trace) (d : Sea.t) :
  filtered_frame a min_buffer max_buffer start_lat end_lat = (t, Ok d) ->
  exists ds,
    Sea.DataFrame a = Ok ds /\
    d = filter_latitude start_lat end_lat
          (filter_elevation min_buffer max_buffer (filter_confidence ds)).
Proof.
  unfold filtered_frame, lift, ret, bind.
  destruct (Sea.DataFrame a) as [ds | e]; [| discriminate].
  intros H. injection H as _ <-. now exists ds.
Qed.

(** X2.  The frame that lines 175-189 hand to [bin_data] holds no
    confidence code 0 or 1 and no height that is NaN or outside the two
    buffers; with [start_lat] given it holds no latitude that is NaN or
    not above [start_lat], and it is empty when [end_lat] is missing. *)
Theorem filtered_frame_columns_clean
    (a : Reconcile.arrays) (min_buffer max_buffer : float)
    (start_lat end_lat : option float) (t : trace) (d : Sea.t)
    (Hrun : filtered_frame a min_buffer max_buffer start_lat end_lat
            = (t, Ok d)) :
  (forall c, In c (Sea.confidence d) -> c <> 0%Z /\ c <> 1%Z) /\
  (forall h, In h (Sea.photon_height d) ->
     F64.is_nan h = false /\
     F64.gtb h min_buffer = true /\ F64.ltb h max_buffer = true) /\
  (forall s lat, start_lat = Some s -> In lat (Sea.latitude d) ->
     F64.is_nan lat = false /\ F64.gtb lat s = true /\
     exists e, end_lat = Some e /\ F64.ltb lat e = true).
Proof.
  destruct (filtered_frame_inv _ _ _ _ _ _ _ Hrun) as (ds & Hds & ->).
  destruct (dataframe_aligned a ds Hds) as [Ha _].
  pose proof (filters_aligned min_buffer max_buffer start_lat end_lat ds Ha)
    as Hd.
  pose proof (filters_rows min_buffer max_buffer start_lat end_lat ds Ha)
    as Hrows.
  destruct (photons_columns _ Hd) as (Hl & _ & Hh & Hc & _).
  assert (Hp : forall p,
             In p (photons (filter_latitude start_lat end_lat
                     (filter_elevation min_buffer max_buffer
                        (filter_confidence ds)))) ->
             retained min_buffer max_buffer start_lat end_lat p = true).
  { intros p Hin. rewrite Hrows in Hin. now apply filter_In in Hin. }
  assert (Hq : forall p,
             In p (photons (filter_latitude start_lat end_lat
                     (filter_elevation min_buffer max_buffer
                        (filter_confidence ds)))) ->
             signal_confidence p = true /\
             within_buffers min_buffer max_buffer p = true /\
             within_latitudes start_lat end_lat p = true).
  { intros p Hin. specialize (Hp p Hin). unfold retained in Hp.
    apply andb_prop in Hp. destruct Hp as [Hp H3].
    apply andb_prop in Hp. destruct Hp as [H1 H2]. auto. }
  split; [| split].
  - intros c Hin. rewrite <- Hc in Hin. apply in_map_iff in Hin.
    destruct Hin as (p & <- & Hin). destruct (Hq p Hin) as (H1 & _).
    unfold signal_confidence in H1.
    apply andb_prop in H1. destruct H1 as [H0 H1].
    split; intros E; rewrite E in *; discriminate.
  - intros h Hin. rewrite <- Hh in Hin. apply in_map_iff in Hin.
    destruct Hin as (p & <- & Hin). destruct (Hq p Hin) as (_ & H2 & _).
    unfold within_buffers in H2.
    apply andb_prop in H2. destruct H2 as [Hlo Hhi].
    destruct (ltb_not_nan _ _ Hlo) as [_ Hn].
    repeat split; assumption.
  - intros s lat -> Hin. rewrite <- Hl in Hin. apply in_map_iff in Hin.
    destruct Hin as (p & <- & Hin). destruct (Hq p Hin) as (_ & _ & H3).
    unfold within_latitudes in H3.
    apply andb_prop in H3. destruct H3 as [Hlo Hhi].
    destruct (ltb_not_nan _ _ Hlo) as [_ Hn].
    repeat split; try assumption.
    destruct end_lat as [e |]; [| discriminate].
    exists e. split; [reflexivity | exact Hhi].
Qed.

End FilterFacts.

Lemma filtered_frame_keeps_retained_photons_witness :
  exists d,
    @filtered_frame Demo.plain (Reconcile.leading_rows 2 Demo.long_photons)
      (Demo.f (-40)) (Demo.f 5) None None = ([], Ok d) /\
    len (photons d) = 2.
Proof.
  destruct (@filtered_frame_keeps_retained_photons Demo.plain
              (Reconcile.leading_rows 2 Demo.long_photons)
              (Demo.f (-40)) (Demo.f 5) None None _ eq_refl)
    as (d & H & _ & Hrows & _).
  exists d. split; [exact H |]. rewrite Hrows. reflexivity.
Defined.

Lemma filtered_frame_columns_clean_witness :
  Forall (fun c => c <> 0%Z /\ c <> 1%Z)
    (Sea.confidence
       (filter_latitude None None
          (filter_elevation (Demo.f (-40)) (Demo.f 5)
             (filter_confidence Demo.four_photons)))).
Proof.
  apply Forall_forall.
  refine (proj1 (@filtered_frame_columns_clean Demo.plain
                   (Reconcile.mk_arrays
                      (Sea.latitude Demo.four_photons)
                      (Sea.longitude Demo.four_photons)
                      (Sea.photon_height Demo.four_photons)
                      (Sea.confidence Demo.four_photons)
                      (Sea.ref_elevation Demo.four_photons)
                      (Sea.ref_azminuth Demo.four_photons)
                      (Sea.ref_sat_alt Demo.four_photons))
                   (Demo.f (-40)) (Demo.f 5) None None [] _ _)).
  reflexivity.
Defined.

(** ** From the reconciled arrays to the frames *)

Section FrameFacts.

Context {C : Cshelph}.

Import Reconcile.

Lemma reconcile_tables (m n : nat) (a : arrays) :
  photon_table m a -> geometry_table n a ->
  reconcile a = Ok (leading_rows (Nat.min m n) a).
Proof.
  intros Hp Hg.
  pose proof Hp as (H1 & H2 & H3 & H4). pose proof Hg as (H5 & H6 & H7).
  unfold reconcile. rewrite H1, H2, H3, H4, H5, H6, H7.
  rewrite check_photon_lengths_equal, check_geometry_lengths_equal.
  unfold truncate. rewrite H1, H5.
  destruct (Nat.eqb_spec m n) as [E | N]; cbn [negb].
  - rewrite <- E in Hg |- *. rewrite Nat.min_id.
    now rewrite leading_rows_same.
  - destruct (Nat.ltb_spec m n) as [L | G].
    + rewrite Nat.min_l by lia. unfold slice0.
      now rewrite (leading_rows_all m n) by (auto; lia).
    + destruct (Nat.ltb_spec n m) as [L' | G']; [| lia].
      rewrite Nat.min_r by lia. unfold slice0.
      now rewrite (leading_rows_geometry m n) by (auto; lia).
Qed.

Lemma all_same_length_repeat (k : nat) (lens : list nat) :
  Forall (fun n => n = k) lens -> all_same_length lens = true.
Proof.
  destruct lens as [| n rest]; [reflexivity |].
  intros H. inversion H as [| ? ? Hn Hrest]; subst. simpl.
  apply forallb_forall. intros x Hx.
  rewrite Forall_forall in Hrest. rewrite (Hrest x Hx). apply Nat.eqb_refl.
Qed.

(** X3.  For a photon table of [m] rows and a geometry table of [n]
    rows, lines 112-169 raise nothing: the reconciliation returns and
    pandas builds an aligned frame of [min m n] rows, whose columns are
    the first [min m n] entries of the seven arrays. *)
Theorem reconciled_tables_make_a_frame (m n : nat) (a : arrays)
    (Hphotons : photon_table m a) (Hgeometry : geometry_table n a) :
  exists a' dataset_sea,
    reconcile a = Ok a' /\
    Sea.DataFrame a' = Ok dataset_sea /\
    aligned dataset_sea /\
    Sea.rows dataset_sea = Nat.min m n /\
    dataset_sea
    = Sea.mk (firstn (Nat.min m n) (lat_utm a))
        (firstn (Nat.min m n) (lon_utm a))
        (firstn (Nat.min m n) (photon_h a))
        (firstn (Nat.min m n) (conf a))
        (firstn (Nat.min m n) (ph_ref_elev a))
        (firstn (Nat.min m n) (ph_ref_azimuth a))
        (firstn (Nat.min m n) (ph_sat_alt a)).
Proof.
  destruct (leading_rows_tables m n (Nat.min m n) a Hphotons Hgeometry)
    as [(P1 & P2 & P3 & P4) (G1 & G2 & G3)]; [lia | lia |].
  assert (Hframe : Sea.DataFrame (leading_rows (Nat.min m n) a)
                   = Ok (Sea.mk (firstn (Nat.min m n) (lat_utm a))
                           (firstn (Nat.min m n) (lon_utm a))
                           (firstn (Nat.min m n) (photon_h a))
                           (firstn (Nat.min m n) (conf a))
                           (firstn (Nat.min m n) (ph_ref_elev a))
                           (firstn (Nat.min m n) (ph_ref_azimuth a))
                           (firstn (Nat.min m n) (ph_sat_alt a)))).
  { unfold Sea.DataFrame.
    rewrite (all_same_length_repeat (Nat.min m n)); [reflexivity |].
    repeat constructor; assumption. }
  exists (leading_rows (Nat.min m n) a). eexists.
  split; [apply (reconcile_tables m n); assumption |].
  split; [exact Hframe |].
  destruct (dataframe_aligned _ _ Hframe) as [Ha _].
  split; [exact Ha |]. split; [| reflexivity].
  unfold Sea.rows; simpl. exact P1.
Qed.

Lemma bath_dataframe_inv (r : Refraction.t) (depth : list float) (db : Bath.t) :
  Bath.DataFrame r depth = Ok db ->
  db = Bath.mk (Refraction.raw_y r) (Refraction.raw_x r) (Refraction.raw_z r)
         (Refraction.ref_y r) (Refraction.ref_x r) (Refraction.ref_z r)
         (Refraction.ref_conf r) depth /\
  len (Refraction.raw_x r) = len (Refraction.raw_y r) /\
  len (Refraction.ref_y r) = len (Refraction.raw_y r) /\
  len (Refraction.ref_x r) = len (Refraction.raw_y r) /\
  len (Refraction.ref_z r) = len (Refraction.raw_y r) /\
  len (Refraction.raw_z r) = len (Refraction.raw_y r) /\
  len (Refraction.ref_conf r) = len (Refraction.raw_y r) /\
  len depth = len (Refraction.raw_y r).
Proof.
  unfold Bath.DataFrame.
  destruct (all_same_length _) eqn:E; [| discriminate].
  intros H. injection H as <-. split; [reflexivity |].
  unfold all_same_length in E. simpl in E.
  repeat (apply andb_prop in E; destruct E as [?E E]).
  repeat match goal with
         | H : (_ =? _) = true |- _ => apply Nat.eqb_eq in H
         end.
  repeat split; congruence.
Qed.

(** X4.  When lines 219-263 succeed, the bathymetry frame they bin has
    eight columns of one length, and its depth column is, row by row,
    the sea-surface estimate minus the corrected photon height of the
    same row. *)
Theorem bathymetry_frame_depth_is_estimate_minus_height
    (water_temp : float) (s : surface) (lat_res h_res : float)
    (t : trace) (co : corrected)
    (Hstage : correct_and_bin water_temp s lat_res h_res = (t, Ok co)) :
  let db := co_dataset_bath co in
  Bath.depth db
  = map (fun z => F64.sub (sf_med_water_surface_h s) z)
        (Bath.cor_photon_height db) /\
  (forall i z, nth_error (Bath.cor_photon_height db) i = Some z ->
     nth_error (Bath.depth db) i
     = Some (F64.sub (sf_med_water_surface_h s) z)) /\
  len (Bath.latitude db) = len (Bath.depth db) /\
  len (Bath.longitude db) = len (Bath.depth db) /\
  len (Bath.photon_height db) = len (Bath.depth db) /\
  len (Bath.cor_latitude db) = len (Bath.depth db) /\
  len (Bath.cor_longitude db) = len (Bath.depth db) /\
  len (Bath.cor_photon_height db) = len (Bath.depth db) /\
  len (Bath.confidence db) = len (Bath.depth db).
Proof.
  intros db.
  assert (Hinv : exists r,
             Bath.DataFrame r
               (depth_of (sf_med_water_surface_h s) (Refraction.ref_z r))
             = Ok db).
  { unfold correct_and_bin in Hstage.
    apply bind_inv_ok in Hstage. destruct Hstage as (t1 & [] & t2 & _ & H & _).
    apply bind_inv_ok in H. destruct H as (t3 & r & t4 & _ & H & _).
    apply bind_inv_ok in H. destruct H as (t5 & db' & t6 & H5 & H & _).
    apply lift_inv_ok in H5. destruct H5 as [_ Hdb].
    apply bind_inv_ok in H. destruct H as (t7 & b & t8 & _ & H & _).
    apply ret_inv_ok in H. destruct H as [_ <-]. now exists r. }
  destruct Hinv as (r & Hdb).
  destruct (bath_dataframe_inv _ _ _ Hdb)
    as (E & L1 & L2 & L3 & L4 & L5 & L6 & L7).
  assert (Hdepth : Bath.depth db
                   = map (fun z => F64.sub (sf_med_water_surface_h s) z)
                         (Bath.cor_photon_height db))
    by (rewrite E; reflexivity).
  split; [exact Hdepth |]. split.
  - intros i z Hz. rewrite Hdepth. now rewrite nth_error_map, Hz.
  - rewrite E; simpl. repeat split; congruence.
Qed.

End FrameFacts.

Lemma reconciled_tables_make_a_frame_witness :
  exists a' d,
    Reconcile.reconcile Demo.long_photons = Ok a' /\
    Sea.DataFrame a' = Ok d /\ Sea.rows d = 2.
Proof.
  destruct (reconciled_tables_make_a_frame 3 2 Demo.long_photons)
    as (a' & d & H1 & H2 & _ & H3 & _).
  - repeat split.
  - repeat split.
  - exists a', d. auto.
Defined.

Lemma bathymetry_frame_depth_is_estimate_minus_height_witness :
  exists co : @corrected Demo.plain,
    Bath.depth (co_dataset_bath co)
    = map (fun z => F64.sub (Demo.f 0) z)
          (Bath.cor_photon_height (co_dataset_bath co)) /\
    len (Bath.depth (co_dataset_bath co)) = 4.
Proof.
  eexists. split.
  - refine (proj1 (@bathymetry_frame_depth_is_estimate_minus_height
                     Demo.plain (Demo.f 20)
                     (mk_surface Demo.four_photons [] (Demo.f 0))
                     (Demo.f 10) F64.half _ _ _)).
    lazy. reflexivity.
  - reflexivity.
Defined.

(** ** Failures at the command line *)

Section MainFacts.

Context {C : Cshelph}.

Import Cli.

Lemma try_except_events {A} (m : M A) (h : exn -> M A) :
  events (try_except m h)
  = events m ++ match outcome m with
                | Ok _ => []
                | Err e => events (h e)
                end.
Proof.
  destruct m as [t [x | e]]; simpl.
  - now rewrite app_nil_r.
  - now destruct (h e).
Qed.

Lemma try_except_outcome {A} (m : M A) (h : exn -> M A) :
  outcome (try_except m h)
  = match outcome m with
    | Ok x => Ok x
    | Err e => outcome (h e)
    end.
Proof.
  destruct m as [t [x | e]]; simpl; [reflexivity |]. now destruct (h e).
Qed.

Lemma bind_raises {A B} (m : M A) (k : A -> M B) (t : trace) (e : exn) :
  m = (t, Err e) -> bind m k = (t, Err e).
Proof. now intros ->. Qed.

(** X5.  Once a threshold or a list is given, [main] raises nothing of
    its own, and an exception of [run_cshelph] that is an instance of
    [Exception] (every value of [exn] is one) is caught at line 155:
    [main] returns after printing the notice, what the run printed, and
    then one line "Error: " with the message of the exception, followed
    by the traceback only in debug mode.  A run that succeeds adds no
    line.  An interrupt or an exit request, which line 155 does not
    catch, is outside this statement. *)
Theorem main_reports_and_returns (a : args)
    (Hgiven : ~ (thresh a = None /\ threshlist a = None)) :
  outcome (main a) = Ok tt /\
  events (main a)
  = Stdout notice
    :: events (Demo.run C a)
    ++ match outcome (Demo.run C a) with
       | Ok _ => []
       | Err e =>
         Stdout ("Error: " ++ exn_msg e)
         :: (if debug a then [Traceback e] else [])
       end.
Proof.
  assert (E : is_none (thresh a) && is_none (threshlist a) = false).
  { destruct (thresh a), (threshlist a); try reflexivity.
    exfalso. now apply Hgiven. }
  unfold main. rewrite E, bind_emit. unfold guarded_run.
  fold (Demo.run C a). unfold events at 1, outcome at 1. cbn [fst snd].
  rewrite try_except_outcome, try_except_events.
  destruct (outcome (Demo.run C a)) as [[] | e].
  - split; reflexivity.
  - rewrite bind_emit. unfold events at 2, outcome at 1. cbn [fst snd].
    destruct (debug a); split; reflexivity.
Qed.

(** X6.  The handler of lines 313-314 raises what it caught, so the
    [try] around the body of [run_cshelph] changes nothing: the events
    and the outcome, exception included, are those of the body. *)
Theorem run_cshelph_handler_is_transparent
    (input laser : string) (thresh : option Z)
    (threshlist : option (list Py.val)) (output : option string)
    (lat_res h_res : float) (water_temp start_lat end_lat : option float)
    (min_buffer max_buffer surface_buffer : float) :
  run_cshelph input laser thresh threshlist output lat_res h_res water_temp
    start_lat end_lat min_buffer max_buffer surface_buffer
  = run_body input laser thresh threshlist output lat_res h_res water_temp
      start_lat end_lat min_buffer max_buffer surface_buffer /\
  forall (A : Type) (m : M A), try_except m (fun e => raise e) = m.
Proof.
  split; [apply try_except_reraise |]. intros A m. apply try_except_reraise.
Qed.

(** X7.  When the track that [read_atl03] returns has no photon,
    [latitude[0]] raises [IndexError] right after the read: no other
    function of [cshelph] is called and the exception leaves
    [run_cshelph]. *)
Theorem empty_track_raises_index_error
    (input laser : string) (thresh : option Z)
    (threshlist : option (list Py.val)) (output : option string)
    (lat_res h_res : float) (water_temp start_lat end_lat : option float)
    (min_buffer max_buffer surface_buffer : float) (d : Atl03.t)
    (Hread : read_atl03 input laser = Ok d)
    (Hempty : Atl03.latitude d = []) :
  run_cshelph input laser thresh threshlist output lat_res h_res water_temp
    start_lat end_lat min_buffer max_buffer surface_buffer
  = ([Call_read_atl03 input laser],
     Err (IndexError "index 0 is out of bounds for axis 0 with size 0")).
Proof.
  rewrite run_cshelph_body. unfold run_body, prepare, load.
  do 2 apply bind_raises.
  eapply eq_trans.
  - eapply bind_eq; [unfold call; rewrite Hread; reflexivity |].
    cbv beta. apply bind_raises. unfold lift. rewrite Hempty. reflexivity.
  - reflexivity.
Qed.

End MainFacts.

Lemma main_reports_and_returns_witness :
  outcome (@Cli.main Sample.on_empty_track (Sample.empty_run false)) = Ok tt.
Proof.
  apply (@main_reports_and_returns Sample.on_empty_track
           (Sample.empty_run false)).
  intros [H _]. discriminate.
Defined.

Lemma empty_track_raises_index_error_witness :
  outcome (Demo.run Sample.on_empty_track (Sample.empty_run false))
  = Err (IndexError "index 0 is out of bounds for axis 0 with size 0").
Proof.
  refine (f_equal snd
            (@empty_track_raises_index_error Sample.on_empty_track
               "track.h5" "1" (Some 30%Z) None None (Demo.f 10) F64.half
               None None None (Demo.f (-40)) (Demo.f 5) F64.minus_half
               Sample.empty_track _ _)); reflexivity.
Defined.

(** ** What holds of every event of a run *)

Section EveryFacts.

Context {C : Cshelph}.

Lemma every_ret {A} P (a : A) : every P (ret a).
Proof. constructor. Qed.

Lemma every_lift {A} P (r : result A) : every P (lift r).
Proof. constructor. Qed.

Lemma every_emit P ev : P ev -> every P (emit ev).
Proof. intros H. now repeat constructor. Qed.

Lemma every_call {A} P ev (r : result A) : P ev -> every P (call ev r).
Proof. intros H. now repeat constructor. Qed.

Lemma every_bind {A B} P (m : M A) (k : A -> M B) :
  every P m ->
  (forall t a, m = (t, Ok a) -> every P (k a)) ->
  every P (bind m k).
Proof.
  unfold every. destruct m as [t [a | e]]; simpl; intros Hm Hk; [| exact Hm].
  specialize (Hk t a eq_refl). destruct (k a) as [t' r]; simpl in *.
  apply Forall_app. now split.
Qed.

Lemma every_try_except {A} P (m : M A) (h : exn -> M A) :
  every P m -> (forall e, every P (h e)) -> every P (try_except m h).
Proof.
  unfold every. destruct m as [t [a | e]]; simpl; intros Hm Hh; [exact Hm |].
  specialize (Hh e). destruct (h e) as [t' r]; simpl in *.
  apply Forall_app. now split.
Qed.

(** A run without events of the kind [p] satisfies whatever holds of
    the other events. *)
Lemma quiet_every {A} (p : event -> bool) (P : event -> Prop) (m : M A) :
  (forall ev, p ev = false -> P ev) -> quiet p m -> every P m.
Proof.
  unfold quiet, every. intros H. apply Forall_impl. exact H.
Qed.

End EveryFacts.

(** ** Calls and their arguments *)

Section CallFacts.

Context {C : Cshelph}.

Lemma mask_index_ok {A} (a : list A) (mask : list bool) (x : list A) :
  Py.mask_index a mask = Ok x -> len mask = len a /\ x = Py.select mask a.
Proof.
  unfold Py.mask_index.
  destruct (Nat.eqb_spec (len mask) (len a)); [| discriminate].
  intros H. injection H as <-. now split.
Qed.

Lemma every_interp_field (seg_ph_count : list Z) (valid : list bool)
    (ref : list float) :
  len valid = len seg_ph_count ->
  every interp_aligned
    (interp_field (map Py.astype_int64 (Py.select valid seg_ph_count))
       valid ref).
Proof.
  intros Hc. unfold interp_field.
  apply every_bind; [apply every_lift |].
  intros t ref_valid H. apply lift_inv_ok in H. destruct H as [_ H].
  apply mask_index_ok in H. destruct H as [Hr ->].
  apply every_call. simpl. unfold len. rewrite length_map.
  apply select_length. unfold len in *. congruence.
Qed.

Lemma every_load_interp (input laser : string) :
  every interp_aligned (load input laser).
Proof.
  unfold load.
  apply every_bind; [now apply every_call |]. intros t1 d _.
  apply every_bind; [apply every_lift |]. intros t2 lat0 _.
  apply every_bind; [apply every_lift |]. intros t3 lon0 _.
  apply every_bind; [now apply every_call |]. intros t4 epsg_code _.
  apply every_bind; [apply every_lift |]. intros t5 epsg_num _.
  apply every_bind; [now apply every_call |].
  intros t6 [[lat_utm lon_utm] photon_h] _.
  apply every_bind; [apply every_lift |]. intros t7 counts H.
  apply lift_inv_ok in H. destruct H as [_ H].
  apply mask_index_ok in H. destruct H as [Hc ->].
  apply every_bind; [now apply every_interp_field |]. intros t8 e _.
  apply every_bind; [now apply every_interp_field |]. intros t9 az _.
  apply every_bind; [now apply every_interp_field |]. intros t10 al _.
  apply every_ret.
Qed.

(** X8.  Every call of [ref_linear_interp] in a run is given as many
    photon counts as reference values: both arrays are cut by the same
    mask [ph_index_beg > 0], and a mask of another length than the
    array it indexes raises before the call. *)
Theorem ref_linear_interp_arguments_aligned
    (input laser : string) (thresh : option Z)
    (threshlist : option (list Py.val)) (output : option string)
    (lat_res h_res : float) (water_temp start_lat end_lat : option float)
    (min_buffer max_buffer surface_buffer : float) :
  Forall interp_aligned
    (events (run_cshelph input laser thresh threshlist output lat_res h_res
               water_temp start_lat end_lat min_buffer max_buffer
               surface_buffer)).
Proof.
  rewrite run_cshelph_body. unfold run_body, prepare.
  assert (Hq : forall ev, is_interp ev = false -> interp_aligned ev)
    by (intros []; simpl; intros; try discriminate; exact I).
  apply every_bind.
  - apply every_bind; [apply every_load_interp |]. intros t1 ld _.
    apply every_bind; [apply every_lift |]. intros t2 a _.
    apply every_bind.
    { apply (quiet_every is_interp _ _ Hq), quiet_filtered_frame. }
    intros t3 d _. apply every_bind.
    { apply (quiet_every is_interp _ _ Hq), quiet_sea_surface; reflexivity. }
    intros t4 s _. apply every_bind.
    { apply (quiet_every is_interp _ _ Hq), quiet_sea_temperature;
        reflexivity. }
    intros t5 wt _. apply every_bind.
    { apply (quiet_every is_interp _ _ Hq), quiet_correct_and_bin;
        reflexivity. }
    intros. apply every_ret.
  - intros t cx _.
    apply (quiet_every is_interp _ _ Hq), quiet_classify; reflexivity.
Qed.

End CallFacts.

(** ** The temperature that reaches the refraction correction *)

Section SuppliedTemperatureFacts.

Context {C : Cshelph}.

Lemma every_correct_and_bin (t : float) (s : surface) (lat_res h_res : float) :
  every (refraction_at t) (correct_and_bin t s lat_res h_res).
Proof.
  unfold correct_and_bin.
  apply every_bind; [now apply every_emit |]. intros.
  apply every_bind; [now apply every_call |]. intros.
  apply every_bind; [apply every_lift |]. intros.
  apply every_bind; [now apply every_call |]. intros. apply every_ret.
Qed.

(** X9.  A water temperature given by the caller is used as it is:
    [get_water_temp] is never called in the run, and every call of
    [refraction_correction] receives the given value. *)
Theorem supplied_water_temp_is_used
    (input laser : string) (thresh : option Z)
    (threshlist : option (list Py.val)) (output : option string)
    (lat_res h_res : float) (t : float) (start_lat end_lat : option float)
    (min_buffer max_buffer surface_buffer : float) :
  let run :=
    run_cshelph input laser thresh threshlist output lat_res h_res (Some t)
      start_lat end_lat min_buffer max_buffer surface_buffer in
  count is_water_lookup (events run) = 0 /\
  Forall (refraction_at t) (events run).
Proof.
  intros run. unfold run. rewrite run_cshelph_body. unfold run_body, prepare.
  split.
  - apply quiet_count.
    apply quiet_bind; [| intros; apply quiet_classify; reflexivity].
    apply quiet_bind; [apply quiet_load; reflexivity | intros].
    apply quiet_bind; [apply quiet_lift | intros].
    apply quiet_bind; [apply quiet_filtered_frame | intros].
    apply quiet_bind; [apply quiet_sea_surface; reflexivity | intros].
    apply quiet_bind.
    { unfold sea_temperature.
      apply quiet_bind; [apply quiet_ret | intros].
      apply quiet_bind; [now apply quiet_emit | intros; apply quiet_ret]. }
    intros. apply quiet_bind; [| intros; apply quiet_ret].
    apply quiet_correct_and_bin; reflexivity.
  - assert (Hq : forall ev, is_refraction ev = false -> refraction_at t ev)
      by (intros []; simpl; intros; try discriminate; exact I).
    apply every_bind.
    + apply every_bind.
      { apply (quiet_every is_refraction _ _ Hq), quiet_load; reflexivity. }
      intros t1 ld _. apply every_bind; [apply every_lift |]. intros t2 a _.
      apply every_bind.
      { apply (quiet_every is_refraction _ _ Hq), quiet_filtered_frame. }
      intros t3 d _. apply every_bind.
      { apply (quiet_every is_refraction _ _ Hq), quiet_sea_surface;
          reflexivity. }
      intros t4 s _. apply every_bind.
      { apply (quiet_every is_refraction _ _ Hq), quiet_sea_temperature;
          reflexivity. }
      intros t5 wt Hwt. unfold sea_temperature, ret, emit, bind in Hwt.
      injection Hwt as _ <-.
      apply every_bind; [apply every_correct_and_bin |].
      intros. apply every_ret.
    + intros t0 cx _.
      apply (quiet_every is_refraction _ _ Hq), quiet_classify; reflexivity.
Qed.

End SuppliedTemperatureFacts.

(** ** The classification *)

Section ClassificationFacts.

Context {C : Cshelph}.

(** Lines 68-263 neither classify nor draw. *)
Lemma quiet_prepare p input laser lat_res h_res water_temp start_lat end_lat
    min_buffer max_buffer surface_buffer :
  (forall ev, is_classification ev || is_figures ev = false -> p ev = false) ->
  (forall e, p (Traceback e) = false) -> p PltClose = false ->
  quiet p (prepare input laser lat_res h_res water_temp start_lat end_lat
             min_buffer max_buffer surface_buffer).
Proof.
  intros H _ _. unfold prepare.
  apply quiet_bind; [apply quiet_load; intros; now apply H | intros].
  apply quiet_bind; [apply quiet_lift | intros].
  apply quiet_bind; [apply quiet_filtered_frame | intros].
  apply quiet_bind; [apply quiet_sea_surface; intros; now apply H | intros].
  apply quiet_bind;
    [apply quiet_sea_temperature; intros; now apply H | intros].
  apply quiet_bind;
    [apply quiet_correct_and_bin; intros; now apply H | intros].
  apply quiet_ret.
Qed.

Lemma evaluated_app (t1 t2 : trace) :
  evaluated (t1 ++ t2) = evaluated t1 ++ evaluated t2.
Proof.
  induction t1 as [| ev t1 IH]; simpl; [reflexivity |].
  destruct ev; simpl; now rewrite IH.
Qed.

Lemma evaluated_quiet (t : trace) :
  Forall (fun ev => is_classification ev = false) t -> evaluated t = [].
Proof.
  induction 1 as [| ev t Hev _ IH]; simpl; [reflexivity |].
  destruct ev; simpl in *; try exact IH. discriminate.
Qed.

Lemma figure_labels_app (t1 t2 : trace) :
  figure_labels (t1 ++ t2) = figure_labels t1 ++ figure_labels t2.
Proof.
  induction t1 as [| ev t1 IH]; simpl; [reflexivity |].
  destruct ev; simpl; now rewrite IH.
Qed.

Lemma figure_labels_quiet (t : trace) :
  Forall (fun ev => is_figures ev = false) t -> figure_labels t = [].
Proof.
  induction 1 as [| ev t Hev _ IH]; simpl; [reflexivity |].
  destruct ev; simpl in *; try exact IH. discriminate.
Qed.

Lemma prepare_no_classification input laser lat_res h_res water_temp
    start_lat end_lat min_buffer max_buffer surface_buffer :
  let pre := events (prepare input laser lat_res h_res water_temp start_lat
                       end_lat min_buffer max_buffer surface_buffer) in
  evaluated pre = [] /\ figure_labels pre = [] /\ classified_tables pre = [].
Proof.
  intros pre. split; [| split].
  - apply evaluated_quiet. apply quiet_prepare; try reflexivity.
    intros ev H. now apply orb_false_elim in H.
  - apply figure_labels_quiet. apply quiet_prepare; try reflexivity.
    intros ev H. now apply orb_false_elim in H.
  - apply classified_tables_quiet. apply quiet_prepare; try reflexivity.
    intros ev H. now apply orb_false_elim in H.
Qed.

(** X10.  Called with neither a threshold nor a list (which [main]
    never does), [run_cshelph] does all of lines 68-263 and then
    classifies nothing: no call of [get_bath_height] or
    [produce_figures], and the run ends as those lines end. *)
Theorem no_threshold_no_classification
    (input laser : string) (output : option string)
    (lat_res h_res : float) (water_temp start_lat end_lat : option float)
    (min_buffer max_buffer surface_buffer : float) :
  let run :=
    run_cshelph input laser None None output lat_res h_res water_temp
      start_lat end_lat min_buffer max_buffer surface_buffer in
  let before :=
    prepare input laser lat_res h_res water_temp start_lat end_lat
      min_buffer max_buffer surface_buffer in
  count is_classification (events run) = 0 /\
  count is_figures (events run) = 0 /\
  outcome run
  = match outcome before with Ok _ => Ok tt | Err e => Err e end /\
  events run
  = events before
    ++ match outcome before with
       | Ok _ => [Stdout "Locating bathymetric photons..."]
       | Err _ => []
       end.
Proof.
  intros run before.
  assert (Hq : forall p,
             (forall ev, is_classification ev || is_figures ev = false ->
                         p ev = false) ->
             (forall e, p (Traceback e) = false) -> p PltClose = false ->
             count p (events run) = 0).
  { intros p H1 H2 H3. apply quiet_count. unfold run.
    rewrite run_cshelph_body. unfold run_body.
    apply quiet_bind; [now apply quiet_prepare |]. intros cx.
    unfold classify. apply quiet_bind; [| intros; apply quiet_ret].
    apply quiet_emit. now apply H1. }
  split; [| split; [| split]].
  - apply Hq; try reflexivity. intros ev H. now apply orb_false_elim in H.
  - apply Hq; try reflexivity. intros ev H. now apply orb_false_elim in H.
  - unfold run. rewrite run_cshelph_body. unfold run_body. fold before.
    destruct before as [t [cx | e]]; reflexivity.
  - unfold run. rewrite run_cshelph_body. unfold run_body. fold before.
    destruct before as [t [cx | e]]; simpl; [reflexivity |].
    now rewrite app_nil_r.
Qed.

(** X11.  With a single threshold [t], a run that reaches line 265
    calls [get_bath_height] once, with [t] and the table binned at line
    263; [produce_figures] is called, with the label [t], exactly when
    that call returns, and the run ends as [produce_figures] ends, or
    with the exception of [get_bath_height]. *)
Theorem single_threshold_classifies_once
    (input laser : string) (t : Z) (threshlist : option (list Py.val))
    (output : option string)
    (lat_res h_res : float) (water_temp start_lat end_lat : option float)
    (min_buffer max_buffer surface_buffer : float)
    (pre : trace) (cx : context)
    (Hprepare :
       prepare input laser lat_res h_res water_temp start_lat end_lat
         min_buffer max_buffer surface_buffer = (pre, Ok cx)) :
  let run :=
    run_cshelph input laser (Some t) threshlist output lat_res h_res
      water_temp start_lat end_lat min_buffer max_buffer surface_buffer in
  let classified :=
    get_bath_height (cx_binned_data cx) t (cx_med_water_surface_h cx)
      (cx_h_res cx) in
  evaluated (events run) = [t] /\
  classified_tables (events run) = [cx_binned_data cx] /\
  figure_labels (events run)
  = match classified with Ok _ => [Py.Int t] | Err _ => [] end /\
  outcome run
  = match classified with
    | Ok (bath, geo) =>
      produce_figures (cx_binned_data cx) bath (cx_sea_height cx) 10 (-20)
        (Py.Int t) (cx_input_h5_file cx) geo (cx_ref_y cx) (cx_ref_z cx)
        (cx_laser_num cx) (cx_epsg_num cx)
    | Err e => Err e
    end.
Proof.
  intros run classified.
  pose proof (prepare_no_classification input laser lat_res h_res water_temp
                start_lat end_lat min_buffer max_buffer surface_buffer) as Hpre.
  rewrite Hprepare in Hpre. cbv zeta in Hpre. unfold events at 1 2 3 in Hpre.
  cbn [fst] in Hpre. destruct Hpre as (P1 & P2 & P3).
  assert (Hrun : run = (pre ++ Stdout "Locating bathymetric photons..."
                            :: events (classify_single cx t),
                        outcome (classify_single cx t))).
  { unfold run. rewrite run_cshelph_body. unfold run_body.
    eapply bind_eq; [exact Hprepare |]. unfold classify.
    now rewrite bind_emit. }
  assert (Hev : events run
                = pre ++ [Stdout "Locating bathymetric photons..."]
                      ++ events (classify_single cx t))
    by (rewrite Hrun; reflexivity).
  assert (Hout : outcome run = outcome (classify_single cx t))
    by (rewrite Hrun; reflexivity).
  rewrite Hev, Hout.
  rewrite !evaluated_app, !classified_tables_app, !figure_labels_app.
  rewrite P1, P2, P3. cbn [app evaluated classified_tables figure_labels].
  unfold classify_single, figures, call, emit. fold classified.
  destruct classified as [[bath geo] | e]; simpl; [| now repeat split].
  match goal with
  | |- context [produce_figures ?a ?b ?c ?d ?e ?f ?g ?h ?i ?j ?k ?l] =>
    destruct (produce_figures a b c d e f g h i j k l)
  end; now repeat split.
Qed.

End ClassificationFacts.

(** ** Sweeps that succeed, and literals that are no integers *)

Section SweepOutcomeFacts.

Context {C : Cshelph}.

(** A step that succeeds has read its threshold as an integer,
    classified with it and drawn under its text. *)
Lemma sweep_step_ok cx (v : Py.val) :
  outcome (sweep_step cx v) = Ok tt ->
  exists z,
    Py.int v = Ok z /\
    evaluated (events (sweep_step cx v)) = [z] /\
    figure_labels (events (sweep_step cx v)) = [Py.Str (Py.str v)].
Proof.
  unfold sweep_step, figures, bind, emit, call, lift; simpl.
  destruct (Py.int v) as [z | e]; simpl; [| discriminate].
  destruct (get_bath_height (cx_binned_data cx) z (cx_med_water_surface_h cx)
              (cx_h_res cx)) as [[bath geo] | e]; simpl; [| discriminate].
  intros _. exists z. now repeat split.
Qed.

(** A step whose threshold is no integer prints it and raises. *)
Lemma sweep_step_bad_literal cx (v : Py.val) (e : exn) :
  Py.int v = Err e ->
  sweep_step cx v = ([Stdout ("using threshold: " ++ Py.str v)], Err e).
Proof.
  intros H. unfold sweep_step, bind, emit, lift. now rewrite H.
Qed.

Lemma sweep_steps_ok cx (l : list Py.val) :
  (forall v, In v l -> outcome (sweep_step cx v) = Ok tt) ->
  Forall2 (fun v z => Py.int v = Ok z) l
    (evaluated (flat_map (fun u => events (sweep_step cx u)) l)) /\
  figure_labels (flat_map (fun u => events (sweep_step cx u)) l)
  = map (fun v => Py.Str (Py.str v)) l.
Proof.
  induction l as [| v l IH]; intros H; simpl; [split; constructor |].
  destruct (sweep_step_ok cx v (H v (or_introl eq_refl))) as (z & Hz & He & Hf).
  destruct IH as [IH1 IH2]; [intros u Hu; apply H; now right |].
  rewrite evaluated_app, figure_labels_app, He, Hf, IH2. simpl.
  split; [now constructor | reflexivity].
Qed.

(** X12.  In a run that reaches the sweep and in which every step
    succeeds, each element of the list is read as an integer and
    classified once, in the order of the list, each figure is drawn
    under the text of its element, and the run ends without an
    exception. *)
Theorem sweep_without_failure_evaluates_all
    (input laser : string) (threshlist : list Py.val)
    (output : option string)
    (lat_res h_res : float) (water_temp start_lat end_lat : option float)
    (min_buffer max_buffer surface_buffer : float)
    (pre : trace) (cx : context)
    (Hprepare :
       prepare input laser lat_res h_res water_temp start_lat end_lat
         min_buffer max_buffer surface_buffer = (pre, Ok cx))
    (Hsteps : forall v, In v threshlist -> outcome (sweep_step cx v) = Ok tt) :
  let run :=
    run_cshelph input laser None (Some threshlist) output lat_res h_res
      water_temp start_lat end_lat min_buffer max_buffer surface_buffer in
  outcome run = Ok tt /\
  Forall2 (fun v z => Py.int v = Ok z) threshlist (evaluated (events run)) /\
  figure_labels (events run) = map (fun v => Py.Str (Py.str v)) threshlist.
Proof.
  intros run.
  pose proof (prepare_no_classification input laser lat_res h_res water_temp
                start_lat end_lat min_buffer max_buffer surface_buffer) as Hpre.
  rewrite Hprepare in Hpre. destruct Hpre as (P1 & P2 & _).
  change (events (pre, Ok cx)) with pre in P1, P2.
  assert (Hrun : run = (pre ++ [Stdout "Locating bathymetric photons..."]
                            ++ flat_map (fun u => events (sweep_step cx u))
                                 threshlist,
                        Ok tt)).
  { unfold run. rewrite run_cshelph_body. unfold run_body.
    eapply bind_eq; [exact Hprepare |]. unfold classify.
    now rewrite bind_emit, (sweep_all_ok cx threshlist Hsteps). }
  destruct (sweep_steps_ok cx threshlist Hsteps) as [S1 S2].
  assert (Hev : events run
                = pre ++ [Stdout "Locating bathymetric photons..."]
                      ++ flat_map (fun u => events (sweep_step cx u))
                           threshlist)
    by (rewrite Hrun; reflexivity).
  assert (Hout : outcome run = Ok tt) by (rewrite Hrun; reflexivity).
  rewrite Hev, Hout.
  rewrite !evaluated_app, !figure_labels_app, P1, P2, S2.
  now repeat split.
Qed.

(** X13.  The elements of the list are read as integers one by one,
    each at its own turn: when an element is no integer (such as "30h"),
    the elements before it have been classified and drawn, the
    offending element is printed, and [ValueError] leaves the run
    before it or any later element is classified. *)
Theorem sweep_bad_literal_found_at_its_turn
    (input laser : string) (output : option string)
    (lat_res h_res : float) (water_temp start_lat end_lat : option float)
    (min_buffer max_buffer surface_buffer : float)
    (pre : trace) (cx : context)
    (before after : list Py.val) (v : Py.val) (e : exn)
    (Hprepare :
       prepare input laser lat_res h_res water_temp start_lat end_lat
         min_buffer max_buffer surface_buffer = (pre, Ok cx))
    (Hbefore : forall u, In u before -> outcome (sweep_step cx u) = Ok tt)
    (Hbad : Py.int v = Err e) :
  let run :=
    run_cshelph input laser None (Some (before ++ v :: after)) output
      lat_res h_res water_temp start_lat end_lat min_buffer max_buffer
      surface_buffer in
  outcome run = Err e /\
  Forall2 (fun u z => Py.int u = Ok z) before (evaluated (events run)) /\
  figure_labels (events run) = map (fun u => Py.Str (Py.str u)) before /\
  exists t, events run = t ++ [Stdout ("using threshold: " ++ Py.str v)].
Proof.
  intros run.
  pose proof (prepare_no_classification input laser lat_res h_res water_temp
                start_lat end_lat min_buffer max_buffer surface_buffer) as Hpre.
  rewrite Hprepare in Hpre. destruct Hpre as (P1 & P2 & _).
  change (events (pre, Ok cx)) with pre in P1, P2.
  pose proof (sweep_step_bad_literal cx v e Hbad) as Hstep.
  assert (Hfails : outcome (sweep_step cx v) = Err e) by now rewrite Hstep.
  assert (Hrun : run = (pre ++ [Stdout "Locating bathymetric photons..."]
                            ++ flat_map (fun u => events (sweep_step cx u))
                                 before
                            ++ [Stdout ("using threshold: " ++ Py.str v)],
                        Err e)).
  { unfold run. rewrite run_cshelph_body. unfold run_body.
    eapply bind_eq; [exact Hprepare |]. unfold classify.
    rewrite bind_emit, (sweep_first_failure cx before after v e Hbefore Hfails).
    rewrite flat_map_app. simpl. now rewrite Hstep, app_nil_r. }
  destruct (sweep_steps_ok cx before Hbefore) as [S1 S2].
  assert (Hev : events run
                = pre ++ [Stdout "Locating bathymetric photons..."]
                      ++ flat_map (fun u => events (sweep_step cx u)) before
                      ++ [Stdout ("using threshold: " ++ Py.str v)])
    by (rewrite Hrun; reflexivity).
  assert (Hout : outcome run = Err e) by (rewrite Hrun; reflexivity).
  rewrite Hev, Hout.
  rewrite !evaluated_app, !figure_labels_app, P1, P2, S2. simpl.
  rewrite !app_nil_r.
  split; [reflexivity |]. split; [exact S1 |]. split; [reflexivity |].
  exists (pre ++ [Stdout "Locating bathymetric photons..."]
              ++ flat_map (fun u => events (sweep_step cx u)) before).
  now rewrite <- !app_assoc.
Qed.

End SweepOutcomeFacts.

(** ** The order of the calls *)

Section CallOrderFacts.

Context {C : Cshelph}.

Lemma calls_app (t1 t2 : trace) : calls (t1 ++ t2) = calls t1 ++ calls t2.
Proof. unfold calls. apply flat_map_app. Qed.

Lemma interp_field_calls counts mask ref (t : trace) (x : list float) :
  interp_field counts mask ref = (t, Ok x) -> calls t = ["ref_linear_interp"].
Proof.
  unfold interp_field. intros H.
  apply bind_inv_ok in H. destruct H as (t1 & rv & t2 & H1 & H & ->).
  apply lift_inv_ok in H1. destruct H1 as [-> _].
  apply call_inv_ok in H. destruct H as [-> _]. reflexivity.
Qed.

Lemma load_calls input laser (t : trace) (ld : loaded) :
  load input laser = (t, Ok ld) ->
  calls t = ["read_atl03"; "convert_wgs_to_utm"; "orthometric_correction";
             "ref_linear_interp"; "ref_linear_interp"; "ref_linear_interp"].
Proof.
  unfold load. intros H.
  apply bind_inv_ok in H. destruct H as (t1 & d & u1 & H1 & H & ->).
  apply call_inv_ok in H1. destruct H1 as [-> _].
  apply bind_inv_ok in H. destruct H as (t2 & lat0 & u2 & H2 & H & ->).
  apply lift_inv_ok in H2. destruct H2 as [-> _].
  apply bind_inv_ok in H. destruct H as (t3 & lon0 & u3 & H3 & H & ->).
  apply lift_inv_ok in H3. destruct H3 as [-> _].
  apply bind_inv_ok in H. destruct H as (t4 & code & u4 & H4 & H & ->).
  apply call_inv_ok in H4. destruct H4 as [-> _].
  apply bind_inv_ok in H. destruct H as (t5 & num & u5 & H5 & H & ->).
  apply lift_inv_ok in H5. destruct H5 as [-> _].
  apply bind_inv_ok in H.
  destruct H as (t6 & [[lat_utm lon_utm] photon_h] & u6 & H6 & H & ->).
  apply call_inv_ok in H6. destruct H6 as [-> _].
  apply bind_inv_ok in H. destruct H as (t7 & counts & u7 & H7 & H & ->).
  apply lift_inv_ok in H7. destruct H7 as [-> _].
  apply bind_inv_ok in H. destruct H as (t8 & el & u8 & H8 & H & ->).
  apply interp_field_calls in H8.
  apply bind_inv_ok in H. destruct H as (t9 & az & u9 & H9 & H & ->).
  apply interp_field_calls in H9.
  apply bind_inv_ok in H. destruct H as (t10 & al & u10 & H10 & H & ->).
  apply interp_field_calls in H10.
  apply ret_inv_ok in H. destruct H as [-> _].
  rewrite !calls_app, H8, H9, H10. reflexivity.
Qed.

Lemma sea_surface_calls d lat_res h_res surface_buffer (t : trace) (s : surface) :
  sea_surface d lat_res h_res surface_buffer = (t, Ok s) ->
  calls t = ["bin_data"; "get_sea_height"].
Proof.
  unfold sea_surface. intros H.
  apply bind_inv_ok in H. destruct H as (t1 & [] & u1 & H1 & H & ->).
  apply emit_inv_ok in H1. subst t1.
  apply bind_inv_ok in H. destruct H as (t2 & b & u2 & H2 & H & ->).
  apply call_inv_ok in H2. destruct H2 as [-> _].
  apply bind_inv_ok in H. destruct H as (t3 & sh & u3 & H3 & H & ->).
  apply call_inv_ok in H3. destruct H3 as [-> _].
  apply ret_inv_ok in H. destruct H as [-> _]. reflexivity.
Qed.

Lemma sea_temperature_calls input lat lon water_temp :
  calls (events (sea_temperature input lat lon water_temp))
  = match water_temp with None => ["get_water_temp"] | Some _ => [] end.
Proof.
  unfold sea_temperature, try_except, call, emit, ret, bind.
  destruct water_temp as [t |]; [reflexivity |].
  now destruct (get_water_temp input lat lon).
Qed.

Lemma classify_single_calls cx t :
  outcome (classify_single cx t) = Ok tt ->
  calls (events (classify_single cx t)) = ["get_bath_height"; "produce_figures"].
Proof.
  unfold classify_single, figures, call, emit, bind.
  destruct (get_bath_height (cx_binned_data cx) t (cx_med_water_surface_h cx)
              (cx_h_res cx)) as [[bath geo] | e]; simpl; [| discriminate].
  reflexivity.
Qed.

Lemma sweep_step_calls cx v :
  outcome (sweep_step cx v) = Ok tt ->
  calls (events (sweep_step cx v)) = ["get_bath_height"; "produce_figures"].
Proof.
  unfold sweep_step, figures, call, emit, lift, bind; simpl.
  destruct (Py.int v) as [z | e]; simpl; [| discriminate].
  destruct (get_bath_height (cx_binned_data cx) z (cx_med_water_surface_h cx)
              (cx_h_res cx)) as [[bath geo] | e]; simpl; [| discriminate].
  reflexivity.
Qed.

Lemma sweep_calls cx (l : list Py.val) :
  outcome (sweep cx l) = Ok tt ->
  calls (events (sweep cx l))
  = flat_map (fun _ => ["get_bath_height"; "produce_figures"]) l.
Proof.
  induction l as [| v l IH]; simpl; [reflexivity |].
  pose proof (sweep_step_calls cx v) as Hv.
  destruct (sweep_step cx v) as [t [[] | e]]; simpl in *; [| discriminate].
  destruct (sweep cx l) as [t' r]; simpl in *.
  intros ->. now rewrite calls_app, Hv, IH.
Qed.

Lemma classify_calls cx thresh threshlist :
  outcome (classify cx thresh threshlist) = Ok tt ->
  calls (events (classify cx thresh threshlist))
  = classification_calls thresh threshlist.
Proof.
  unfold classify. rewrite bind_emit. unfold events at 1, outcome at 1.
  cbn [fst snd]. intros H.
  change (calls (Stdout "Locating bathymetric photons..." :: ?r))
    with (calls r).
  destruct thresh as [t |]; [now apply classify_single_calls |].
  destruct threshlist as [l |]; [now apply sweep_calls | reflexivity].
Qed.

Lemma prepare_calls input laser lat_res h_res water_temp start_lat end_lat
    min_buffer max_buffer surface_buffer (pre : trace) (cx : context) :
  prepare input laser lat_res h_res water_temp start_lat end_lat
    min_buffer max_buffer surface_buffer = (pre, Ok cx) ->
  calls pre = preparation_calls water_temp.
Proof.
  unfold prepare. intros H.
  apply bind_inv_ok in H. destruct H as (t1 & ld & u1 & H1 & H & ->).
  apply load_calls in H1.
  apply bind_inv_ok in H. destruct H as (t2 & a & u2 & H2 & H & ->).
  apply lift_inv_ok in H2. destruct H2 as [-> _].
  apply bind_inv_ok in H. destruct H as (t3 & d & u3 & H3 & H & ->).
  destruct (filtered_frame_inv _ _ _ _ _ _ _ H3) as (ds & Hds & _).
  assert (t3 = []).
  { unfold filtered_frame, lift, ret, bind in H3. rewrite Hds in H3.
    now injection H3 as <- _. }
  subst t3.
  apply bind_inv_ok in H. destruct H as (t4 & s & u4 & H4 & H & ->).
  apply sea_surface_calls in H4.
  apply bind_inv_ok in H. destruct H as (t5 & wt & u5 & H5 & H & ->).
  pose proof (sea_temperature_calls input (ld_latitude ld) (ld_longitude ld)
                water_temp) as Hw.
  rewrite H5 in Hw. change (events (t5, Ok wt)) with t5 in Hw.
  apply bind_inv_ok in H. destruct H as (t6 & co & u6 & H6 & H & ->).
  apply correct_and_bin_ok in H6. destruct H6 as (-> & _).
  apply ret_inv_ok in H. destruct H as [-> _].
  rewrite !calls_app, H1, H4, Hw. unfold preparation_calls.
  destruct water_temp; reflexivity.
Qed.

(** X14.  A run that ends without an exception has called the
    functions of [cshelph] in one fixed order: [read_atl03],
    [convert_wgs_to_utm], [orthometric_correction], [ref_linear_interp]
    three times, [bin_data], [get_sea_height], [get_water_temp] only
    when no water temperature was given, [refraction_correction],
    [bin_data], and then [get_bath_height] and [produce_figures], once
    for a single threshold or once per element of the list. *)
Theorem successful_run_calls_in_order
    (input laser : string) (thresh : option Z)
    (threshlist : option (list Py.val)) (output : option string)
    (lat_res h_res : float) (water_temp start_lat end_lat : option float)
    (min_buffer max_buffer surface_buffer : float)
    (Hok :
       outcome (run_cshelph input laser thresh threshlist output lat_res
                  h_res water_temp start_lat end_lat min_buffer max_buffer
                  surface_buffer) = Ok tt) :
  calls (events (run_cshelph input laser thresh threshlist output lat_res
                   h_res water_temp start_lat end_lat min_buffer max_buffer
                   surface_buffer))
  = preparation_calls water_temp ++ classification_calls thresh threshlist.
Proof.
  rewrite run_cshelph_body in *. unfold run_body in *.
  match goal with
  | H : outcome ?m = Ok tt |- _ =>
    pose proof (run_eta m) as Hm; rewrite H in Hm
  end.
  pose proof Hm as Hinv.
  apply bind_inv_ok in Hinv. destruct Hinv as (pre & cx & tc & Hp & Hc & Hev).
  rewrite Hev, calls_app.
  rewrite (prepare_calls _ _ _ _ _ _ _ _ _ _ _ _ Hp). f_equal.
  pose proof (classify_calls cx thresh threshlist) as Hcl.
  rewrite Hc in Hcl. now apply Hcl.
Qed.

End CallOrderFacts.

Lemma successful_run_calls_in_order_witness :
  calls (events (Demo.run Demo.plain (Demo.args None (Some ["20"; "30"]))))
  = ["read_atl03"; "convert_wgs_to_utm"; "orthometric_correction";
     "ref_linear_interp"; "ref_linear_interp"; "ref_linear_interp";
     "bin_data"; "get_sea_height"; "get_water_temp";
     "refraction_correction"; "bin_data";
     "get_bath_height"; "produce_figures";
     "get_bath_height"; "produce_figures"].
Proof.
  apply (@successful_run_calls_in_order Demo.plain "track.h5" "1" None
           (Some [Py.Str "20"; Py.Str "30"]) None (Demo.f 10) F64.half
           None None None (Demo.f (-40)) (Demo.f 5) F64.minus_half).
  vm_compute. reflexivity.
Defined.

Lemma single_threshold_classifies_once_witness :
  evaluated (events (Demo.run Demo.plain (Demo.args (Some 30%Z) None)))
  = [30%Z].
Proof.
  edestruct (@single_threshold_classifies_once Demo.plain "track.h5" "1" 30%Z
               None None (Demo.f 10) F64.half None None None (Demo.f (-40))
               (Demo.f 5) F64.minus_half)
    as (H & _).
  - lazy. reflexivity.
  - exact H.
Defined.

Lemma sweep_without_failure_evaluates_all_witness :
  figure_labels
    (events (Demo.run Demo.plain (Demo.args None (Some ["20"; "30"]))))
  = [Py.Str "20"; Py.Str "30"].
Proof.
  edestruct (@sweep_without_failure_evaluates_all Demo.plain "track.h5" "1"
               [Py.Str "20"; Py.Str "30"] None (Demo.f 10) F64.half
               None None None (Demo.f (-40)) (Demo.f 5) F64.minus_half)
    as (_ & _ & H).
  - lazy. reflexivity.
  - intros v [<- | [<- | []]]; lazy; reflexivity.
  - exact H.
Defined.

Lemma sweep_bad_literal_found_at_its_turn_witness :
  outcome (Demo.run Demo.plain (Demo.args None (Some ["20"; "30h"; "40"])))
  = Err (ValueError "invalid literal for int() with base 10: '30h'").
Proof.
  eassert (H : _).
  { eapply (@sweep_bad_literal_found_at_its_turn Demo.plain "track.h5" "1"
              None (Demo.f 10) F64.half None None None (Demo.f (-40))
              (Demo.f 5) F64.minus_half _ _
              [Py.Str "20"] [Py.Str "40"] (Py.Str "30h")
              (ValueError "invalid literal for int() with base 10: '30h'")).
    - lazy. reflexivity.
    - intros u [<- | []]. lazy. reflexivity.
    - reflexivity. }
  exact (proj1 H).
Defined.

(** ** Thresholds and their labels *)

Section LabelFacts.

Lemma lstrip_no_space (cs : list ascii) :
  Forall (fun c => Py.is_space c = false) cs -> Py.lstrip cs = cs.
Proof.
  destruct 1 as [| c cs Hc _]; [reflexivity |]. simpl. now rewrite Hc.
Qed.

Lemma strip_no_space (cs : list ascii) :
  Forall (fun c => Py.is_space c = false) cs -> Py.strip cs = cs.
Proof.
  intros H. unfold Py.strip. rewrite (lstrip_no_space cs H).
  rewrite lstrip_no_space by now apply Forall_rev. apply rev_involutive.
Qed.

Lemma uint_chars_no_space (d : Decimal.uint) :
  Forall (fun c => Py.is_space c = false)
         (list_ascii_of_string (NilEmpty.string_of_uint d)).
Proof.
  induction d; simpl; constructor; try reflexivity; assumption.
Qed.

(** Reading the digits of [d] after an accumulator [acc]. *)
Lemma digits_of_uint_acc (d : Decimal.uint) (acc : positive) :
  Py.digits (Zpos acc) true (list_ascii_of_string (NilEmpty.string_of_uint d))
  = Some (Zpos (Pos.of_uint_acc d acc)).
Proof.
  revert acc. induction d; intros acc; [reflexivity | ..];
    cbn [NilEmpty.string_of_uint list_ascii_of_string Py.digits];
    match goal with
    | |- context [Py.digit_val ?c] =>
      change (Py.digit_val c) with (Some (Z.of_nat (nat_of_ascii c - 48)))
    end;
    cbn [nat_of_ascii]; simpl Z.of_nat; cbn [Pos.of_uint_acc];
    match goal with
    | |- Py.digits ?z true _ = Some (Zpos (Pos.of_uint_acc _ ?a)) =>
      replace z with (Zpos a) by lia
    end; apply IHd.
Qed.

Lemma digits_of_uint (d : Decimal.uint) (after_digit : bool) :
  d <> Decimal.Nil \/ after_digit = true ->
  Py.digits 0 after_digit (list_ascii_of_string (NilEmpty.string_of_uint d))
  = Some (Z.of_N (Pos.of_uint d)).
Proof.
  revert after_digit. induction d; intros b H.
  - destruct H as [H | ->]; [now contradiction H | reflexivity].
  - cbn [NilEmpty.string_of_uint list_ascii_of_string Py.digits].
    change (Py.digit_val "0") with (Some 0%Z). cbn [Pos.of_uint].
    change (10 * 0 + 0)%Z with 0%Z. apply IHd. now right.
  - exact (digits_of_uint_acc d 1).
  - exact (digits_of_uint_acc d 2).
  - exact (digits_of_uint_acc d 3).
  - exact (digits_of_uint_acc d 4).
  - exact (digits_of_uint_acc d 5).
  - exact (digits_of_uint_acc d 6).
  - exact (digits_of_uint_acc d 7).
  - exact (digits_of_uint_acc d 8).
  - exact (digits_of_uint_acc d 9).
Qed.

Lemma signed_digits_of_uint (d : Decimal.uint) :
  d <> Decimal.Nil ->
  Py.signed_digits (list_ascii_of_string (NilEmpty.string_of_uint d))
  = Some (Z.of_N (Pos.of_uint d)).
Proof.
  intros H. rewrite <- (digits_of_uint d false) by now left.
  destruct d; [now contradiction H | ..]; reflexivity.
Qed.

Lemma int_of_str_of_int (z : Z) : Py.int_of_str (Py.str_of_int z) = Ok z.
Proof.
  unfold Py.int_of_str, Py.str_of_int.
  destruct z as [| p | p]; [reflexivity | |]; simpl Z.to_int;
    cbn [NilEmpty.string_of_int list_ascii_of_string].
  - rewrite strip_no_space by apply uint_chars_no_space.
    rewrite signed_digits_of_uint by apply DecimalPos.Unsigned.to_uint_nonnil.
    now rewrite DecimalPos.Unsigned.of_to.
  - rewrite strip_no_space
      by (constructor; [reflexivity | apply uint_chars_no_space]).
    cbn [Py.signed_digits]. change (Ascii.eqb "-" "-") with true. cbv iota.
    rewrite digits_of_uint
      by (left; apply DecimalPos.Unsigned.to_uint_nonnil).
    now rewrite DecimalPos.Unsigned.of_to.
Qed.

(** X15.  The label under which the sweep has a figure drawn,
    [str(thresh)], reads back with [int] as the threshold that the same
    step classifies with, [int(thresh)]: for a list of ints because
    [int(str(n))] is [n], for a list of strings because the label is
    the string itself. *)
Theorem threshold_label_reads_back (thresh : Py.val) :
  Py.int (Py.Str (Py.str thresh)) = Py.int thresh /\
  forall n : Z, Py.int (Py.Str (Py.str (Py.Int n))) = Ok n.
Proof.
  split.
  - destruct thresh as [n | s]; simpl; [apply int_of_str_of_int | reflexivity].
  - intros n. simpl. apply int_of_str_of_int.
Qed.

End LabelFacts.

(** ** The EPSG number *)

Section EpsgFacts.

Context {C : Cshelph}.

Lemma last_field_no_separator (sep : ascii) (cur rest : list ascii) :
  (forall c, In c rest -> Ascii.eqb c sep = false) ->
  Py.last_field sep cur rest = rev cur ++ rest.
Proof.
  revert cur. induction rest as [| c rest IH]; intros cur H; simpl.
  - now rewrite app_nil_r.
  - rewrite (H c (or_introl eq_refl)).
    rewrite IH by (intros; apply H; now right).
    simpl. now rewrite <- app_assoc.
Qed.

Lemma last_field_after_separator (sep : ascii) (cur pre rest : list ascii) :
  (forall c, In c rest -> Ascii.eqb c sep = false) ->
  Py.last_field sep cur (pre ++ sep :: rest) = rest.
Proof.
  intros H. revert cur. induction pre as [| c pre IH]; intros cur; simpl.
  - rewrite Ascii.eqb_refl. now rewrite last_field_no_separator.
  - destruct (Ascii.eqb c sep); apply IH.
Qed.

Lemma list_ascii_of_string_app (s1 s2 : string) :
  list_ascii_of_string (s1 ++ s2)
  = list_ascii_of_string s1 ++ list_ascii_of_string s2.
Proof.
  induction s1 as [| c s1 IH]; simpl; [reflexivity |]. now rewrite IH.
Qed.

Lemma uint_chars_no_colon (d : Decimal.uint) (c : ascii) :
  In c (list_ascii_of_string (NilEmpty.string_of_uint d)) ->
  Ascii.eqb c ":" = false.
Proof.
  induction d; simpl; try easy; intros [<- | H]; auto.
Qed.

Lemma str_of_int_no_colon (n : Z) (c : ascii) :
  In c (list_ascii_of_string (Py.str_of_int n)) -> Ascii.eqb c ":" = false.
Proof.
  unfold Py.str_of_int.
  destruct (Z.to_int n) as [d | d]; simpl.
  - apply uint_chars_no_colon.
  - intros [<- | H]; [reflexivity | now apply uint_chars_no_colon in H].
Qed.

Lemma split_last_code (authority : string) (n : Z) :
  Py.split_last ":" (authority ++ ":" ++ Py.str_of_int n) = Py.str_of_int n.
Proof.
  unfold Py.split_last. rewrite list_ascii_of_string_app. simpl.
  rewrite last_field_after_separator by apply str_of_int_no_colon.
  apply string_of_list_ascii_of_string.
Qed.

(** X16.  The EPSG number that the run keeps (and later hands to
    [produce_figures]) is the integer written after the last colon of
    the code that [convert_wgs_to_utm] returns: for a code made of any
    authority text, a colon and the decimal form of [n], lines 83-84
    yield [n]. *)
Theorem epsg_number_is_read_after_last_colon
    (input laser : string) (authority : string) (n : Z)
    (t : trace) (ld : loaded)
    (Hcode : forall lat lon,
        convert_wgs_to_utm lat lon
        = Ok (authority ++ ":" ++ Py.str_of_int n)%string)
    (Hload : load input laser = (t, Ok ld)) :
  ld_epsg_num ld = n /\
  Py.int_of_str (Py.split_last ":" (authority ++ ":" ++ Py.str_of_int n))
  = Ok n.
Proof.
  assert (Hparse : Py.int_of_str
                     (Py.split_last ":" (authority ++ ":" ++ Py.str_of_int n))
                   = Ok n)
    by (rewrite split_last_code; apply int_of_str_of_int).
  split; [| exact Hparse].
  unfold load in Hload.
  apply bind_inv_ok in Hload. destruct Hload as (t1 & d & u1 & _ & H & _).
  apply bind_inv_ok in H. destruct H as (t2 & lat0 & u2 & _ & H & _).
  apply bind_inv_ok in H. destruct H as (t3 & lon0 & u3 & _ & H & _).
  apply bind_inv_ok in H. destruct H as (t4 & code & u4 & H4 & H & _).
  apply call_inv_ok in H4. destruct H4 as [_ H4].
  rewrite Hcode in H4. injection H4 as <-.
  apply bind_inv_ok in H. destruct H as (t5 & num & u5 & H5 & H & _).
  apply lift_inv_ok in H5. destruct H5 as [_ H5].
  assert (E : Ok num = Ok n) by (rewrite <- H5; exact Hparse).
  injection E as ->.
  apply bind_inv_ok in H.
  destruct H as (t6 & [[lat_utm lon_utm] photon_h] & u6 & _ & H & _).
  apply bind_inv_ok in H. destruct H as (t7 & counts & u7 & _ & H & _).
  apply bind_inv_ok in H. destruct H as (t8 & el & u8 & _ & H & _).
  apply bind_inv_ok in H. destruct H as (t9 & az & u9 & _ & H & _).
  apply bind_inv_ok in H. destruct H as (t10 & al & u10 & _ & H & _).
  apply ret_inv_ok in H. destruct H as [_ <-]. reflexivity.
Qed.

End EpsgFacts.

Lemma epsg_number_is_read_after_last_colon_witness :
  exists t ld, @load Demo.plain "track.h5" "1" = (t, Ok ld) /\
               ld_epsg_num ld = 32610%Z.
Proof.
  eexists. eexists. split.
  - lazy. reflexivity.
  - refine (proj1 (@epsg_number_is_read_after_last_colon Demo.plain
                     "track.h5" "1" "epsg" 32610%Z _ _ _ _)).
    + intros lat lon. reflexivity.
    + lazy. reflexivity.
Defined.

(** ** The temperature that the lookup returns *)

Section LookupFacts.

Context {C : Cshelph}.

Lemma count_bind_le {A B} p (m : M A) (k : A -> M B) (a b : nat) :
  count p (events m) <= a ->
  (forall x, count p (events (k x)) <= b) ->
  count p (events (bind m k)) <= a + b.
Proof.
  destruct m as [t [x | e]]; simpl; intros Ha Hb.
  - specialize (Hb x). destruct (k x) as [t' r]; simpl in *.
    rewrite count_app. lia.
  - lia.
Qed.

Lemma count_quiet_le {A} p (m : M A) : quiet p m -> count p (events m) <= 0.
Proof. intros H. now rewrite quiet_count. Qed.

Lemma sea_temperature_lookup_once input lat lon water_temp :
  count is_water_lookup (events (sea_temperature input lat lon water_temp)) <= 1.
Proof.
  unfold sea_temperature, try_except, call, emit, ret, bind.
  destruct water_temp as [t |]; simpl; [apply Nat.le_0_l |].
  destruct (get_water_temp input lat lon); simpl; apply Nat.le_refl.
Qed.

Lemma sea_temperature_lookup_returns input lat lon (t : float) :
  get_water_temp input lat lon = Ok t ->
  sea_temperature input lat lon None
  = ([Call_get_water_temp input; StdoutWaterTemp t], Ok t).
Proof.
  intros H. unfold sea_temperature, try_except, call, emit, ret, bind.
  now rewrite H.
Qed.

(** X17.  When no water temperature is given and the lookup returns
    [t], the temperature stage calls [get_water_temp], prints [t] and no
    fallback warning, and returns [t]; every call of
    [refraction_correction] in the run receives [t]. *)
Theorem looked_up_water_temp_is_used
    (input laser : string) (thresh : option Z)
    (threshlist : option (list Py.val)) (output : option string)
    (lat_res h_res : float) (t : float) (start_lat end_lat : option float)
    (min_buffer max_buffer surface_buffer : float)
    (Hlookup : forall lat lon, get_water_temp input lat lon = Ok t) :
  let run :=
    run_cshelph input laser thresh threshlist output lat_res h_res None
      start_lat end_lat min_buffer max_buffer surface_buffer in
  Forall (refraction_at t) (events run) /\
  (forall lat lon,
     sea_temperature input lat lon None
     = ([Call_get_water_temp input; StdoutWaterTemp t], Ok t)).
Proof.
  intros run. split.
  - unfold run. rewrite run_cshelph_body. unfold run_body, prepare.
    assert (Hq : forall ev, is_refraction ev = false -> refraction_at t ev)
      by (intros []; simpl; intros; try discriminate; exact I).
    apply every_bind.
    + apply every_bind.
      { apply (quiet_every is_refraction _ _ Hq), quiet_load; reflexivity. }
      intros t1 ld _. apply every_bind; [apply every_lift |]. intros t2 a _.
      apply every_bind.
      { apply (quiet_every is_refraction _ _ Hq), quiet_filtered_frame. }
      intros t3 d _. apply every_bind.
      { apply (quiet_every is_refraction _ _ Hq), quiet_sea_surface;
          reflexivity. }
      intros t4 s _. apply every_bind.
      { apply (quiet_every is_refraction _ _ Hq), quiet_sea_temperature;
          reflexivity. }
      intros t5 wt Hwt.
      rewrite (sea_temperature_lookup_returns _ _ _ t (Hlookup _ _)) in Hwt.
      injection Hwt as _ <-.
      apply every_bind; [apply every_correct_and_bin |].
      intros. apply every_ret.
    + intros t0 cx _.
      apply (quiet_every is_refraction _ _ Hq), quiet_classify; reflexivity.
  - intros lat lon. apply sea_temperature_lookup_returns, Hlookup.
Qed.

(** X18.  In every run, whatever temperature was or was not supplied
    and whether the lookup returns or raises, [get_water_temp] is called
    at most once. *)
Theorem water_temp_lookup_at_most_once
    (input laser : string) (thresh : option Z)
    (threshlist : option (list Py.val)) (output : option string)
    (lat_res h_res : float) (water_temp start_lat end_lat : option float)
    (min_buffer max_buffer surface_buffer : float) :
  count is_water_lookup
    (events (run_cshelph input laser thresh threshlist output lat_res h_res
               water_temp start_lat end_lat min_buffer max_buffer
               surface_buffer)) <= 1.
Proof.
  rewrite run_cshelph_body. unfold run_body, prepare.
  apply (count_bind_le _ _ _ 1 0).
  - apply (count_bind_le _ _ _ 0 1);
      [apply count_quiet_le, quiet_load; reflexivity | intros].
    apply (count_bind_le _ _ _ 0 1);
      [apply count_quiet_le, quiet_lift | intros].
    apply (count_bind_le _ _ _ 0 1);
      [apply count_quiet_le, quiet_filtered_frame | intros].
    apply (count_bind_le _ _ _ 0 1);
      [apply count_quiet_le, quiet_sea_surface; reflexivity | intros].
    apply (count_bind_le _ _ _ 1 0);
      [apply sea_temperature_lookup_once | intros].
    apply (count_bind_le _ _ _ 0 0);
      [apply count_quiet_le, quiet_correct_and_bin; reflexivity | intros].
    apply count_quiet_le, quiet_ret.
  - intros. apply count_quiet_le, quiet_classify; reflexivity.
Qed.

End LookupFacts.

Lemma looked_up_water_temp_is_used_witness :
  Forall (refraction_at (Demo.f 18))
    (events (Demo.run (Demo.cshelph Demo.signal (Ok (Demo.f 18))
                         Demo.none_refused)
               (Demo.args (Some 30%Z) None))).
Proof.
  refine (proj1 (@looked_up_water_temp_is_used
                   (Demo.cshelph Demo.signal (Ok (Demo.f 18)) Demo.none_refused)
                   "track.h5" "1" (Some 30%Z) None None (Demo.f 10) F64.half
                   (Demo.f 18) None None (Demo.f (-40)) (Demo.f 5)
                   F64.minus_half _)).
  intros lat lon. reflexivity.
Defined.
